(** * libzygote: the zygote daemon (zygote.c) and its growth client (grow.c)

    A shallow embedding of the two C sources.  Every system call the
    programs issue is an event; the results the kernel and the dynamic
    loader hand back are read from an explicit oracle, so that a statement
    quantified over the oracle speaks about every execution. *)

From Stdlib Require Import String.
From Stdlib Require Import ZArith List Lia Bool.
From Stdlib Require Import Strings.Byte.
From stdpp Require Import gmap list.

Local Open Scope Z_scope.

(** ** Bytes, C strings and the [int] object representation *)

(** A C string, without its terminating NUL. *)
Definition cstring : Type := list byte.

Definition cs (s : String.string) : cstring := String.list_byte_of_string s.
Arguments cs s%_string.

Definition NUL : byte := "000"%byte.

Definition byte_of_Z (z : Z) : byte :=
  match Byte.of_N (Z.to_N (z mod 256)) with
  | Some b => b
  | None => NUL
  end.

Definition Z_of_byte (b : byte) : Z := Z.of_N (Byte.to_N b).

Definition INT_MAX : Z := 2147483647.

(** Conversion to [int]: wrap-around on 32 bits, two's complement. *)
Definition wrap_int (z : Z) : Z := (z + 2 ^ 31) mod 2 ^ 32 - 2 ^ 31.

(** The four bytes of an [int] in host byte order (least significant byte
    first, as on the x86 and ARM Linux hosts the library targets). *)
Definition int_bytes (z : Z) : list byte :=
  [ byte_of_Z z; byte_of_Z (Z.shiftr z 8);
    byte_of_Z (Z.shiftr z 16); byte_of_Z (Z.shiftr z 24) ].

Definition bytes_int (bs : list byte) : Z :=
  wrap_int (fold_right (fun b acc => Z_of_byte b + 256 * acc) 0 (take 4 bs)).

(** What a system call that delivered [new] leaves in a buffer that held
    [old]: the first bytes are overwritten, the others keep their value. *)
Definition store_bytes (old new : list byte) : list byte :=
  new ++ drop (length new) old.

(** [strdup]: the bytes up to the first NUL. *)
Fixpoint strdup (m : list byte) : cstring :=
  match m with
  | [] => []
  | b :: m' => if Byte.eqb b NUL then [] else b :: strdup m'
  end.

(** [strlen], converted to [int] as [sendNum] does. *)
Definition strlen (s : cstring) : Z := Z.of_nat (length s).

(** ** The kernel: stream sockets and descriptor tables *)

(** An open file description. *)
Definition file : Type := nat.

(** Ancillary data riding on the first byte of a chunk. *)
Inductive cmsg : Type :=
| NoCmsg
| Rights (f : file)        (* SOL_SOCKET / SCM_RIGHTS, one descriptor *)
| OtherCmsg.               (* right length, other level or type *)

(** What is queued on a stream socket: data in arrival units, or an error
    the next call will report. *)
Inductive chunk : Type :=
| CErr
| CData (bs : list byte) (c : cmsg).

(** Result of [read]/[recvmsg]: -1, or the bytes delivered. *)
Inductive rd : Type :=
| RdErr
| RdData (bs : list byte) (c : cmsg).

Definition rd_ret (r : rd) : Z :=
  match r with
  | RdErr => -1
  | RdData bs _ => Z.of_nat (length bs)
  end.

(** A receive of at most [n] bytes.  A request for nothing returns at
    once; an empty queue is end of stream; data beyond [n] stays queued. *)
Definition sys_recv (n : nat) (ch : list chunk) : rd * list chunk :=
  match n with
  | O => (RdData [] NoCmsg, ch)
  | _ =>
    match ch with
    | [] => (RdData [] NoCmsg, [])
    | CErr :: ch' => (RdErr, ch')
    | CData bs c :: ch' =>
      (RdData (take n bs) c,
       match drop n bs with
       | [] => ch'
       | rest => CData rest NoCmsg :: ch'
       end)
    end
  end.

(** The lowest descriptor number not in use, below the process limit. *)
Definition lowest_free (nofile : Z) (t : gmap Z file) : option Z :=
  find (fun d => bool_decide (t !! d = None)) (seqZ 0 nofile).

(** [dup2(oldfd, newfd)]: fails on a descriptor that is not open. *)
Definition sys_dup2 (oldfd newfd : Z) (t : gmap Z file) : option (gmap Z file) :=
  match t !! oldfd with
  | None => None
  | Some f => Some (<[newfd := f]> t)
  end.

(** The next result of a [write]; an exhausted oracle lets it succeed. *)
Definition next_ok (o : list bool) : bool * list bool :=
  match o with
  | [] => (true, [])
  | b :: o' => (b, o')
  end.

(** ** Processes *)

(** An opaque pointer handed to the code unit; [0] is NULL. *)
Definition ptr : Type := Z.

(** A handle returned by [dlopen]. *)
Definition handle : Type := nat.

(** The type [run_t] of the entry point: objc, objv, argc, argv to [int]. *)
Definition run_t : Type := Z -> list ptr -> Z -> list cstring -> Z.

(** Functions registered with [atexit]/[on_exit]. *)
Inductive hook : Type :=
| Hook_cleanup
| Hook_replyWithExitStatus.

(** Signal dispositions installed by [zygote]. *)
Inductive sighandler : Type :=
| Handler_reapChild
| Handler_cleanupBeforeExit.

Definition SIGINT : Z := 2.
Definition SIGQUIT : Z := 3.
Definition SIGTERM : Z := 15.
Definition SIGCHLD : Z := 17.

(** The call site of a status [write] on the connection. *)
Inductive wsite : Type :=
| Pid_write              (* "pid write" *)
| Exitcode_write         (* "exitcode write" *)
| Error_write            (* under the [error:] label *)
| Hook_write.            (* in [replyWithExitStatus] *)

Inductive event : Type :=
| EvRead (fd : Z) (n : Z) (r : rd)
| EvWrite (site : wsite) (fd : Z) (v : Z) (ok : bool)
| EvRecvmsg (fd : Z) (r : rd) (newfd : option Z)
| EvDup2 (oldfd newfd : Z) (ok : bool)
| EvChdir (path : cstring)
| EvDlopen (path : option cstring) (h : option handle)
| EvDlsym (h : handle) (ok : bool)
| EvRun (objc : Z) (objv : list ptr) (argc : Z) (argv : list cstring)
        (open_fds : gmap Z file) (ret : Z)
| EvDlclose (h : handle)
| EvAtexit (h : hook)                        (* [atexit] or [on_exit] *)
| EvSignal (sig : Z) (h : sighandler)
| EvDup (oldfd : Z) (r : Z)
| EvSocket (r : Z)
| EvBind (fd : Z) (path : cstring) (ok : bool)
| EvListen (fd : Z) (ok : bool)
| EvAccept (fd : Z) (r : Z)
| EvFork (r : Z)
| EvClose (fd : Z)
| EvUnlink (path : cstring)
| EvExit (status : Z).

(** What the process cannot choose: its pid, the contents of the heap and
    of the [int] locals it has not initialised, its descriptor limit, the
    loader and the file system. *)
Record world : Type := {
  pid : Z;
  junk : nat -> byte;
  uninit : nat -> Z;
  nofile : Z;
  dlopen : option cstring -> option handle;
  dlsym : handle -> option run_t;
  is_dir : cstring -> bool
}.

(** Process state: the kernel's view (queued input of the connection, the
    results of future writes, the descriptor table), the globals of
    zygote.c, and the locals [num], [buf] and [fds] of [grow_this_zygote],
    which are given their values when the function is entered. *)
Record state : Type := {
  chan : list chunk;
  wr_ok : list bool;
  fdt : gmap Z file;
  environ : list cstring;
  cwd : cstring;
  zygote_socket_fd : Z;
  zygote_socket_path : option cstring;
  grow_connection_fd : Z;
  exit_hooks : list hook;                 (* most recently registered first *)
  sig_handlers : list (Z * sighandler);
  num : Z;
  buf : list byte;
  fds : list Z
}.

Definition set_chan (x : list chunk) (s : state) : state :=
  {| chan := x; wr_ok := wr_ok s; fdt := fdt s; environ := environ s; cwd := cwd s;
     zygote_socket_fd := zygote_socket_fd s; zygote_socket_path := zygote_socket_path s;
     grow_connection_fd := grow_connection_fd s; exit_hooks := exit_hooks s;
     sig_handlers := sig_handlers s; num := num s; buf := buf s; fds := fds s |}.

Definition set_wr_ok (x : list bool) (s : state) : state :=
  {| chan := chan s; wr_ok := x; fdt := fdt s; environ := environ s; cwd := cwd s;
     zygote_socket_fd := zygote_socket_fd s; zygote_socket_path := zygote_socket_path s;
     grow_connection_fd := grow_connection_fd s; exit_hooks := exit_hooks s;
     sig_handlers := sig_handlers s; num := num s; buf := buf s; fds := fds s |}.

Definition set_fdt (x : gmap Z file) (s : state) : state :=
  {| chan := chan s; wr_ok := wr_ok s; fdt := x; environ := environ s; cwd := cwd s;
     zygote_socket_fd := zygote_socket_fd s; zygote_socket_path := zygote_socket_path s;
     grow_connection_fd := grow_connection_fd s; exit_hooks := exit_hooks s;
     sig_handlers := sig_handlers s; num := num s; buf := buf s; fds := fds s |}.

Definition set_environ (x : list cstring) (s : state) : state :=
  {| chan := chan s; wr_ok := wr_ok s; fdt := fdt s; environ := x; cwd := cwd s;
     zygote_socket_fd := zygote_socket_fd s; zygote_socket_path := zygote_socket_path s;
     grow_connection_fd := grow_connection_fd s; exit_hooks := exit_hooks s;
     sig_handlers := sig_handlers s; num := num s; buf := buf s; fds := fds s |}.

Definition set_cwd (x : cstring) (s : state) : state :=
  {| chan := chan s; wr_ok := wr_ok s; fdt := fdt s; environ := environ s; cwd := x;
     zygote_socket_fd := zygote_socket_fd s; zygote_socket_path := zygote_socket_path s;
     grow_connection_fd := grow_connection_fd s; exit_hooks := exit_hooks s;
     sig_handlers := sig_handlers s; num := num s; buf := buf s; fds := fds s |}.

Definition set_endpoint (fd : Z) (path : option cstring) (s : state) : state :=
  {| chan := chan s; wr_ok := wr_ok s; fdt := fdt s; environ := environ s; cwd := cwd s;
     zygote_socket_fd := fd; zygote_socket_path := path;
     grow_connection_fd := grow_connection_fd s; exit_hooks := exit_hooks s;
     sig_handlers := sig_handlers s; num := num s; buf := buf s; fds := fds s |}.

Definition set_grow_connection_fd (x : Z) (s : state) : state :=
  {| chan := chan s; wr_ok := wr_ok s; fdt := fdt s; environ := environ s; cwd := cwd s;
     zygote_socket_fd := zygote_socket_fd s; zygote_socket_path := zygote_socket_path s;
     grow_connection_fd := x; exit_hooks := exit_hooks s;
     sig_handlers := sig_handlers s; num := num s; buf := buf s; fds := fds s |}.

Definition set_exit_hooks (x : list hook) (s : state) : state :=
  {| chan := chan s; wr_ok := wr_ok s; fdt := fdt s; environ := environ s; cwd := cwd s;
     zygote_socket_fd := zygote_socket_fd s; zygote_socket_path := zygote_socket_path s;
     grow_connection_fd := grow_connection_fd s; exit_hooks := x;
     sig_handlers := sig_handlers s; num := num s; buf := buf s; fds := fds s |}.

Definition set_sig_handlers (x : list (Z * sighandler)) (s : state) : state :=
  {| chan := chan s; wr_ok := wr_ok s; fdt := fdt s; environ := environ s; cwd := cwd s;
     zygote_socket_fd := zygote_socket_fd s; zygote_socket_path := zygote_socket_path s;
     grow_connection_fd := grow_connection_fd s; exit_hooks := exit_hooks s;
     sig_handlers := x; num := num s; buf := buf s; fds := fds s |}.

Definition set_num (x : Z) (s : state) : state :=
  {| chan := chan s; wr_ok := wr_ok s; fdt := fdt s; environ := environ s; cwd := cwd s;
     zygote_socket_fd := zygote_socket_fd s; zygote_socket_path := zygote_socket_path s;
     grow_connection_fd := grow_connection_fd s; exit_hooks := exit_hooks s;
     sig_handlers := sig_handlers s; num := x; buf := buf s; fds := fds s |}.

Definition set_buf (x : list byte) (s : state) : state :=
  {| chan := chan s; wr_ok := wr_ok s; fdt := fdt s; environ := environ s; cwd := cwd s;
     zygote_socket_fd := zygote_socket_fd s; zygote_socket_path := zygote_socket_path s;
     grow_connection_fd := grow_connection_fd s; exit_hooks := exit_hooks s;
     sig_handlers := sig_handlers s; num := num s; buf := x; fds := fds s |}.

Definition set_fds (x : list Z) (s : state) : state :=
  {| chan := chan s; wr_ok := wr_ok s; fdt := fdt s; environ := environ s; cwd := cwd s;
     zygote_socket_fd := zygote_socket_fd s; zygote_socket_path := zygote_socket_path s;
     grow_connection_fd := grow_connection_fd s; exit_hooks := exit_hooks s;
     sig_handlers := sig_handlers s; num := num s; buf := buf s; fds := x |}.

(** ** Control flow: events, state, [goto error] and undefined behaviour *)

Inductive res (St A : Type) : Type :=
| Done (a : A) (s : St)
| Goto_error (s : St)
| Undefined (s : St).
Arguments Done {St A} a s.
Arguments Goto_error {St A} s.
Arguments Undefined {St A} s.

(** A block of C code: from a state, the events it issues in order and how
    it is left. *)
Definition prog (St Ev A : Type) : Type := St -> list Ev * res St A.

Definition ret {St Ev A} (a : A) : prog St Ev A := fun s => ([], Done a s).

Definition bind {St Ev A B} (m : prog St Ev A) (k : A -> prog St Ev B) : prog St Ev B :=
  fun s =>
    match m s with
    | (es, Done a s1) => let (es', r) := k a s1 in (es ++ es', r)
    | (es, Goto_error s1) => (es, Goto_error s1)
    | (es, Undefined s1) => (es, Undefined s1)
    end.

Notation "x <- m ;; k" := (bind m (fun x => k))
  (at level 20, m at level 99, k at level 200, only parsing).
Notation "m ;; k" := (bind m (fun _ => k))
  (at level 100, k at level 200, right associativity, only parsing).

Definition get {St Ev} : prog St Ev St := fun s => ([], Done s s).
Definition modify {St Ev} (f : St -> St) : prog St Ev unit := fun s => ([], Done tt (f s)).
Definition emit {St Ev} (e : Ev) : prog St Ev unit := fun s => ([e], Done tt s).
Definition goto_error {St Ev A} : prog St Ev A := fun s => ([], Goto_error s).
Definition undefined {St Ev A} : prog St Ev A := fun s => ([], Undefined s).

(** Code of the daemon. *)
Abbreviation M := (prog state event).

(** How a process is left by one of the library's entry points. *)
Inductive outcome : Type :=
| Returned (v : Z) (s : state)        (* back in the host program *)
| Exited (status : Z) (s : state)     (* [exit] was called *)
| Listening (s : state)               (* blocked in [accept] *)
| Undefined_behaviour (s : state).

(** [EXIT_FAILURE] of stdlib.h. *)
Definition EXIT_FAILURE : Z := 1.

(** The capability objects: the variadic arguments up to the first NULL. *)
Fixpoint objv_of_varargs (ap : list ptr) : list ptr :=
  match ap with
  | [] => []
  | p :: ap' => if Z.eqb p 0 then [] else p :: objv_of_varargs ap'
  end.

(** What the environment of a starting daemon answers. *)
Inductive unlink_result : Type :=
| Unlink_ok
| Unlink_ENOENT
| Unlink_failed.

Record boot : Type := {
  stale : unlink_result;        (* [unlink] of a stale endpoint *)
  sock : option file;           (* [socket] *)
  bind_ok : bool;
  listen_ok : bool
}.

(** One return of [accept] together with the [fork] that follows: the
    connection's open file, what the peer will send on it, how writes on it
    will fare, and the value [fork] returns in the process observed. *)
Record incoming : Type := {
  conn_file : file;
  request : list chunk;
  conn_wr_ok : list bool;
  fork_ret : Z
}.

Section Zygote.

(** Constants the sources take from headers that are not among them, and
    the compile-time choice of the exit hook. *)
Variable ZYGOTE_VERSION : Z.       (* zygote.h *)
Variable BUFSIZ : Z.               (* stdio.h *)
Variable UNIX_PATH_MAX : Z.        (* sizeof of sun_path *)
Variable HAS_ON_EXIT : bool.       (* defined when _BSD_SOURCE is *)

Variable w : world.

(** *** Memory *)

Definition malloc (size : nat) : list byte := map (junk w) (seq 0 size).

Definition realloc (m : list byte) (size : nat) : list byte :=
  m ++ map (junk w) (seq (length m) (size - length m)).

Definition buflen (s : state) : Z := Z.of_nat (length (buf s)).

(** *** System calls of the child *)

Definition sys_read_num (fd : Z) : M Z := fun s =>
  let '(r, ch) := sys_recv 4 (chan s) in
  ([EvRead fd 4 r],
   Done (rd_ret r)
     (match r with
      | RdErr => set_chan ch s
      | RdData bs _ =>
        set_num (bytes_int (store_bytes (int_bytes (num s)) bs)) (set_chan ch s)
      end)).

Definition sys_read_buf (fd : Z) : M Z := fun s =>
  let '(r, ch) := sys_recv (Z.to_nat (num s)) (chan s) in
  ([EvRead fd (num s) r],
   Done (rd_ret r)
     (match r with
      | RdErr => set_chan ch s
      | RdData bs _ => set_buf (store_bytes (buf s) bs) (set_chan ch s)
      end)).

Definition sys_write_num (site : wsite) (fd : Z) (v : Z) : M Z := fun s =>
  let '(ok, o) := next_ok (wr_ok s) in
  ([EvWrite site fd v ok], Done (if ok then 4 else -1) (set_wr_ok o s)).

Definition sys_close (fd : Z) : M unit := fun s =>
  ([EvClose fd], Done tt (set_fdt (delete fd (fdt s)) s)).

(** *** read_fd *)

(** [read_fd(fd, buf, 1, fds+k)]: returns what [recvmsg] returned; the
    slot is assigned only when at least one byte came. *)
Definition read_fd (fd : Z) (k : nat) : M Z := fun s =>
  let '(r, ch) := sys_recv 1 (chan s) in
  let s1 := set_chan ch s in
  match r with
  | RdErr => ([EvRecvmsg fd r None], Done (-1) s1)
  | RdData [] _ => ([EvRecvmsg fd r None], Done 0 s1)
  | RdData (b :: bs) c =>
    let s2 := set_buf (store_bytes (buf s1) (b :: bs)) s1 in
    match c with
    | Rights f =>
      match lowest_free (nofile w) (fdt s2) with
      | Some d =>
        ([EvRecvmsg fd r (Some d)],
         Done (rd_ret r) (set_fds (<[k := d]> (fds s2)) (set_fdt (<[d := f]> (fdt s2)) s2)))
      | None =>                  (* no room: the descriptor is dropped *)
        ([EvRecvmsg fd r None], Done (rd_ret r) (set_fds (<[k := -1]> (fds s2)) s2))
      end
    | OtherCmsg => ([EvRecvmsg fd r None], Done (rd_ret r) s2)
    | NoCmsg => ([EvRecvmsg fd r None], Done (rd_ret r) (set_fds (<[k := -1]> (fds s2)) s2))
    end
  end.

(** *** The macros of grow_this_zygote *)

Definition recvNum (connection_fd : Z) : M unit :=
  n <- sys_read_num connection_fd ;;
  if Z.eqb n (-1) then goto_error else ret tt.

(** A negative length indexes [buf] out of bounds, and [INT_MAX + 1]
    overflows: both are undefined and reported before the read. *)
Definition recvStr (connection_fd : Z) : M unit :=
  recvNum connection_fd ;;
  s <- get ;;
  if bool_decide (num s < 0 \/ num s = INT_MAX) then undefined else
  (if Z.ltb (buflen s - 1) (num s)
   then modify (fun s => set_buf (realloc (buf s) (Z.to_nat (num s + 1))) s)
   else ret tt) ;;
  n <- sys_read_buf connection_fd ;;
  if Z.eqb n (-1) then goto_error else
  modify (fun s => set_buf (<[Z.to_nat (num s) := NUL]> (buf s)) s).

(** *** The loops *)

(** [for (i=num; i>0; i--, env++) { recvStr(environ_i); *env = strdup(buf); }] *)
Fixpoint recv_environ (connection_fd : Z) (i : nat) : M unit :=
  match i with
  | O => ret tt
  | S i' =>
    recvStr connection_fd ;;
    modify (fun s => set_environ (environ s ++ [strdup (buf s)]) s) ;;
    recv_environ connection_fd i'
  end.

(** [for (i=1; i<argc; i++) { recvStr(argv_i); argv[i] = strdup(buf); }],
    with [n] iterations left. *)
Fixpoint recv_argv (connection_fd : Z) (n : nat) (argv : list cstring) : M (list cstring) :=
  match n with
  | O => ret argv
  | S n' =>
    recvStr connection_fd ;;
    s <- get ;;
    recv_argv connection_fd n' (argv ++ [strdup (buf s)])
  end.

(** [for (i=0; i<3; i++) if (dup2(fds[i], i) == -1) goto error;],
    from slot [i] with [n] iterations left. *)
Fixpoint dup_fds (i : nat) (n : nat) : M unit :=
  match n with
  | O => ret tt
  | S n' =>
    s <- get ;;
    let oldfd := default (-1) (fds s !! i) in
    match sys_dup2 oldfd (Z.of_nat i) (fdt s) with
    | None => emit (EvDup2 oldfd (Z.of_nat i) false) ;; goto_error
    | Some t =>
      emit (EvDup2 oldfd (Z.of_nat i) true) ;;
      modify (set_fdt t) ;;
      dup_fds (S i) n'
    end
  end.

(** *** Exit handlers *)

Definition replyWithExitStatus (status : Z) (s : state) : list event * state :=
  if Z.eqb (grow_connection_fd s) (-1) then ([], s)
  else
    let '(ok, o) := next_ok (wr_ok s) in
    ([EvWrite Hook_write (grow_connection_fd s) status ok], set_wr_ok o s).

Definition cleanup (s : state) : list event * state :=
  let (es1, s1) :=
    if Z.eqb (zygote_socket_fd s) (-1) then ([], s)
    else ([EvClose (zygote_socket_fd s)], set_fdt (delete (zygote_socket_fd s) (fdt s)) s) in
  match zygote_socket_path s1 with
  | None => (es1, s1)
  | Some path => (es1 ++ [EvUnlink path], s1)
  end.

Definition run_hook (h : hook) (status : Z) (s : state) : list event * state :=
  match h with
  | Hook_cleanup => cleanup s
  | Hook_replyWithExitStatus => replyWithExitStatus status s
  end.

Fixpoint run_hooks (hs : list hook) (status : Z) (s : state) : list event * state :=
  match hs with
  | [] => ([], s)
  | h :: hs' =>
    let (es, s1) := run_hook h status s in
    let (es', s2) := run_hooks hs' status s1 in
    (es ++ es', s2)
  end.

(** [exit(status)]: the registered functions in reverse order of their
    registration, then the process is gone. *)
Definition exit (status : Z) (s : state) : list event * outcome :=
  let (es, s1) := run_hooks (exit_hooks s) status s in
  (es ++ [EvExit status], Exited status s1).

Definition cleanupBeforeExit (sig : Z) (s : state) : list event * outcome :=
  let (es, s1) := cleanup s in
  let (es', o) := exit sig s1 in
  (es ++ es', o).

(** Delivery of a signal for which [zygote] installed a handler. *)
Definition handle_signal (sig : Z) (s : state) : option (list event * outcome) :=
  match List.find (fun p => Z.eqb (fst p) sig) (sig_handlers s) with
  | Some (_, Handler_cleanupBeforeExit) => Some (cleanupBeforeExit sig s)
  | Some (_, Handler_reapChild) => Some ([], Listening s)
  | None => None
  end.

(** *** grow_this_zygote *)

(** The function is embedded in the four phases its comments mark out;
    [Goto_error] stands for a jump to the [error:] label.  Allocation is
    taken to succeed; the writes of the [log] macro go to the daemon's own
    log stream and are left out. *)

(** From "verify libzygote version" to "get argv": the decoded [argc] and
    [argv]. *)
Definition recv_request (connection_fd : Z) : M (Z * list cstring) :=
  (* verify libzygote version *)
  recvNum connection_fd ;;
  s <- get ;;
  if negb (Z.eqb (num s) ZYGOTE_VERSION) then goto_error else
  modify (set_num (pid w)) ;;
  n <- sys_write_num Pid_write connection_fd (pid w) ;;
  if Z.eqb n (-1) then goto_error else
  (* replace environ *)
  recvNum connection_fd ;;
  s <- get ;;
  if Z.ltb (num s) 0 then undefined else
  modify (set_environ []) ;;
  recv_environ connection_fd (Z.to_nat (num s)) ;;
  (* chdir to cwd *)
  recvStr connection_fd ;;
  s <- get ;;
  emit (EvChdir (strdup (buf s))) ;;
  modify (fun s => if is_dir w (strdup (buf s)) then set_cwd (strdup (buf s)) s else s) ;;
  (* get argc *)
  recvNum connection_fd ;;
  s <- get ;;
  let argc := num s in
  (* get code_path *)
  recvStr connection_fd ;;
  s <- get ;;
  if Z.leb argc 0 then undefined else
  (* get argv *)
  argv <- recv_argv connection_fd (Z.to_nat (argc - 1)) [strdup (buf s)] ;;
  ret (argc, argv).

(** "dynamically load the code" *)
Definition load_code (code_path : cstring) : M (handle * run_t) :=
  emit (EvDlopen (Some code_path) (dlopen w (Some code_path))) ;;
  match dlopen w (Some code_path) with
  | None => goto_error
  | Some h =>
    emit (EvDlsym h (bool_decide (is_Some (dlsym w h)))) ;;
    match dlsym w h with
    | None => goto_error
    | Some run => ret (h, run)
    end
  end.

(** "receive and dup file descriptors" *)
Definition recv_stdio (connection_fd : Z) : M unit :=
  n <- read_fd connection_fd 2 ;;
  if Z.eqb n (-1) then goto_error else
  n <- read_fd connection_fd 1 ;;
  if Z.eqb n (-1) then goto_error else
  n <- read_fd connection_fd 0 ;;
  if Z.eqb n (-1) then goto_error else
  dup_fds 0 3.

(** "actually run the code" and "send back return code when this process
    exits", up to [return num]. *)
Definition run_and_reply (connection_fd : Z) (objc : Z) (objv : list ptr)
    (argc : Z) (argv : list cstring) (h : handle) (run : run_t) : M Z :=
  s <- get ;;
  let r := run objc objv argc argv in
  emit (EvRun objc objv argc argv (fdt s) r) ;;
  modify (set_num r) ;;
  emit (EvDlclose h) ;;
  (if HAS_ON_EXIT then
     modify (set_grow_connection_fd connection_fd) ;;
     emit (EvAtexit Hook_replyWithExitStatus) ;;
     modify (fun s => set_exit_hooks (Hook_replyWithExitStatus :: exit_hooks s) s)
   else
     n <- sys_write_num Exitcode_write connection_fd r ;;
     if Z.eqb n (-1) then goto_error else ret tt) ;;
  s <- get ;;
  ret (num s).

(** On entry [buf] is allocated; [fds] and [num] hold whatever the stack
    held. *)
Definition enter (s : state) : state :=
  set_buf (malloc (Z.to_nat BUFSIZ))
    (set_num (uninit w 3) (set_fds [uninit w 0; uninit w 1; uninit w 2] s)).

Definition grow_this_zygote_body (connection_fd : Z) (objc : Z) (objv : list ptr) : M Z :=
  modify enter ;;
  a <- recv_request connection_fd ;;
  l <- load_code (default [] (head (snd a))) ;;
  recv_stdio connection_fd ;;
  run_and_reply connection_fd objc objv (fst a) (snd a) (fst l) (snd l).

(** The [error:] label. *)
Definition error_path (connection_fd : Z) (s : state) : list event * outcome :=
  let s1 := set_num EXIT_FAILURE s in
  let '(ok, o) := next_ok (wr_ok s1) in
  let s2 := set_fdt (delete connection_fd (fdt s1)) (set_wr_ok o s1) in
  let (es, out) := exit EXIT_FAILURE s2 in
  (EvWrite Error_write connection_fd EXIT_FAILURE ok :: EvClose connection_fd :: es, out).

Definition grow_this_zygote (connection_fd : Z) (objc : Z) (objv : list ptr)
    (s : state) : list event * outcome :=
  match grow_this_zygote_body connection_fd objc objv s with
  | (es, Done v s1) => (es, Returned v s1)
  | (es, Goto_error s1) =>
    let (es', out) := error_path connection_fd s1 in (es ++ es', out)
  | (es, Undefined s1) => (es, Undefined_behaviour s1)
  end.

(** *** zygote *)

(** The child branch of the [fork]: "make sure child doesn't do parent's
    jobs", then grow.  The connection's input and write results become the
    ones the kernel model consults. *)
Definition zygote_child (connection_fd : Z) (objc : Z) (objv : list ptr) (c : incoming)
    (s : state) : list event * outcome :=
  let s1 := set_endpoint (-1) None s in
  grow_this_zygote connection_fd objc objv (set_wr_ok (conn_wr_ok c) (set_chan (request c) s1)).

(** The accept loop, as seen by one process: every [accept] whose [fork]
    returns non-zero leaves it the parent; the first [fork] that returns 0
    makes it the child. *)
Fixpoint accept_loop (socket_fd : Z) (socket_path : cstring) (objc : Z) (objv : list ptr)
    (conns : list (option incoming)) (s : state) : list event * outcome :=
  match conns with
  | [] => ([], Listening s)
  | c :: conns' =>
    match
      match c with
      | None => None
      | Some c => option_map (fun d => (c, d)) (lowest_free (nofile w) (fdt s))
      end
    with
    | None =>                                 (* accept returned -1: break *)
      ([EvAccept socket_fd (-1); EvClose socket_fd; EvUnlink socket_path],
       Returned 0 (set_fdt (delete socket_fd (fdt s)) s))
    | Some (c, connection_fd) =>
      let s1 := set_fdt (<[connection_fd := conn_file c]> (fdt s)) s in
      if Z.eqb (fork_ret c) 0 then
        let (es, out) := zygote_child connection_fd objc objv c s1 in
        (EvAccept socket_fd connection_fd :: EvFork 0 :: es, out)
      else
        let s2 := set_fdt (delete connection_fd (fdt s1)) s1 in
        let (es, out) := accept_loop socket_fd socket_path objc objv conns' s2 in
        (EvAccept socket_fd connection_fd :: EvFork (fork_ret c) :: EvClose connection_fd :: es,
         out)
    end
  end.

Definition zygote (socket_path : cstring) (ap : list ptr) (b : boot)
    (conns : list (option incoming)) (s : state) : list event * outcome :=
  if Z.leb UNIX_PATH_MAX (strlen socket_path) then ([], Returned (-1) s) else
  (* zygote_stderr = fdopen(dup(2), "w") *)
  let dup_r :=
    match fdt s !! 2, lowest_free (nofile w) (fdt s) with
    | Some f, Some d => Some (d, f)
    | _, _ => None
    end in
  let s0 := match dup_r with Some (d, f) => set_fdt (<[d := f]> (fdt s)) s | None => s end in
  let ev_dup := EvDup 2 (match dup_r with Some (d, _) => d | None => -1 end) in
  (* prepare objc, objv from varargs *)
  let objv := objv_of_varargs ap in
  let objc := Z.of_nat (length objv) in
  match stale b with
  | Unlink_failed => ([ev_dup; EvUnlink socket_path], Returned (-1) s0)
  | _ =>
    match
      match sock b with
      | None => None
      | Some f => option_map (fun d => (d, f)) (lowest_free (nofile w) (fdt s0))
      end
    with
    | None => ([ev_dup; EvUnlink socket_path; EvSocket (-1)], Returned (-1) s0)
    | Some (socket_fd, f) =>
      let s1 := set_fdt (<[socket_fd := f]> (fdt s0)) s0 in
      let pre := [ev_dup; EvUnlink socket_path; EvSocket socket_fd] in
      if negb (bind_ok b) then
        (pre ++ [EvBind socket_fd socket_path false; EvClose socket_fd],
         Returned (-1) (set_fdt (delete socket_fd (fdt s1)) s1))
      else if negb (listen_ok b) then
        (pre ++ [EvBind socket_fd socket_path true; EvListen socket_fd false],
         Returned (-1) s1)
      else
        let s2 := set_sig_handlers ((SIGCHLD, Handler_reapChild) :: sig_handlers s1) s1 in
        (* cleanup before exiting *)
        let s3 := set_endpoint socket_fd (Some socket_path) s2 in
        let s4 := set_exit_hooks (Hook_cleanup :: exit_hooks s3) s3 in
        (* cleanup on signal *)
        let s5 :=
          set_sig_handlers
            ((SIGTERM, Handler_cleanupBeforeExit) :: (SIGQUIT, Handler_cleanupBeforeExit)
             :: (SIGINT, Handler_cleanupBeforeExit) :: sig_handlers s4) s4 in
        let (es, out) := accept_loop socket_fd socket_path objc objv conns s5 in
        (pre ++ [EvBind socket_fd socket_path true; EvListen socket_fd true;
                 EvSignal SIGCHLD Handler_reapChild; EvAtexit Hook_cleanup;
                 EvSignal SIGINT Handler_cleanupBeforeExit;
                 EvSignal SIGQUIT Handler_cleanupBeforeExit;
                 EvSignal SIGTERM Handler_cleanupBeforeExit] ++ es, out)
    end
  end.

(** The host program leaves [main] with, or calls [exit] on, the status it
    derives from what the library returned to it. *)
Definition host_exits (host : Z -> Z) (r : list event * outcome) : list event * outcome :=
  match r with
  | (es, Returned v s) => let (es', out) := exit (host v) s in (es ++ es', out)
  | _ => r
  end.

(** *** zygote_skip *)

Definition zygote_skip (socket_path : cstring) (ap : list ptr) (s : state)
    : list event * outcome :=
  let objv := objv_of_varargs ap in
  let objc := Z.of_nat (length objv) in
  (* look for run in the current address space *)
  match dlopen w None with
  | None => ([EvDlopen None None], Returned (-1) s)
  | Some h =>
    match dlsym w h with
    | None => ([EvDlopen None (Some h); EvDlsym h false], Returned (-1) s)
    | Some run =>
      (* pass arguments to the linked run() *)
      let argv : list cstring := [[]] in          (* one empty string *)
      let r := run objc objv 1 argv in
      ([EvDlopen None (Some h); EvDlsym h true; EvRun objc objv 1 argv (fdt s) r],
       Returned r s)
    end
  end.

End Zygote.

(** ** The growth client (grow.c) *)

Inductive cevent : Type :=
| CSocket (r : Z)
| CConnect (fd : Z) (path : cstring) (ok : bool)
| CWrite (fd : Z) (bs : list byte) (ok : bool)
| CSendmsg (fd : Z) (payload : byte) (sendfd : Z) (f : option file) (ok : bool)
| CRead (fd : Z) (n : Z) (r : rd)
| CClose (fd : Z).

(** The client process: its descriptor table, environment and working
    directory, the answers of the kernel, and the local [num]. *)
Record client : Type := {
  c_fdt : gmap Z file;
  c_environ : list cstring;
  c_cwd : cstring;                (* what [getcwd] leaves in [buf] *)
  c_nofile : Z;
  c_socket : option file;         (* [socket] *)
  c_connect_ok : bool;
  c_wr_ok : list bool;            (* results of [write] and [sendmsg] *)
  c_reply : list chunk;           (* what arrives from the daemon *)
  c_num : Z
}.

Definition set_c_fdt (x : gmap Z file) (c : client) : client :=
  {| c_fdt := x; c_environ := c_environ c; c_cwd := c_cwd c; c_nofile := c_nofile c;
     c_socket := c_socket c; c_connect_ok := c_connect_ok c; c_wr_ok := c_wr_ok c;
     c_reply := c_reply c; c_num := c_num c |}.

Definition set_c_wr_ok (x : list bool) (c : client) : client :=
  {| c_fdt := c_fdt c; c_environ := c_environ c; c_cwd := c_cwd c; c_nofile := c_nofile c;
     c_socket := c_socket c; c_connect_ok := c_connect_ok c; c_wr_ok := x;
     c_reply := c_reply c; c_num := c_num c |}.

Definition set_c_reply (x : list chunk) (c : client) : client :=
  {| c_fdt := c_fdt c; c_environ := c_environ c; c_cwd := c_cwd c; c_nofile := c_nofile c;
     c_socket := c_socket c; c_connect_ok := c_connect_ok c; c_wr_ok := c_wr_ok c;
     c_reply := x; c_num := c_num c |}.

Definition set_c_num (x : Z) (c : client) : client :=
  {| c_fdt := c_fdt c; c_environ := c_environ c; c_cwd := c_cwd c; c_nofile := c_nofile c;
     c_socket := c_socket c; c_connect_ok := c_connect_ok c; c_wr_ok := c_wr_ok c;
     c_reply := c_reply c; c_num := x |}.

(** Code of the client. *)
Abbreviation C := (prog client cevent).

Section Grow.

Variable ZYGOTE_VERSION : Z.       (* zygote.h *)
Variable UNIX_PATH_MAX : Z.        (* sizeof of sun_path *)

(** [write(socket_fd, data, n)]; a write that does not fail is taken to
    transfer all of its bytes. *)
Definition c_write (socket_fd : Z) (bs : list byte) : C Z := fun c =>
  let '(ok, o) := next_ok (c_wr_ok c) in
  ([CWrite socket_fd bs ok],
   Done (if ok then Z.of_nat (length bs) else -1) (set_c_wr_ok o c)).

(** [write_fd(fd, buf, 1, sendfd)]: [sendmsg] of one byte with the
    descriptor as SCM_RIGHTS; fails on a descriptor that is not open. *)
Definition write_fd (fd : Z) (payload : byte) (sendfd : Z) : C Z := fun c =>
  match c_fdt c !! sendfd with
  | None => ([CSendmsg fd payload sendfd None false], Done (-1) c)
  | Some f =>
    let '(ok, o) := next_ok (c_wr_ok c) in
    ([CSendmsg fd payload sendfd (Some f) ok],
     Done (if ok then 1 else -1) (set_c_wr_ok o c))
  end.

Definition sendNum (socket_fd : Z) (VALUE : Z) : C unit :=
  modify (set_c_num (wrap_int VALUE)) ;;
  n <- c_write socket_fd (int_bytes (wrap_int VALUE)) ;;
  if Z.eqb n (-1) then goto_error else ret tt.

(** A length that does not fit in [int] makes [write] read past the
    string: undefined. *)
Definition sendStr (socket_fd : Z) (PTR : cstring) : C unit :=
  sendNum socket_fd (strlen PTR) ;;
  c <- get ;;
  if Z.ltb (c_num c) 0 then undefined else
  n <- c_write socket_fd (take (Z.to_nat (c_num c)) PTR) ;;
  if Z.eqb n (-1) then goto_error else ret tt.

(** The two loops over strings: [environ], and [argv] from index 3. *)
Fixpoint send_strings (socket_fd : Z) (l : list cstring) : C unit :=
  match l with
  | [] => ret tt
  | x :: l' => sendStr socket_fd x ;; send_strings socket_fd l'
  end.

(** [open_unix_fd]: the connected socket, or -1. *)
Definition open_unix_fd (path : cstring) : C Z := fun c =>
  if Z.leb (UNIX_PATH_MAX - 1) (strlen path) then ([], Done (-1) c) else
  match
    match c_socket c with
    | None => None
    | Some f => option_map (fun d => (d, f)) (lowest_free (c_nofile c) (c_fdt c))
    end
  with
  | None => ([CSocket (-1)], Done (-1) c)
  | Some (socket_fd, f) =>
    if c_connect_ok c then
      ([CSocket socket_fd; CConnect socket_fd path true],
       Done socket_fd (set_c_fdt (<[socket_fd := f]> (c_fdt c)) c))
    else
      ([CSocket socket_fd; CConnect socket_fd path false; CClose socket_fd], Done (-1) c)
  end.

Definition c_close (fd : Z) : C unit := fun c =>
  ([CClose fd], Done tt (set_c_fdt (delete fd (c_fdt c)) c)).

Definition c_read_num (socket_fd : Z) : C Z := fun c =>
  let '(r, ch) := sys_recv 4 (c_reply c) in
  ([CRead socket_fd 4 r],
   Done (rd_ret r)
     (match r with
      | RdErr => set_c_reply ch c
      | RdData bs _ =>
        set_c_num (bytes_int (store_bytes (int_bytes (c_num c)) bs)) (set_c_reply ch c)
      end)).

(** [main] after the connection is open, up to [return num]. *)
Definition main_body (socket_fd : Z) (argc : Z) (argv : list cstring) : C Z :=
  let code_path := default [] (argv !! 2%nat) in
  (* send libzygote version *)
  sendNum socket_fd ZYGOTE_VERSION ;;
  (* send environ *)
  c <- get ;;
  sendNum socket_fd (Z.of_nat (length (c_environ c))) ;;
  send_strings socket_fd (c_environ c) ;;
  (* send cwd *)
  sendStr socket_fd (c_cwd c) ;;
  (* send argc *)
  sendNum socket_fd (argc - 2) ;;
  (* send code_path *)
  sendStr socket_fd code_path ;;
  (* send argv *)
  send_strings socket_fd (drop 3 argv) ;;
  (* pass file descriptors *)
  let payload := default NUL (head (c_cwd c)) in
  n <- write_fd socket_fd payload 2 ;;
  if Z.eqb n (-1) then goto_error else
  n <- write_fd socket_fd payload 1 ;;
  if Z.eqb n (-1) then goto_error else
  n <- write_fd socket_fd payload 0 ;;
  if Z.eqb n (-1) then goto_error else
  (* get exit code *)
  n <- c_read_num socket_fd ;;
  if Z.eqb n (-1) then goto_error else
  c_close socket_fd ;;
  c <- get ;;
  ret (c_num c).

(** [main(argc, argv)], with [argc] the length of [argv]: the events on
    the socket and the value returned, [None] when the behaviour is
    undefined.  The usage message goes to the standard error stream. *)
Definition main (argv : list cstring) (c : client) : list cevent * option Z :=
  let argc := Z.of_nat (length argv) in
  (* check arguments *)
  if Z.ltb argc 3 then ([], Some 1) else
  let socket_path := default [] (argv !! 1%nat) in
  match open_unix_fd socket_path c with
  | (es, Done socket_fd c1) =>
    if Z.eqb socket_fd (-1) then (es, Some (-1)) else
    match main_body socket_fd argc argv c1 with
    | (es', Done v _) => (es ++ es', Some v)
    | (es', Goto_error _) => (es ++ es' ++ [CClose socket_fd], Some (-1))
    | (es', Undefined _) => (es ++ es', None)
    end
  | (es, _) => (es, None)
  end.

End Grow.

(** ** The two programs joined by the socket *)

(** What a client event puts on the stream towards the daemon. *)
Definition wire_of (e : cevent) : list chunk :=
  match e with
  | CWrite _ (b :: bs) true => [CData (b :: bs) NoCmsg]
  | CSendmsg _ payload _ (Some f) true => [CData [payload] (Rights f)]
  | _ => []
  end.

Definition wire (es : list cevent) : list chunk := flat_map wire_of es.

(** What a daemon event puts on the stream towards the client. *)
Definition reply_of (connection_fd : Z) (e : event) : list chunk :=
  match e with
  | EvWrite _ fd v true =>
    if Z.eqb fd connection_fd then [CData (int_bytes v) NoCmsg] else []
  | _ => []
  end.

Definition replies (connection_fd : Z) (es : list event) : list chunk :=
  flat_map (reply_of connection_fd) es.

(** One request served: the client's sends reach a forked child whose host
    program exits with [host] of what the library returned; the child's
    writes are what the client reads.  The result is what [main] returns. *)
Definition session (ZYGOTE_VERSION BUFSIZ UNIX_PATH_MAX : Z) (HAS_ON_EXIT : bool)
    (w : world) (host : Z -> Z) (connection_fd objc : Z) (objv : list ptr) (s : state)
    (argv : list cstring) (c : client) : list event * option Z :=
  let request := wire (fst (main ZYGOTE_VERSION UNIX_PATH_MAX argv c)) in
  let child :=
    host_exits host
      (grow_this_zygote ZYGOTE_VERSION BUFSIZ HAS_ON_EXIT w connection_fd objc objv
         (set_chan request s)) in
  (fst child,
   snd (main ZYGOTE_VERSION UNIX_PATH_MAX argv
          (set_c_reply (replies connection_fd (fst child)) c))).

(** ** Vocabulary of the statements *)

Definition state_of {St A} (r : res St A) : St :=
  match r with
  | Done _ s | Goto_error s | Undefined s => s
  end.

(** A block keeps its events within [P] and leaves the observation [f] of
    the state as it found it, however it is left. *)
Definition frame {St Ev A X} (P : Ev -> Prop) (f : St -> X) (m : prog St Ev A) : Prop :=
  forall s, Forall P (fst (m s)) /\ f (state_of (snd (m s))) = f s.

(** The events a child may issue before the code unit is entered: the
    reads of the request, the pid reply, and the loading and descriptor
    calls. *)
Definition decode_event (e : event) : Prop :=
  match e with
  | EvRead _ _ _ | EvWrite Pid_write _ _ _ | EvRecvmsg _ _ _ | EvDup2 _ _ _
  | EvChdir _ | EvDlopen _ _ | EvDlsym _ _ => True
  | _ => False
  end.

(** Those of them issued while the request is read and the code loaded. *)
Definition request_event (e : event) : Prop :=
  match e with
  | EvRead _ _ _ | EvWrite Pid_write _ _ _
  | EvChdir _ | EvDlopen _ _ | EvDlsym _ _ => True
  | _ => False
  end.

(** The events of the exit handlers. *)
Definition hook_event (e : event) : Prop :=
  match e with
  | EvClose _ | EvUnlink _ | EvWrite Hook_write _ _ _ => True
  | _ => False
  end.

(** The globals of zygote.c that the exit and signal paths consult. *)
Definition globals (s : state) : list hook * Z * option cstring * Z * list (Z * sighandler) :=
  (exit_hooks s, zygote_socket_fd s, zygote_socket_path s, grow_connection_fd s,
   sig_handlers s).

(** What the decoding of a request leaves alone: the globals, the
    descriptor table and the array [fds]. *)
Definition kept (s : state) :=
  (globals s, fdt s, fds s).

(** The status integers written on the connection, in order, each with
    whether the write went through: every [write] of the child on the
    connection but the pid reply. *)
Definition status_of (e : event) : option (Z * bool) :=
  match e with
  | EvWrite Pid_write _ _ _ => None
  | EvWrite _ _ v ok => Some (v, ok)
  | _ => None
  end.

Definition status_writes (es : list event) : list (Z * bool) := omap status_of es.


(** The events of the exit handlers of a process that has no endpoint. *)
Definition reply_event (e : event) : Prop :=
  match e with
  | EvWrite Hook_write _ _ _ => True
  | _ => False
  end.

(** The protocol version a request carries, as the child sees it: what
    [num] holds after the first read, [None] when that read fails. *)
Definition version_received (w : world) (s : state) : option Z :=
  match sys_recv 4 (chan s) with
  | (RdErr, _) => None
  | (RdData bs _, _) => Some (bytes_int (store_bytes (int_bytes (uninit w 3)) bs))
  end.

Definition outcome_state (o : outcome) : state :=
  match o with
  | Returned _ s | Exited _ s | Listening s | Undefined_behaviour s => s
  end.

(** The events a forked child may issue without touching what belongs to
    its parent: no [unlink], and no [close] but of its own connection. *)
Definition child_event (connection_fd : Z) (e : event) : Prop :=
  match e with
  | EvUnlink _ => False
  | EvClose fd => fd = connection_fd
  | _ => True
  end.

(** C8 as the specification words it: a second run of the cleanup routine
    attempts no unlink. *)
Definition second_cleanup_unlinks_nothing (s : state) : Prop :=
  forall path, ~ In (EvUnlink path) (fst (cleanup (snd (cleanup s)))).

(** ** A concrete daemon and a concrete client *)

(** A loader that finds every unit, whose entry point returns 0. *)
Definition demo_world : world :=
  {| pid := 4242;
     junk := fun _ => NUL;
     uninit := fun _ => 0;
     nofile := 1024;
     dlopen := fun p => match p with Some _ => Some 1%nat | None => Some 0%nat end;
     dlsym := fun _ => Some (fun _ _ _ _ => 0);
     is_dir := fun _ => true |}.

(** A host process about to call [zygote]: the three standard streams
    open, nothing registered. *)
Definition demo_init : state :=
  {| chan := []; wr_ok := [];
     fdt := {[ 0 := 10%nat; 1 := 11%nat; 2 := 12%nat ]};
     environ := []; cwd := cs "/";
     zygote_socket_fd := -1; zygote_socket_path := None;
     grow_connection_fd := 0; exit_hooks := []; sig_handlers := [];
     num := 0; buf := []; fds := [] |}.

Definition demo_boot : boot :=
  {| stale := Unlink_ENOENT; sock := Some 13%nat; bind_ok := true; listen_ok := true |}.

Definition demo_path : cstring := cs "/tmp/z.sock".

(** The daemon once it listens. *)
Definition demo_listening : state :=
  outcome_state (snd (zygote 7 8192 108 false demo_world demo_path [] demo_boot [] demo_init)).

(** A client started as [grow /tmp/z.sock unit.so a b] from /tmp. *)
Definition demo_client : client :=
  {| c_fdt := {[ 0 := 20%nat; 1 := 21%nat; 2 := 22%nat ]};
     c_environ := [cs "A=1"];
     c_cwd := cs "/tmp";
     c_nofile := 1024;
     c_socket := Some 30%nat;
     c_connect_ok := true;
     c_wr_ok := [];
     c_reply := [];
     c_num := 0 |}.

Definition demo_argv : list cstring :=
  [cs "grow"; demo_path; cs "unit.so"; cs "a"; cs "b"].

(** The connection of that client as the daemon accepts it, the process
    observed being the forked child. *)
Definition demo_incoming : incoming :=
  {| conn_file := 30%nat;
     request := wire (fst (main 7 108 demo_argv demo_client));
     conn_wr_ok := [];
     fork_ret := 0 |}.

(** The events a child issues once the unit has returned. *)
Definition after_event (e : event) : Prop :=
  match e with
  | EvDlclose _ | EvAtexit _ | EvClose _ | EvUnlink _ | EvExit _ => True
  | EvWrite Pid_write _ _ _ => False
  | EvWrite _ _ _ _ => True
  | _ => False
  end.

(** What one [read_fd] into [fds[k]] did to the descriptor table: either
    it installed the file of an SCM_RIGHTS message at a descriptor [d]
    that was free and stored [d], or it left the table alone. *)
Definition installed (s s' : state) (k : nat) (r : rd) (n : option Z) : Prop :=
  length (fds s') = length (fds s) /\
  match n with
  | Some d =>
    exists b bs f,
      r = RdData (b :: bs) (Rights f) /\
      (fdt s : gmap Z file) !! d = None /\
      fdt s' = <[d := f]> (fdt s) /\ fds s' = <[k := d]> (fds s)
  | None => fdt s' = fdt s
  end.

(** The descriptors a child received, and the descriptor tables with which
    it entered the unit. *)
Definition carriers (es : list event) : list Z :=
  omap (fun e => match e with EvRecvmsg _ _ (Some d) => Some d | _ => None end) es.

Definition run_tables (es : list event) : list (gmap Z file) :=
  omap (fun e => match e with EvRun _ _ _ _ t _ => Some t | _ => None end) es.

(** C9 as the specification words it: when the unit is entered, every
    received descriptor other than a standard slot is closed. *)
Definition carriers_closed_at_run (es : list event) : bool :=
  forallb
    (fun t => forallb (fun d => Z.leb d 2 || bool_decide (t !! d = None)) (carriers es))
    (run_tables es).

(** ** The request on the wire *)

(** A string the protocol can carry: no NUL inside, and a length that
    leaves room for the terminator in an [int]. *)
Definition str_ok (x : cstring) : Prop :=
  ~ In NUL x /\ Z.of_nat (length x) < INT_MAX.

Definition enc_num (v : Z) : list chunk := [CData (int_bytes v) NoCmsg].

(** A length-prefixed string; a [write] of no byte leaves nothing. *)
Definition enc_str (x : cstring) : list chunk :=
  enc_num (strlen x) ++ match x with [] => [] | _ => [CData x NoCmsg] end.

Definition enc_strs (l : list cstring) : list chunk := flat_map enc_str l.

(** What a decoding step leaves alone: everything but [chan], [num] and
    [buf]; the unread input is [rest]. *)
Definition decoded (s s' : state) (rest : list chunk) : Prop :=
  chan s' = rest /\ wr_ok s' = wr_ok s /\ kept s' = kept s /\
  cwd s' = cwd s.

(** The request of §4.1 as a stream: version, environment, cwd, the
    argument count, the locator, the further arguments, then whatever
    follows (the three descriptor messages). *)
Definition request_wire (version : Z) (env : list cstring) (dir : cstring) (argc : Z)
    (code_path : cstring) (args : list cstring) (tail : list chunk) : list chunk :=
  enc_num version ++ enc_num (Z.of_nat (length env)) ++ enc_strs env ++
  enc_str dir ++ enc_num argc ++ enc_str code_path ++ enc_strs args ++ tail.

(** What sending leaves alone in the client. *)
Definition client_same (c c' : client) : Prop :=
  c_wr_ok c' = c_wr_ok c /\ c_fdt c' = c_fdt c /\ c_environ c' = c_environ c /\
  c_cwd c' = c_cwd c /\ c_reply c' = c_reply c.

(** A client whose exchange can go through: enough arguments, a socket
    path that fits, a socket that connects, writes that succeed, strings
    the protocol can carry, and the three standard streams open. *)
Definition client_ok (UNIX_PATH_MAX : Z) (argv : list cstring) (c : client) : Prop :=
  (3 <= length argv)%nat /\
  strlen (default [] (argv !! 1%nat)) < UNIX_PATH_MAX - 1 /\
  is_Some (c_socket c) /\ is_Some (lowest_free (c_nofile c) (c_fdt c)) /\
  c_connect_ok c = true /\
  c_wr_ok c = [] /\
  Forall str_ok (c_environ c) /\ str_ok (c_cwd c) /\ Forall str_ok (drop 2 argv) /\
  Z.of_nat (length (c_environ c)) < 2 ^ 31 /\ Z.of_nat (length argv) < 2 ^ 31 /\
  is_Some (c_fdt c !! 0) /\ is_Some (c_fdt c !! 1) /\ is_Some (c_fdt c !! 2).

(** The three descriptor messages, in the order [main] sends them. *)
Definition stdio_wire (c : client) : list chunk :=
  let payload := default NUL (head (c_cwd c)) in
  omap (fun k => option_map (fun f => CData [payload] (Rights f)) (c_fdt c !! k)) [2; 1; 0].

(** C5 as the specification words it: the argument count field holds the
    number of arguments without the locator, and as many strings follow
    the locator. *)
Definition spec_request_wire (version : Z) (env : list cstring) (dir : cstring)
    (code_path : cstring) (args : list cstring) (tail : list chunk) : list chunk :=
  request_wire version env dir (Z.of_nat (length args)) code_path args tail.

(** The forked child that serves that connection, on descriptor 5, as it
    enters [grow_this_zygote]. *)
Definition demo_child_state : state :=
  set_chan (request demo_incoming)
    (set_endpoint (-1) None
       (set_fdt (<[5 := conn_file demo_incoming]> (fdt demo_listening)) demo_listening)).

Definition demo_child (HAS_ON_EXIT : bool) : list event * outcome :=
  grow_this_zygote 7 8192 HAS_ON_EXIT demo_world 5 0 [] demo_child_state.

(** The descriptor table with which that child enters the unit: the three
    carriers 6, 7 and 8 and their copies on the standard slots. *)
Definition demo_table : gmap Z file :=
  <[2 := 22%nat]> (<[1 := 21%nat]> (<[0 := 20%nat]>
    (<[8 := 20%nat]> (<[7 := 21%nat]> (<[6 := 22%nat]> (fdt demo_child_state)))))).

Definition demo_run : event :=
  EvRun 0 [] 3 [cs "unit.so"; cs "a"; cs "b"] demo_table 0.




(** The exchange of that client with that child. *)
Definition demo_session (HAS_ON_EXIT : bool) : list event * option Z :=
  session 7 8192 108 HAS_ON_EXIT demo_world (fun v => v) 5 0 [] demo_child_state
    demo_argv demo_client.

(** The events a child issues only once the code unit is loaded: the
    reception and installation of the descriptors, the call of the unit
    and what follows it on the way back. *)
Definition loaded_event (e : event) : Prop :=
  match e with
  | EvRecvmsg _ _ _ | EvDup2 _ _ _ | EvRun _ _ _ _ _ _ | EvDlclose _ | EvAtexit _ => True
  | _ => False
  end.

(** A loader that finds no unit. *)
Definition barren_world : world :=
  {| pid := 4242;
     junk := fun _ => NUL;
     uninit := fun _ => 0;
     nofile := 1024;
     dlopen := fun _ => None;
     dlsym := fun _ => None;
     is_dir := fun _ => true |}.

(** What the parent issues for one connection it accepted on [socket_fd]
    as descriptor [d]: the [accept], the [fork] and the [close]. *)
Definition parent_events (socket_fd d : Z) (c : option incoming) : list event :=
  match c with
  | Some c => [EvAccept socket_fd d; EvFork (fork_ret c); EvClose d]
  | None => []
  end.

(** A connection on which the process observed stays the parent. *)
Definition parent_conn (c : option incoming) : Prop :=
  match c with
  | Some c => fork_ret c <> 0
  | None => False
  end.

(** The calls by which [zygote] sets up its endpoint. *)
Definition startup_event (e : event) : Prop :=
  match e with
  | EvDup _ _ | EvUnlink _ | EvSocket _ | EvBind _ _ _ | EvListen _ _ | EvClose _ => True
  | _ => False
  end.

(** A start whose [bind] fails. *)
Definition bind_fails : boot :=
  {| stale := Unlink_ENOENT; sock := Some 13%nat; bind_ok := false; listen_ok := true |}.

(** Two clients served by forked children, seen from the parent. *)
Definition two_served : list (option incoming) :=
  [Some {| conn_file := 30%nat; request := []; conn_wr_ok := []; fork_ret := 4243 |};
   Some {| conn_file := 31%nat; request := []; conn_wr_ok := []; fork_ret := 4244 |}].

(** A call of the client that reported an error. *)
Definition failed (e : cevent) : bool :=
  match e with
  | CSocket r => Z.eqb r (-1)
  | CConnect _ _ ok | CWrite _ _ ok | CSendmsg _ _ _ _ ok => negb ok
  | CRead _ _ RdErr => true
  | _ => false
  end.

(** A block of the client that is left by [goto error] exactly when its
    last call failed, and in which no other call fails. *)
Definition stops_at_failure {A} (m : C A) : Prop :=
  forall c,
    match snd (m c) with
    | Goto_error _ =>
      exists pre e, fst (m c) = pre ++ [e] /\ existsb failed pre = false /\ failed e = true
    | _ => existsb failed (fst (m c)) = false
    end.

(** A client whose second [write] fails. *)
Definition failing_client : client :=
  {| c_fdt := {[ 0 := 20%nat; 1 := 21%nat; 2 := 22%nat ]};
     c_environ := [cs "A=1"];
     c_cwd := cs "/tmp";
     c_nofile := 1024;
     c_socket := Some 30%nat;
     c_connect_ok := true;
     c_wr_ok := [true; false];
     c_reply := [];
     c_num := 0 |}.

(** A socket path of 107 bytes, and a command line that names it. *)
Definition long_path : cstring := repeat "x"%byte 107.

Definition long_argv : list cstring := [cs "grow"; long_path; cs "unit.so"].

(** A well-formed request that ends before the descriptor messages. *)
Definition bare_request : list chunk :=
  request_wire 7 [cs "A=1"] (cs "/tmp") 3 (cs "unit.so") [cs "a"; cs "b"] [].

(** An event that is no [read], [write] or [recvmsg] on a descriptor other
    than [fd]. *)
Definition io_on (fd : Z) (e : event) : Prop :=
  match e with
  | EvRead f _ _ | EvWrite _ f _ _ | EvRecvmsg f _ _ => f = fd
  | _ => True
  end.

(** An event other than the call of the unit. *)
Definition not_run (e : event) : Prop :=
  match e with EvRun _ _ _ _ _ _ => False | _ => True end.

(** * Properties *)

(** ** Rules for blocks *)

Section Frame.

Context {St Ev X : Type} (P : Ev -> Prop) (f : St -> X).

Lemma frame_ret {A} (a : A) : frame P f (ret a).
Proof. intros s. split; [constructor | reflexivity]. Qed.

Lemma frame_get : frame P f get.
Proof. intros s. split; [constructor | reflexivity]. Qed.

Lemma frame_goto_error {A} : frame P f (@goto_error St Ev A).
Proof. intros s. split; [constructor | reflexivity]. Qed.

Lemma frame_undefined {A} : frame P f (@undefined St Ev A).
Proof. intros s. split; [constructor | reflexivity]. Qed.

Lemma frame_emit (e : Ev) : P e -> frame P f (emit e).
Proof. intros He s. split; [repeat constructor; exact He | reflexivity]. Qed.

Lemma frame_modify (g : St -> St) : (forall s, f (g s) = f s) -> frame P f (modify g).
Proof. intros Hg s. split; [constructor | apply Hg]. Qed.

Lemma frame_bind {A B} (m : prog St Ev A) (k : A -> prog St Ev B) :
  frame P f m -> (forall a, frame P f (k a)) -> frame P f (bind m k).
Proof.
  intros Hm Hk s. unfold bind.
  destruct (Hm s) as [Hes Hf]. destruct (m s) as [es [a s1 | s1 | s1]]; simpl in *.
  - destruct (Hk a s1) as [Hes' Hf']. destruct (k a s1) as [es' r]; simpl in *.
    split; [apply Forall_app; split; assumption | congruence].
  - split; assumption.
  - split; assumption.
Qed.

End Frame.

(** What [bind] does once the first block is known. *)
Lemma bind_Done {St Ev A B} (m : prog St Ev A) (k : A -> prog St Ev B) s es a s1 :
  m s = (es, Done a s1) -> bind m k s = (es ++ fst (k a s1), snd (k a s1)).
Proof. intros H. unfold bind. rewrite H. destruct (k a s1); reflexivity. Qed.

Lemma bind_Goto_error {St Ev A B} (m : prog St Ev A) (k : A -> prog St Ev B) s es s1 :
  m s = (es, Goto_error s1) -> bind m k s = (es, Goto_error s1).
Proof. intros H. unfold bind. rewrite H. reflexivity. Qed.

Lemma bind_Undefined {St Ev A B} (m : prog St Ev A) (k : A -> prog St Ev B) s es s1 :
  m s = (es, Undefined s1) -> bind m k s = (es, Undefined s1).
Proof. intros H. unfold bind. rewrite H. reflexivity. Qed.

Ltac by_event e :=
  destruct e; simpl in *; try tauto;
  repeat match goal with x : wsite |- _ => destruct x end; simpl in *;
  try tauto; try discriminate; try reflexivity.

Create HintDb frame.

Ltac frame_step :=
  match goal with
  | |- frame _ _ (bind _ _) => apply frame_bind; [| intros ?]
  | |- frame _ _ (ret _) => apply frame_ret
  | |- frame _ _ get => apply frame_get
  | |- frame _ _ goto_error => apply frame_goto_error
  | |- frame _ _ undefined => apply frame_undefined
  | |- frame _ _ (emit _) => apply frame_emit; exact I
  | |- frame _ _ (modify _) =>
    apply frame_modify; intros ?; repeat case_match; reflexivity
  | |- frame _ _ (if ?c then _ else _) => destruct c
  | |- frame _ _ (match ?c with _ => _ end) => destruct c
  | |- _ => solve [eauto with frame]
  end.

Ltac frame_block := cbv zeta; repeat frame_step.

(** ** The decoding phases issue no status and keep the globals *)

Lemma sys_read_num_kept fd : frame request_event kept (sys_read_num fd).
Proof.
  intros s. unfold sys_read_num. destruct (sys_recv 4 (chan s)) as [r ch].
  destruct r; (split; [repeat constructor | reflexivity]).
Qed.

Lemma sys_read_buf_kept fd : frame request_event kept (sys_read_buf fd).
Proof.
  intros s. unfold sys_read_buf. destruct (sys_recv _ (chan s)) as [r ch].
  destruct r; (split; [repeat constructor | reflexivity]).
Qed.

Lemma sys_write_pid_kept fd v : frame request_event kept (sys_write_num Pid_write fd v).
Proof.
  intros s. unfold sys_write_num. destruct (next_ok (wr_ok s)) as [ok o].
  split; [repeat constructor | reflexivity].
Qed.

#[local] Hint Resolve sys_read_num_kept sys_read_buf_kept sys_write_pid_kept : frame.

Lemma recvNum_kept fd : frame request_event kept (recvNum fd).
Proof. unfold recvNum. frame_block. Qed.

#[local] Hint Resolve recvNum_kept : frame.

Lemma recvStr_kept w fd : frame request_event kept (recvStr w fd).
Proof. unfold recvStr. frame_block. Qed.

#[local] Hint Resolve recvStr_kept : frame.

Lemma recv_environ_kept w fd i : frame request_event kept (recv_environ w fd i).
Proof. induction i as [| i IH]; simpl; frame_block. Qed.

Lemma recv_argv_kept w fd n argv : frame request_event kept (recv_argv w fd n argv).
Proof. revert argv. induction n as [| n IH]; intros argv; simpl; frame_block. Qed.

#[local] Hint Resolve recv_environ_kept recv_argv_kept : frame.

Lemma recv_request_kept V w fd : frame request_event kept (recv_request V w fd).
Proof. unfold recv_request. frame_block. Qed.

Lemma load_code_kept w path : frame request_event kept (load_code w path).
Proof. unfold load_code. frame_block. Qed.

Lemma read_fd_globals w fd k : frame decode_event globals (read_fd w fd k).
Proof.
  intros s. unfold read_fd. destruct (sys_recv 1 (chan s)) as [r ch].
  destruct r as [| [| b bs] c]; try (split; [repeat constructor | reflexivity]).
  destruct c; [| destruct (lowest_free _ _) |];
    (split; [repeat constructor | reflexivity]).
Qed.

Lemma dup_fds_globals i n : frame decode_event globals (dup_fds i n).
Proof. revert i. induction n as [| n IH]; intros i; simpl; frame_block. Qed.

#[local] Hint Resolve read_fd_globals dup_fds_globals : frame.

Lemma recv_stdio_globals w fd : frame decode_event globals (recv_stdio w fd).
Proof. unfold recv_stdio. frame_block. Qed.

(** ** Exit handlers and the error label *)

Lemma cleanup_cleared s :
  zygote_socket_fd s = -1 -> zygote_socket_path s = None -> cleanup s = ([], s).
Proof. intros Hfd Hp. unfold cleanup. rewrite Hfd. simpl. rewrite Hp. reflexivity. Qed.

Lemma cleanup_hook_events s : Forall hook_event (fst (cleanup s)).
Proof.
  unfold cleanup. destruct (Z.eqb (zygote_socket_fd s) (-1));
    simpl; destruct (zygote_socket_path s); simpl; repeat constructor.
Qed.

Lemma cleanup_endpoint s :
  zygote_socket_fd (snd (cleanup s)) = zygote_socket_fd s /\
  zygote_socket_path (snd (cleanup s)) = zygote_socket_path s.
Proof.
  unfold cleanup. destruct (Z.eqb (zygote_socket_fd s) (-1));
    simpl; destruct (zygote_socket_path s) eqn:E; simpl; auto.
Qed.

Lemma replyWithExitStatus_events st s : Forall reply_event (fst (replyWithExitStatus st s)).
Proof.
  unfold replyWithExitStatus. destruct (Z.eqb (grow_connection_fd s) (-1)); [constructor |].
  destruct (next_ok (wr_ok s)). repeat constructor.
Qed.

Lemma replyWithExitStatus_endpoint st s :
  zygote_socket_fd (snd (replyWithExitStatus st s)) = zygote_socket_fd s /\
  zygote_socket_path (snd (replyWithExitStatus st s)) = zygote_socket_path s.
Proof.
  unfold replyWithExitStatus. destruct (Z.eqb (grow_connection_fd s) (-1)); [auto |].
  destruct (next_ok (wr_ok s)). auto.
Qed.

Lemma reply_event_hook_event e : reply_event e -> hook_event e.
Proof. by_event e. Qed.

Lemma run_hooks_hook_events hs st s : Forall hook_event (fst (run_hooks hs st s)).
Proof.
  revert s. induction hs as [| h hs IH]; intros s; simpl; [constructor |].
  assert (Hh : Forall hook_event (fst (run_hook h st s))).
  { destruct h; simpl; [apply cleanup_hook_events |].
    eapply Forall_impl; [apply replyWithExitStatus_events | apply reply_event_hook_event]. }
  destruct (run_hook h st s) as [es s1]. specialize (IH s1).
  destruct (run_hooks hs st s1) as [es' s2]. simpl in *.
  apply Forall_app. split; assumption.
Qed.

(** A process without endpoint runs its exit handlers without closing or
    unlinking anything. *)
Lemma run_hooks_no_endpoint hs st s :
  zygote_socket_fd s = -1 -> zygote_socket_path s = None ->
  Forall reply_event (fst (run_hooks hs st s)).
Proof.
  revert s. induction hs as [| h hs IH]; intros s Hfd Hp; simpl; [constructor |].
  assert (Hh : Forall reply_event (fst (run_hook h st s)) /\
               zygote_socket_fd (snd (run_hook h st s)) = -1 /\
               zygote_socket_path (snd (run_hook h st s)) = None).
  { destruct h; simpl.
    - rewrite cleanup_cleared by assumption. simpl. auto.
    - split; [apply replyWithExitStatus_events |].
      destruct (replyWithExitStatus_endpoint st s) as [-> ->]. auto. }
  destruct Hh as (Hes & Hfd1 & Hp1).
  destruct (run_hook h st s) as [es s1]. simpl in *. specialize (IH s1 Hfd1 Hp1).
  destruct (run_hooks hs st s1) as [es' s2]. simpl in *.
  apply Forall_app. split; assumption.
Qed.

Lemma status_writes_app es es' :
  status_writes (es ++ es') = status_writes es ++ status_writes es'.
Proof. unfold status_writes. apply omap_app. Qed.

Lemma status_writes_decode es : Forall decode_event es -> status_writes es = [].
Proof.
  induction 1 as [| e es He _ IH]; [reflexivity |].
  assert (Hn : status_of e = None) by (by_event e).
  unfold status_writes in *. simpl. rewrite Hn. exact IH.
Qed.


(** ** The shape of an execution of grow_this_zygote *)

Lemma bind_modify {St Ev B} (g : St -> St) (k : unit -> prog St Ev B) s :
  bind (modify g) k s = k tt (g s).
Proof. unfold bind, modify. destruct (k tt (g s)). reflexivity. Qed.

Lemma bind_get {St Ev B} (k : St -> prog St Ev B) s : bind get k s = k s s.
Proof. unfold bind, get. destruct (k s s). reflexivity. Qed.

Lemma bind_emit {St Ev B} (e : Ev) (k : unit -> prog St Ev B) s :
  bind (emit e) k s = (e :: fst (k tt s), snd (k tt s)).
Proof. unfold bind, emit. destruct (k tt s). reflexivity. Qed.

(** The last phase, written out. *)
Lemma run_and_reply_eq H fd objc objv argc argv h run s :
  run_and_reply H fd objc objv argc argv h run s =
  let r := run objc objv argc argv in
  let ev := [EvRun objc objv argc argv (fdt s) r; EvDlclose h] in
  if H then
    (ev ++ [EvAtexit Hook_replyWithExitStatus],
     Done r (set_exit_hooks (Hook_replyWithExitStatus :: exit_hooks s)
               (set_grow_connection_fd fd (set_num r s))))
  else
    (ev ++ [EvWrite Exitcode_write fd r (fst (next_ok (wr_ok s)))],
     if fst (next_ok (wr_ok s))
     then Done r (set_wr_ok (snd (next_ok (wr_ok s))) (set_num r s))
     else Goto_error (set_wr_ok (snd (next_ok (wr_ok s))) (set_num r s))).
Proof.
  unfold run_and_reply. rewrite bind_get, bind_emit, bind_modify, bind_emit.
  destruct H; cbv zeta.
  - reflexivity.
  - unfold bind, sys_write_num. simpl.
    destruct (next_ok (wr_ok s)) as [[] o]; reflexivity.
Qed.

Lemma request_decode_event e : request_event e -> decode_event e.
Proof. by_event e. Qed.

Lemma kept_inv s' s :
  kept s' = kept s -> globals s' = globals s /\ fdt s' = fdt s /\ fds s' = fds s.
Proof.
  intros H. split; [exact (f_equal (fun x => fst (fst x)) H) |].
  split; [exact (f_equal (fun x => snd (fst x)) H) | exact (f_equal snd H)].
Qed.

(** Either the decoding phases all ran to their end and the unit was
    entered, or the body stopped before, having issued decoding events
    only and with the globals untouched. *)
Lemma grow_this_zygote_body_cases V B H w fd objc objv s :
  (exists es1 a s1 es2 l s2 es3 s3,
     recv_request V w fd (enter B w s) = (es1, Done a s1) /\
     load_code w (default [] (head (snd a))) s1 = (es2, Done l s2) /\
     recv_stdio w fd s2 = (es3, Done tt s3) /\
     Forall decode_event (es1 ++ es2 ++ es3) /\
     Forall request_event (es1 ++ es2) /\
     globals s3 = globals s /\ fdt s2 = fdt s /\ length (fds s2) = 3%nat /\
     grow_this_zygote_body V B H w fd objc objv s =
       ((es1 ++ es2 ++ es3) ++
          fst (run_and_reply H fd objc objv (fst a) (snd a) (fst l) (snd l) s3),
        snd (run_and_reply H fd objc objv (fst a) (snd a) (fst l) (snd l) s3)))
  \/
  (exists es r,
     grow_this_zygote_body V B H w fd objc objv s = (es, r) /\
     Forall decode_event es /\ globals (state_of r) = globals s /\
     match r with Done _ _ => False | _ => True end).
Proof.
  unfold grow_this_zygote_body. rewrite bind_modify.
  destruct (recv_request_kept V w fd (enter B w s)) as [He1 Hk1].
  destruct (recv_request V w fd (enter B w s)) as [es1 r1] eqn:H1. simpl in He1, Hk1.
  pose proof (Forall_impl _ _ _ He1 request_decode_event) as He1'.
  assert (Hg1 : globals (state_of r1) = globals s) by (apply kept_inv in Hk1; apply Hk1).
  destruct r1 as [a s1 | s1 | s1].
  2: { right. eexists _, _. split; [apply (bind_Goto_error _ _ _ _ _ H1) | auto]. }
  2: { right. eexists _, _. split; [apply (bind_Undefined _ _ _ _ _ H1) | auto]. }
  rewrite (bind_Done _ _ _ _ _ _ H1). simpl in Hg1.
  destruct (load_code_kept w (default [] (head (snd a))) s1) as [He2 Hk2].
  destruct (load_code w (default [] (head (snd a))) s1) as [es2 r2] eqn:H2.
  simpl in He2, Hk2.
  pose proof (Forall_impl _ _ _ He2 request_decode_event) as He2'.
  assert (Hg2 : globals (state_of r2) = globals s)
    by (apply kept_inv in Hk2; destruct Hk2 as [Hk2 _]; congruence).
  destruct r2 as [l s2 | s2 | s2].
  2: { right. eexists _, _. rewrite (bind_Goto_error _ _ _ _ _ H2). simpl.
       split; [reflexivity |]. split; [apply Forall_app; auto | auto]. }
  2: { right. eexists _, _. rewrite (bind_Undefined _ _ _ _ _ H2). simpl.
       split; [reflexivity |]. split; [apply Forall_app; auto | auto]. }
  rewrite (bind_Done _ _ _ _ _ _ H2). simpl in Hg2.
  destruct (recv_stdio_globals w fd s2) as [He3 Hk3].
  destruct (recv_stdio w fd s2) as [es3 r3] eqn:H3. simpl in He3, Hk3.
  assert (Hg3 : globals (state_of r3) = globals s) by congruence.
  destruct r3 as [[] s3 | s3 | s3].
  2: { right. eexists _, _. rewrite (bind_Goto_error _ _ _ _ _ H3). simpl.
       split; [reflexivity |]. split; [| auto].
       apply Forall_app; split; [auto |]. apply Forall_app; auto. }
  2: { right. eexists _, _. rewrite (bind_Undefined _ _ _ _ _ H3). simpl.
       split; [reflexivity |]. split; [| auto].
       apply Forall_app; split; [auto |]. apply Forall_app; auto. }
  rewrite (bind_Done _ _ _ _ _ _ H3). simpl.
  left. exists es1, a, s1, es2, l, s2, es3, s3.
  do 3 (split; [first [reflexivity | assumption] |]).
  split; [repeat (apply Forall_app; split); assumption |].
  split; [apply Forall_app; split; assumption |].
  split; [exact Hg3 |].
  apply kept_inv in Hk1, Hk2.
  destruct Hk1 as (_ & Hf1 & Hd1), Hk2 as (_ & Hf2 & Hd2). simpl in Hf1, Hf2, Hd1, Hd2.
  split; [congruence |]. split; [rewrite Hd2, Hd1; reflexivity |].
  rewrite <- !app_assoc. reflexivity.
Qed.

Lemma error_path_eq fd s :
  error_path fd s =
  let ok := fst (next_ok (wr_ok s)) in
  let s2 := set_fdt (delete fd (fdt s))
              (set_wr_ok (snd (next_ok (wr_ok s))) (set_num EXIT_FAILURE s)) in
  (EvWrite Error_write fd EXIT_FAILURE ok :: EvClose fd ::
     fst (run_hooks (exit_hooks s) EXIT_FAILURE s2) ++ [EvExit EXIT_FAILURE],
   Exited EXIT_FAILURE (snd (run_hooks (exit_hooks s) EXIT_FAILURE s2))).
Proof.
  unfold error_path, exit. simpl. destruct (next_ok (wr_ok s)) as [ok o]. simpl.
  destruct (run_hooks _ _ _) as [es s3]. reflexivity.
Qed.

Lemma exit_eq st s :
  exit st s = (fst (run_hooks (exit_hooks s) st s) ++ [EvExit st],
               Exited st (snd (run_hooks (exit_hooks s) st s))).
Proof. unfold exit. destruct (run_hooks _ _ _). reflexivity. Qed.

(** ** C3 and C4: the version check *)

Lemma bind_prefix {St Ev A B} (m : prog St Ev A) (k : A -> prog St Ev B) s :
  exists rest, fst (bind m k s) = fst (m s) ++ rest.
Proof.
  unfold bind. destruct (m s) as [es [a s1 | s1 | s1]]; simpl.
  - destruct (k a s1) as [es' r]. exists es'. reflexivity.
  - exists []. rewrite app_nil_r. reflexivity.
  - exists []. rewrite app_nil_r. reflexivity.
Qed.

Lemma grow_this_zygote_prefix V B H w fd objc objv s :
  exists rest,
    fst (grow_this_zygote V B H w fd objc objv s) =
    fst (recv_request V w fd (enter B w s)) ++ rest.
Proof.
  unfold grow_this_zygote, grow_this_zygote_body. rewrite bind_modify.
  destruct (bind_prefix (recv_request V w fd)
              (fun a => l <- load_code w (default [] (head (snd a))) ;;
                        recv_stdio w fd ;;
                        run_and_reply H fd objc objv (fst a) (snd a) (fst l) (snd l))
              (enter B w s)) as [rest Hrest].
  destruct (bind _ _ (enter B w s)) as [es [v s1 | s1 | s1]]; simpl in *.
  - exists rest. exact Hrest.
  - destruct (error_path fd s1) as [es' out]. simpl.
    exists (rest ++ es'). rewrite Hrest, app_assoc. reflexivity.
  - exists rest. exact Hrest.
Qed.

(** The first read of the child. *)
Lemma recvNum_first w B fd s :
  recvNum fd (enter B w s) =
  ([EvRead fd 4 (fst (sys_recv 4 (chan s)))],
   match fst (sys_recv 4 (chan s)) with
   | RdErr => Goto_error (set_chan (snd (sys_recv 4 (chan s))) (enter B w s))
   | RdData bs _ =>
     Done tt (set_num (bytes_int (store_bytes (int_bytes (uninit w 3)) bs))
                (set_chan (snd (sys_recv 4 (chan s))) (enter B w s)))
   end).
Proof.
  unfold recvNum, bind, sys_read_num.
  change (chan (enter B w s)) with (chan s).
  change (num (enter B w s)) with (uninit w 3).
  destruct (sys_recv 4 (chan s)) as [[| bs c] ch]; simpl.
  - reflexivity.
  - destruct bs as [| b0 [| b1 [| b2 [| b3 bs]]]]; reflexivity.
Qed.

(** C3. For every request whose protocol version equals the compiled-in
    constant, the child's first event is the read of the version and its
    second the write of its own pid on the connection: the pid reply
    follows the check at once, and every further read of the request comes
    after it. *)
Theorem pid_reply_before_rest V B H w fd objc objv s :
  version_received w s = Some V ->
  exists r ok rest,
    fst (grow_this_zygote V B H w fd objc objv s) =
    EvRead fd 4 r :: EvWrite Pid_write fd (pid w) ok :: rest.
Proof.
  intros Hv.
  destruct (grow_this_zygote_prefix V B H w fd objc objv s) as [rest ->].
  unfold recv_request.
  pose proof (recvNum_first w B fd s) as Hn. unfold version_received in Hv.
  destruct (sys_recv 4 (chan s)) as [[| bs c] ch]; [discriminate |].
  injection Hv as Hv. simpl in Hn.
  rewrite (bind_Done _ _ _ _ _ _ Hn), bind_get.
  change (num (set_num ?x _)) with x. rewrite Hv, Z.eqb_refl.
  change (negb true) with false. cbv iota.
  rewrite bind_modify.
  match goal with
  | |- context [bind (sys_write_num Pid_write fd (pid w)) ?k ?s0] =>
    destruct (bind_prefix (sys_write_num Pid_write fd (pid w)) k s0) as [rest' ->]
  end.
  unfold sys_write_num. destruct (next_ok _) as [ok o]. simpl.
  exists (RdData bs c), ok, (rest' ++ rest). reflexivity.
Qed.

(** C4. For every request whose protocol version differs from the
    compiled-in constant, the child reads nothing more and sends no pid: it
    writes the failure status, closes the connection, runs its exit
    handlers and exits with the failure status. *)
Theorem version_mismatch_closes V B H w fd objc objv s v :
  version_received w s = Some v -> v <> V ->
  exists r ok hs s',
    grow_this_zygote V B H w fd objc objv s =
    (EvRead fd 4 r :: EvWrite Error_write fd EXIT_FAILURE ok :: EvClose fd ::
       hs ++ [EvExit EXIT_FAILURE],
     Exited EXIT_FAILURE s') /\
    Forall hook_event hs.
Proof.
  intros Hv Hne.
  unfold grow_this_zygote, grow_this_zygote_body. rewrite bind_modify.
  pose proof (recvNum_first w B fd s) as Hn. unfold version_received in Hv.
  destruct (sys_recv 4 (chan s)) as [[| bs c] ch]; [discriminate |].
  injection Hv as Hv. simpl in Hn.
  assert (Hreq : exists s1,
    recv_request V w fd (enter B w s) = ([EvRead fd 4 (RdData bs c)], Goto_error s1)).
  { unfold recv_request. rewrite (bind_Done _ _ _ _ _ _ Hn), bind_get.
    change (num (set_num ?x _)) with x. rewrite Hv.
    destruct (Z.eqb_spec v V) as [? | _]; [contradiction |]. simpl.
    eexists. reflexivity. }
  destruct Hreq as [s1 Hreq]. rewrite (bind_Goto_error _ _ _ _ _ Hreq).
  rewrite error_path_eq. cbv zeta.
  eexists _, _, _, _. split; [reflexivity |]. apply run_hooks_hook_events.
Qed.

(** ** C7: the forked child owns no endpoint *)

Lemma decode_child_event fd e : decode_event e -> child_event fd e.
Proof. by_event e. Qed.

Lemma reply_child_event fd e : reply_event e -> child_event fd e.
Proof. by_event e. Qed.

Lemma endpoint_of_globals s1 s :
  globals s1 = globals s ->
  zygote_socket_fd s1 = zygote_socket_fd s /\ zygote_socket_path s1 = zygote_socket_path s.
Proof. unfold globals. intros [= _ H1 H2 _ _]. auto. Qed.

(** The process in which [fork] returns 0 goes on as [zygote_child], on
    the descriptor [accept] returned. *)
Lemma accept_loop_forks V B H w socket_fd socket_path objc objv c conns s d :
  lowest_free (nofile w) (fdt s) = Some d -> fork_ret c = 0 ->
  accept_loop V B H w socket_fd socket_path objc objv (Some c :: conns) s =
  (EvAccept socket_fd d :: EvFork 0 ::
     fst (zygote_child V B H w d objc objv c (set_fdt (<[d := conn_file c]> (fdt s)) s)),
   snd (zygote_child V B H w d objc objv c (set_fdt (<[d := conn_file c]> (fdt s)) s))).
Proof.
  intros Hd Hf. cbn [accept_loop]. rewrite Hd. cbn [option_map]. rewrite Hf.
  change (Z.eqb 0 0) with true. cbv iota.
  destruct (zygote_child _ _ _ _ _ _ _ _ _). reflexivity.
Qed.

(** C7. In a forked child the endpoint globals are -1 and NULL when the
    request is dispatched and stay so: whatever the request and however the
    child ends, it unlinks nothing and closes nothing but its own
    connection, and its cleanup routine does nothing. *)
Theorem child_disowns_endpoint V B H w host fd objc objv c s :
  let r := host_exits host (zygote_child V B H w fd objc objv c s) in
  Forall (child_event fd) (fst r) /\
  zygote_socket_fd (outcome_state (snd r)) = -1 /\
  zygote_socket_path (outcome_state (snd r)) = None /\
  cleanup (outcome_state (snd r)) = ([], outcome_state (snd r)).
Proof.
  cbv zeta. unfold zygote_child.
  set (s0 := set_wr_ok _ _).
  assert (Hs0 : zygote_socket_fd s0 = -1 /\ zygote_socket_path s0 = None) by (split; reflexivity).
  clearbody s0.
  assert (Hgoal :
    Forall (child_event fd) (fst (host_exits host (grow_this_zygote V B H w fd objc objv s0))) /\
    zygote_socket_fd (outcome_state (snd (host_exits host (grow_this_zygote V B H w fd objc objv s0)))) = -1 /\
    zygote_socket_path (outcome_state (snd (host_exits host (grow_this_zygote V B H w fd objc objv s0)))) = None).
  { unfold grow_this_zygote.
    assert (Hhooks : forall st s1,
      zygote_socket_fd s1 = -1 -> zygote_socket_path s1 = None ->
      Forall (child_event fd) (fst (run_hooks (exit_hooks s1) st s1)) /\
      zygote_socket_fd (snd (run_hooks (exit_hooks s1) st s1)) = -1 /\
      zygote_socket_path (snd (run_hooks (exit_hooks s1) st s1)) = None).
    { intros st s1 Hf Hp. split.
      - eapply Forall_impl; [apply run_hooks_no_endpoint; assumption |].
        apply reply_child_event.
      - generalize (exit_hooks s1). intros hs. revert s1 Hf Hp.
        induction hs as [| h hs IH]; intros s1 Hf Hp; simpl; [auto |].
        assert (Hh : zygote_socket_fd (snd (run_hook h st s1)) = -1 /\
                     zygote_socket_path (snd (run_hook h st s1)) = None).
        { destruct h; simpl.
          - rewrite cleanup_cleared by assumption. auto.
          - destruct (replyWithExitStatus_endpoint st s1) as [-> ->]. auto. }
        destruct (run_hook h st s1) as [es s2]. simpl in Hh.
        specialize (IH s2 (proj1 Hh) (proj2 Hh)).
        destruct (run_hooks hs st s2). exact IH. }
    destruct (grow_this_zygote_body_cases V B H w fd objc objv s0)
      as [(es1 & a & s1 & es2 & l & s2 & es3 & s3 & _ & _ & _ & Hpre & _ & Hg & _ & _ & Hbody)
         | (es & r & Hbody & Hes & Hg & Hr)].
    - rewrite Hbody, run_and_reply_eq. cbv zeta.
      apply endpoint_of_globals in Hg. destruct Hg as [Hf3 Hp3].
      rewrite (proj1 Hs0) in Hf3. rewrite (proj2 Hs0) in Hp3.
      assert (Hpre' : Forall (child_event fd) (es1 ++ es2 ++ es3))
        by (eapply Forall_impl; [exact Hpre | apply decode_child_event]).
      set (pre := es1 ++ es2 ++ es3) in *. clearbody pre.
      destruct H; simpl.
      + rewrite exit_eq.
        match goal with
        | |- context [run_hooks (exit_hooks ?x) ?st ?x] =>
          destruct (Hhooks st x Hf3 Hp3) as (Hh1 & Hh2 & Hh3)
        end.
        simpl. split; [| split; assumption].
        repeat (apply Forall_app; split); try assumption; repeat constructor.
      + destruct (next_ok (wr_ok s3)) as [[] o]; simpl.
        * rewrite exit_eq.
          match goal with
          | |- context [run_hooks (exit_hooks ?x) ?st ?x] =>
            destruct (Hhooks st x Hf3 Hp3) as (Hh1 & Hh2 & Hh3)
          end.
          simpl. split; [| split; assumption].
          repeat (apply Forall_app; split); try assumption; repeat constructor.
        * rewrite error_path_eq. cbv zeta. simpl.
          match goal with
          | |- context [run_hooks (exit_hooks s3) ?st ?x] =>
            destruct (Hhooks st x Hf3 Hp3) as (Hh1 & Hh2 & Hh3)
          end.
          split; [| split; assumption].
          repeat (apply Forall_app; split); try assumption; repeat constructor;
            try assumption.
          apply Forall_app; split; [assumption | repeat constructor].
    - rewrite Hbody.
      apply endpoint_of_globals in Hg. destruct Hg as [Hf3 Hp3].
      rewrite (proj1 Hs0) in Hf3. rewrite (proj2 Hs0) in Hp3.
      assert (Hes' : Forall (child_event fd) es)
        by (eapply Forall_impl; [exact Hes | apply decode_child_event]).
      destruct r as [v s1 | s1 | s1]; [contradiction | |]; simpl in *.
      + rewrite error_path_eq. cbv zeta. simpl.
        match goal with
        | |- context [run_hooks (exit_hooks s1) ?st ?x] =>
          destruct (Hhooks st x Hf3 Hp3) as (Hh1 & Hh2 & Hh3)
        end.
        split; [| split; assumption].
        apply Forall_app; split; [assumption |].
        repeat constructor. apply Forall_app; split; [assumption | repeat constructor].
      + auto. }
  destruct Hgoal as (Hev & Hf & Hp). repeat split; try assumption.
  apply cleanup_cleared; assumption.
Qed.

(** ** C8: running the cleanup routine twice *)

(** The signal path: the handler runs the cleanup routine itself and then
    calls [exit], which runs it again as the registered exit function. *)
Lemma cleanupBeforeExit_twice sig s :
  exit_hooks s = [Hook_cleanup] ->
  fst (cleanupBeforeExit sig s) =
  fst (cleanup s) ++ fst (cleanup (snd (cleanup s))) ++ [EvExit sig].
Proof.
  intros Hh. unfold cleanupBeforeExit.
  destruct (cleanup s) as [es s1] eqn:Hc. rewrite exit_eq. simpl.
  assert (Hh1 : exit_hooks s1 = [Hook_cleanup]).
  { change s1 with (snd (es, s1)). rewrite <- Hc. unfold cleanup.
    destruct (Z.eqb (zygote_socket_fd s) (-1)); simpl;
      destruct (zygote_socket_path s); exact Hh. }
  rewrite Hh1. simpl. destruct (cleanup s1) as [es' s2]. simpl.
  rewrite app_nil_r. reflexivity.
Qed.

(** C8 (amended). The cleanup routine never clears the endpoint globals:
    it leaves the socket handle and the path reference as it found them,
    so a second invocation issues the same [close] and the same [unlink]
    as the first.  Both calls are total; the unlink is skipped only when
    the path reference is already null, as in a forked child. *)
Theorem cleanup_repeats s :
  zygote_socket_fd (snd (cleanup s)) = zygote_socket_fd s /\
  zygote_socket_path (snd (cleanup s)) = zygote_socket_path s /\
  fst (cleanup (snd (cleanup s))) = fst (cleanup s) /\
  (forall path, In (EvUnlink path) (fst (cleanup (snd (cleanup s)))) <->
                zygote_socket_path s = Some path).
Proof.
  unfold cleanup.
  destruct (Z.eqb (zygote_socket_fd s) (-1)) eqn:Hfd; simpl;
    destruct (zygote_socket_path s) as [p |] eqn:Hp; simpl;
    rewrite ?Hfd; simpl; rewrite ?Hp; simpl;
    (split; [reflexivity |]); (split; [reflexivity |]); (split; [reflexivity |]);
    intros path; split; intros Hin;
    repeat (destruct Hin as [Hin | Hin]; try discriminate);
    try (injection Hin as ->; reflexivity); try contradiction; try discriminate;
    injection Hin as ->; simpl; auto.
Qed.

(** C8, counterexample.  In the listening daemon the second run of the
    cleanup routine unlinks the socket path again; a terminating signal
    makes the daemon close and unlink twice before it exits. *)
Lemma cleanup_twice_unlinks_twice :
  ~ second_cleanup_unlinks_nothing demo_listening /\
  option_map fst (handle_signal SIGTERM demo_listening) =
  Some [EvClose 4; EvUnlink demo_path; EvClose 4; EvUnlink demo_path; EvExit SIGTERM].
Proof.
  split.
  - intros Hc. apply (Hc demo_path). vm_compute. right. left. reflexivity.
  - vm_compute. reflexivity.
Qed.

(** ** C10: direct invocation *)

(** C10. [zygote_skip] enters the unit at most once, with [argc = 1] and
    the argument vector made of the empty string, whatever the socket path
    and whatever the process received before; what it returns is what the
    entry point returned, and -1 when the image or the symbol cannot be
    resolved. *)
Theorem zygote_skip_runs_linked_unit w socket_path ap s :
  let r := zygote_skip w socket_path ap s in
  (forall objc objv argc argv t v,
     In (EvRun objc objv argc argv t v) (fst r) ->
     argc = 1 /\ argv = [[]] /\ objv = objv_of_varargs ap /\
     objc = Z.of_nat (length objv) /\ snd r = Returned v s) /\
  (forall h run,
     dlopen w None = Some h -> dlsym w h = Some run ->
     snd r = Returned (run (Z.of_nat (length (objv_of_varargs ap)))
                          (objv_of_varargs ap) 1 [[]]) s /\
     exists t v, In (EvRun (Z.of_nat (length (objv_of_varargs ap)))
                          (objv_of_varargs ap) 1 [[]] t v) (fst r)) /\
  ((dlopen w None = None \/ exists h, dlopen w None = Some h /\ dlsym w h = None) ->
   snd r = Returned (-1) s) /\
  (forall socket_path' s',
     fdt s' = fdt s ->
     fst (zygote_skip w socket_path' ap s') = fst r).
Proof.
  cbv zeta. unfold zygote_skip.
  destruct (dlopen w None) as [h |] eqn:Ho; [destruct (dlsym w h) as [run |] eqn:Hs |]; simpl.
  - split; [| split; [| split]].
    + intros objc objv argc argv t v Hin.
      destruct Hin as [Hin | [Hin | [Hin | []]]]; try discriminate.
      injection Hin as <- <- <- <- <- <-. repeat split; reflexivity.
    + intros h' run' [= <-] Hs'. rewrite Hs in Hs'. injection Hs' as <-.
      split; [reflexivity |]. eexists _, _. right. right. left. reflexivity.
    + intros [Hn | (h' & [= <-] & Hn)]; [discriminate |].
      rewrite Hs in Hn. discriminate.
    + intros socket_path' s' ->. reflexivity.
  - split; [| split; [| split]].
    + intros objc objv argc argv t v Hin.
      destruct Hin as [Hin | [Hin | []]]; discriminate.
    + intros h' run' [= <-] Hs'. rewrite Hs in Hs'. discriminate.
    + reflexivity.
    + reflexivity.
  - split; [| split; [| split]].
    + intros objc objv argc argv t v Hin.
      destruct Hin as [Hin | []]; discriminate.
    + discriminate.
    + reflexivity.
    + reflexivity.
Qed.

(** ** The descriptor phase *)

Lemma lowest_free_spec lim (t : gmap Z file) d :
  lowest_free lim t = Some d -> t !! d = None.
Proof.
  unfold lowest_free. intros Hf. apply find_some in Hf. destruct Hf as [_ Hd].
  apply bool_decide_eq_true in Hd. exact Hd.
Qed.

Lemma read_fd_spec w fd k s :
  exists r n s',
    read_fd w fd k s = ([EvRecvmsg fd r n], Done (rd_ret r) s') /\
    installed s s' k r n.
Proof.
  unfold read_fd, installed. destruct (sys_recv 1 (chan s)) as [[| [| b bs] c] ch].
  - eexists RdErr, None, _. split; [reflexivity |]. split; reflexivity.
  - eexists (RdData [] c), None, _. split; [reflexivity |]. split; reflexivity.
  - destruct c as [| f |].
    + eexists (RdData (b :: bs) NoCmsg), None, _. split; [reflexivity |]. simpl.
      split; [apply length_insert | reflexivity].
    + simpl. destruct (lowest_free (nofile w) (fdt s)) as [d |] eqn:Hd.
      * eexists (RdData (b :: bs) (Rights f)), (Some d), _. split; [reflexivity |]. simpl.
        split; [apply length_insert |].
        exists b, bs, f. repeat split. eapply lowest_free_spec. exact Hd.
      * eexists (RdData (b :: bs) (Rights f)), None, _. split; [reflexivity |]. simpl.
        split; [apply length_insert | reflexivity].
    + eexists (RdData (b :: bs) OtherCmsg), None, _.
      split; [reflexivity |]. split; reflexivity.
Qed.

Lemma dup_fds_S i n s :
  dup_fds i (S n) s =
  let oldfd := default (-1) (fds s !! i) in
  match sys_dup2 oldfd (Z.of_nat i) (fdt s) with
  | None => ([EvDup2 oldfd (Z.of_nat i) false], Goto_error s)
  | Some t =>
    (EvDup2 oldfd (Z.of_nat i) true :: fst (dup_fds (S i) n (set_fdt t s)),
     snd (dup_fds (S i) n (set_fdt t s)))
  end.
Proof.
  cbn [dup_fds]. rewrite bind_get. cbv zeta.
  destruct (sys_dup2 _ _ _) as [t |].
  - rewrite bind_emit, bind_modify. reflexivity.
  - rewrite bind_emit. reflexivity.
Qed.

(** When the descriptor phase runs to its end, it has issued three
    [recvmsg], into [fds[2]], [fds[1]] and [fds[0]] in this order, then
    three successful [dup2], of [fds[0]], [fds[1]] and [fds[2]] onto 0, 1
    and 2; nothing is closed. *)
Lemma recv_stdio_Done w fd s es s' :
  recv_stdio w fd s = (es, Done tt s') ->
  exists r2 n2 s1 r1 n1 s2 r0 n0 s3 o0 o1 o2 f0 f1 f2,
    installed s s1 2 r2 n2 /\ installed s1 s2 1 r1 n1 /\ installed s2 s3 0 r0 n0 /\
    es = [EvRecvmsg fd r2 n2; EvRecvmsg fd r1 n1; EvRecvmsg fd r0 n0;
          EvDup2 o0 0 true; EvDup2 o1 1 true; EvDup2 o2 2 true] /\
    o0 = default (-1) (fds s3 !! 0%nat) /\
    o1 = default (-1) (fds s3 !! 1%nat) /\
    o2 = default (-1) (fds s3 !! 2%nat) /\
    (fdt s3 : gmap Z file) !! o0 = Some f0 /\
    (<[0 := f0]> (fdt s3) : gmap Z file) !! o1 = Some f1 /\
    (<[1 := f1]> (<[0 := f0]> (fdt s3)) : gmap Z file) !! o2 = Some f2 /\
    fdt s' = <[2 := f2]> (<[1 := f1]> (<[0 := f0]> (fdt s3))).
Proof.
  unfold recv_stdio. intros Hrun.
  destruct (read_fd_spec w fd 2 s) as (r2 & n2 & s1 & H2 & Hi2).
  rewrite (bind_Done _ _ _ _ _ _ H2) in Hrun.
  destruct (Z.eqb (rd_ret r2) (-1)); [discriminate |].
  destruct (read_fd_spec w fd 1 s1) as (r1 & n1 & s2 & H1 & Hi1).
  rewrite (bind_Done _ _ _ _ _ _ H1) in Hrun.
  destruct (Z.eqb (rd_ret r1) (-1)); [discriminate |].
  destruct (read_fd_spec w fd 0 s2) as (r0 & n0 & s3 & H0 & Hi0).
  rewrite (bind_Done _ _ _ _ _ _ H0) in Hrun.
  destruct (Z.eqb (rd_ret r0) (-1)); [discriminate |].
  cbn [fst snd] in Hrun.
  rewrite dup_fds_S in Hrun. cbv zeta in Hrun. unfold sys_dup2 in Hrun at 1 2.
  destruct (fdt s3 !! default (-1) (fds s3 !! 0%nat)) as [f0 |] eqn:Hf0;
    [| cbn [fst snd] in Hrun; discriminate].
  cbn [fst snd] in Hrun.
  rewrite dup_fds_S in Hrun. cbv zeta in Hrun. unfold sys_dup2 in Hrun at 1 2.
  cbn [fds fdt set_fdt] in Hrun.
  destruct ((<[Z.of_nat 0 := f0]> (fdt s3) : gmap Z file) !! default (-1) (fds s3 !! 1%nat))
    as [f1 |] eqn:Hf1; [| cbn [fst snd] in Hrun; discriminate].
  cbn [fst snd] in Hrun.
  rewrite dup_fds_S in Hrun. cbv zeta in Hrun. unfold sys_dup2 in Hrun at 1 2.
  cbn [fds fdt set_fdt] in Hrun.
  destruct ((<[Z.of_nat 1 := f1]> (<[Z.of_nat 0 := f0]> (fdt s3)) : gmap Z file)
              !! default (-1) (fds s3 !! 2%nat)) as [f2 |] eqn:Hf2;
    [| cbn [fst snd] in Hrun; discriminate].
  simpl in Hrun. injection Hrun as <- <-.
  eexists r2, n2, s1, r1, n1, s2, r0, n0, s3, _, _, _, f0, f1, f2.
  split; [exact Hi2 |]. split; [exact Hi1 |]. split; [exact Hi0 |].
  repeat split; try eassumption; reflexivity.
Qed.

(** ** The moment the unit is entered *)

Lemma hook_after_event e : hook_event e -> after_event e.
Proof. by_event e. Qed.

(** Whenever the unit is entered, the three decoding phases ran to their
    end just before, and the unit is entered once. *)
Lemma unit_entered V B H w fd objc objv s objc' objv' argc argv t r :
  In (EvRun objc' objv' argc argv t r) (fst (grow_this_zygote V B H w fd objc objv s)) ->
  exists es1 a s1 es2 l s2 es3 s3 post,
    recv_request V w fd (enter B w s) = (es1, Done a s1) /\
    load_code w (default [] (head (snd a))) s1 = (es2, Done l s2) /\
    recv_stdio w fd s2 = (es3, Done tt s3) /\
    Forall request_event (es1 ++ es2) /\
    Forall decode_event es3 /\
    fdt s2 = fdt s /\ length (fds s2) = 3%nat /\
    fst (grow_this_zygote V B H w fd objc objv s) =
      (es1 ++ es2) ++ es3 ++ EvRun objc objv (fst a) (snd a) (fdt s3) r :: post /\
    Forall after_event post /\
    objc' = objc /\ objv' = objv /\ argc = fst a /\ argv = snd a /\ t = fdt s3 /\
    r = snd l objc objv (fst a) (snd a).
Proof.
  unfold grow_this_zygote.
  destruct (grow_this_zygote_body_cases V B H w fd objc objv s)
    as [(es1 & a & s1 & es2 & l & s2 & es3 & s3 & H1 & H2 & H3 & Hpre & Hreq & Hg & Hf & Hl
         & Hbody)
       | (es & r0 & Hbody & Hes & Hg & Hr)].
  - rewrite Hbody, run_and_reply_eq. cbv zeta.
    set (rv := snd l objc objv (fst a) (snd a)).
    assert (He3 : Forall decode_event es3).
    { apply Forall_app in Hpre. destruct Hpre as [_ Hpre].
      apply Forall_app in Hpre. apply Hpre. }
    match goal with
    | |- In _ (fst ?X) -> _ =>
      assert (Hshape : exists post,
        fst X = (es1 ++ es2) ++ es3 ++ EvRun objc objv (fst a) (snd a) (fdt s3) rv :: post /\
        Forall after_event post)
    end.
    { destruct H.
      - eexists. split; [simpl; rewrite <- !app_assoc; reflexivity |]. repeat constructor.
      - destruct (next_ok (wr_ok s3)) as [[] o]; cbn [fst snd].
        + eexists. split; [simpl; rewrite <- !app_assoc; reflexivity |]. repeat constructor.
        + rewrite error_path_eq. cbv zeta. simpl.
          eexists. split; [rewrite <- !app_assoc; simpl; reflexivity |].
          repeat constructor. apply Forall_app. split; [| repeat constructor].
          eapply Forall_impl; [apply run_hooks_hook_events | apply hook_after_event]. }
    destruct Hshape as (post & Hshape & Hpost).
    intros Hin. rewrite Hshape in Hin.
    assert (Heq : EvRun objc' objv' argc argv t r =
                  EvRun objc objv (fst a) (snd a) (fdt s3) rv).
    { rewrite !in_app_iff in Hin. simpl in Hin.
      destruct Hin as [[Hin | Hin] | [Hin | [Hin | Hin]]].
      + exfalso. assert (Hd : Forall request_event es1)
          by (apply Forall_app in Hreq; apply Hreq).
        rewrite List.Forall_forall in Hd. exact (Hd _ Hin).
      + exfalso. assert (Hd : Forall request_event es2)
          by (apply Forall_app in Hreq; apply Hreq).
        rewrite List.Forall_forall in Hd. exact (Hd _ Hin).
      + exfalso. rewrite List.Forall_forall in He3. exact (He3 _ Hin).
      + symmetry. exact Hin.
      + exfalso. rewrite List.Forall_forall in Hpost. exact (Hpost _ Hin). }
    injection Heq as -> -> -> -> -> ->.
    exists es1, a, s1, es2, l, s2, es3, s3, post.
    do 7 (split; [assumption |]). split; [exact Hshape |]. split; [assumption |].
    repeat split; reflexivity.
  - rewrite Hbody. intros Hin. exfalso.
    assert (Hno : forall es', Forall after_event es' -> ~ In (EvRun objc' objv' argc argv t r) (es ++ es')).
    { intros es' He' Hi. apply in_app_iff in Hi. destruct Hi as [Hi | Hi].
      - rewrite List.Forall_forall in Hes. exact (Hes _ Hi).
      - rewrite List.Forall_forall in He'. exact (He' _ Hi). }
    destruct r0 as [v s1 | s1 | s1]; [contradiction | |].
    + rewrite error_path_eq in Hin. cbv zeta in Hin. simpl in Hin.
      eapply Hno; [| exact Hin].
      repeat constructor. apply Forall_app. split; [| repeat constructor].
      eapply Forall_impl; [apply run_hooks_hook_events | apply hook_after_event].
    + simpl in Hin. apply (Hno [] (List.Forall_nil _)). rewrite app_nil_r. exact Hin.
Qed.

Lemma installed_mono s s' k r n d :
  installed s s' k r n -> is_Some ((fdt s : gmap Z file) !! d) ->
  is_Some ((fdt s' : gmap Z file) !! d).
Proof.
  intros [_ Hi] Hd. destruct n as [d' |].
  - destruct Hi as (b & bs & f & _ & _ & -> & _).
    rewrite lookup_insert_is_Some. destruct (decide (d' = d)); auto.
  - rewrite Hi. exact Hd.
Qed.

Lemma installed_here s s' k r d :
  installed s s' k r (Some d) -> is_Some ((fdt s' : gmap Z file) !! d).
Proof.
  intros [_ (b & bs & f & _ & _ & -> & _)]. rewrite lookup_insert_eq. eauto.
Qed.

Lemma insert_mono (t : gmap Z file) k f d :
  is_Some (t !! d) -> is_Some (<[k := f]> t !! d).
Proof. intros Hd. rewrite lookup_insert_is_Some. destruct (decide (k = d)); auto. Qed.


(** ** C1: one status per request *)

Lemma status_writes_cons e es :
  status_writes (e :: es) =
  match status_of e with
  | Some x => x :: status_writes es
  | None => status_writes es
  end.
Proof. reflexivity. Qed.

Lemma status_writes_nil : status_writes [] = [].
Proof. reflexivity. Qed.

Ltac status_norm :=
  repeat first
    [ rewrite status_writes_app
    | rewrite status_writes_cons; cbn [status_of]
    | rewrite status_writes_nil ].



(** ** C9: the received descriptors are left open *)

(** C9 (amended). When the unit is entered, every descriptor the child
    received by [recvmsg] is still open: the child duplicates the three
    carriers onto the standard slots and closes none of them; no [close] at
    all precedes the entry of the unit. *)
Theorem carriers_stay_open V B H w fd objc objv s objc' objv' argc argv t r :
  In (EvRun objc' objv' argc argv t r) (fst (grow_this_zygote V B H w fd objc objv s)) ->
  (forall fd' rr d,
     In (EvRecvmsg fd' rr (Some d)) (fst (grow_this_zygote V B H w fd objc objv s)) ->
     is_Some (t !! d)) /\
  exists pre post,
    fst (grow_this_zygote V B H w fd objc objv s) =
      pre ++ EvRun objc' objv' argc argv t r :: post /\
    Forall decode_event pre.
Proof.
  intros Hin.
  destruct (unit_entered _ _ _ _ _ _ _ _ _ _ _ _ _ _ Hin)
    as (es1 & a & s1 & es2 & l & s2 & es3 & s3 & post & _ & _ & H3 & Hreq & He3 & _ & _
        & Hes & Hpost & -> & -> & -> & -> & -> & _).
  rewrite Hes. split.
  - destruct (recv_stdio_Done _ _ _ _ _ H3)
      as (r2 & n2 & t1 & r1 & n1 & t2 & r0 & n0 & t3 & o0 & o1 & o2 & f0 & f1 & f2
          & Hi2 & Hi1 & Hi0 & -> & _ & _ & _ & _ & _ & _ & Ht).
    rewrite Ht. intros fd' rr d Hd.
    do 3 apply insert_mono.
    rewrite !in_app_iff in Hd. simpl in Hd.
    destruct Hd as [Hd | [Hd | Hd]].
    + exfalso. rewrite List.Forall_forall in Hreq.
      apply in_app_iff in Hd. exact (Hreq _ Hd).
    + destruct Hd as [Hd | [Hd | [Hd | [Hd | [Hd | [Hd | []]]]]]]; try discriminate.
      * injection Hd as _ _ ->.
        eapply installed_mono; [exact Hi0 |]. eapply installed_mono; [exact Hi1 |].
        eapply installed_here. exact Hi2.
      * injection Hd as _ _ ->.
        eapply installed_mono; [exact Hi0 |]. eapply installed_here. exact Hi1.
      * injection Hd as _ _ ->. eapply installed_here. exact Hi0.
    + destruct Hd as [Hd | Hd]; [discriminate |].
      exfalso. rewrite List.Forall_forall in Hpost. exact (Hpost _ Hd).
  - exists ((es1 ++ es2) ++ es3), post.
    split; [rewrite <- (app_assoc (es1 ++ es2)); reflexivity |].
    apply Forall_app. split; [| exact He3].
    eapply Forall_impl; [exact Hreq | apply request_decode_event].
Qed.

(** ** The [int] object representation *)

Lemma Z_of_byte_of_Z z : Z_of_byte (byte_of_Z z) = z mod 256.
Proof.
  unfold Z_of_byte, byte_of_Z.
  assert (Hr : 0 <= z mod 256 < 256) by (apply Z.mod_pos_bound; lia).
  destruct (Byte.of_N (Z.to_N (z mod 256))) as [b |] eqn:Hb.
  - apply Byte.to_of_N in Hb. rewrite Hb. apply Z2N.id. lia.
  - apply Byte.of_N_None_iff in Hb. lia.
Qed.

Lemma bytes_int_int_bytes z : bytes_int (int_bytes z) = wrap_int z.
Proof.
  unfold bytes_int, int_bytes. cbn [take fold_right].
  rewrite !Z_of_byte_of_Z, !Z.shiftr_div_pow2 by lia.
  unfold wrap_int. f_equal.
  change (2 ^ 8) with 256. change (2 ^ 16) with 65536. change (2 ^ 24) with 16777216.
  change (2 ^ 31) with 2147483648. change (2 ^ 32) with 4294967296.
  Z.div_mod_to_equations. lia.
Qed.

Lemma wrap_int_small z : - 2 ^ 31 <= z < 2 ^ 31 -> wrap_int z = z.
Proof.
  intros Hz. unfold wrap_int. rewrite Z.mod_small; lia.
Qed.

Lemma store_int_bytes old z : store_bytes (int_bytes old) (int_bytes z) = int_bytes z.
Proof. reflexivity. Qed.

(** ** Decoding what a well-behaved peer sent *)

Lemma recvNum_chunk fd v rest s :
  chan s = CData (int_bytes v) NoCmsg :: rest ->
  recvNum fd s =
  ([EvRead fd 4 (RdData (int_bytes v) NoCmsg)],
   Done tt (set_num (wrap_int v) (set_chan rest s))).
Proof.
  intros Hc. unfold recvNum, bind, sys_read_num. rewrite Hc.
  change (sys_recv 4 (CData (int_bytes v) NoCmsg :: rest))
    with (RdData (int_bytes v) NoCmsg, rest).
  cbv iota. rewrite store_int_bytes, bytes_int_int_bytes. reflexivity.
Qed.

Lemma strdup_store x : forall m,
  ~ In NUL x -> (length x < length m)%nat ->
  strdup (<[length x := NUL]> (store_bytes m x)) = x.
Proof.
  unfold store_bytes. induction x as [| b x IH]; intros m Hn Hl.
  - destruct m as [| c m]; [simpl in Hl; lia |]. reflexivity.
  - destruct m as [| c m]; [simpl in Hl; lia |].
    simpl. destruct (Byte.eqb b NUL) eqn:Hb.
    + apply Byte.byte_dec_bl in Hb. exfalso. apply Hn. left. exact Hb.
    + f_equal. apply IH; [| simpl in Hl; lia].
      intros Hin. apply Hn. right. exact Hin.
Qed.

Lemma realloc_length w m n : (length m <= n)%nat -> length (realloc w m n) = n.
Proof.
  intros Hl. unfold realloc. rewrite length_app, length_map, length_seq. lia.
Qed.

Lemma recvStr_chunk w fd x rest s :
  str_ok x -> chan s = enc_str x ++ rest ->
  exists es s',
    recvStr w fd s = (es, Done tt s') /\ decoded s s' rest /\
    environ s' = environ s /\ strdup (buf s') = x.
Proof.
  intros [Hnul Hlen] Hc. unfold recvStr.
  unfold enc_str, enc_num in Hc. simpl in Hc.
  rewrite (bind_Done _ _ _ _ _ _ (recvNum_chunk fd _ _ s Hc)), bind_get.
  assert (Hw : wrap_int (strlen x) = strlen x).
  { apply wrap_int_small. unfold strlen, INT_MAX in *. lia. }
  cbn [num set_num set_chan]. rewrite Hw.
  rewrite bool_decide_eq_false_2 by (unfold strlen, INT_MAX in *; lia).
  set (s1 := set_num (strlen x) (set_chan _ s)).
  (* the buffer holds the string and its terminator *)
  assert (Hbuf : exists s2,
    ((if Z.ltb (buflen s1 - 1) (strlen x)
      then modify (fun s => set_buf (realloc w (buf s) (Z.to_nat (num s + 1))) s)
      else ret tt) : M unit) s1 = ([], Done tt s2) /\
    (length x < length (buf s2))%nat /\ chan s2 = chan s1 /\ num s2 = strlen x /\
    wr_ok s2 = wr_ok s /\ kept s2 = kept s /\ cwd s2 = cwd s /\ environ s2 = environ s).
  { unfold buflen. destruct (Z.ltb_spec (Z.of_nat (length (buf s1)) - 1) (strlen x)) as [Hlt | Hge].
    - eexists. split; [reflexivity |]. cbn [buf set_buf num]. subst s1. cbn [num set_num].
      rewrite realloc_length; unfold strlen in *; [| cbn [buf set_num set_chan] in *; lia].
      repeat split; lia.
    - exists s1. split; [reflexivity |]. unfold strlen in *. repeat split; lia. }
  destruct Hbuf as (s2 & Hb & Hl2 & Hc2 & Hn2 & Hw2 & Hk2 & Hd2 & He2).
  rewrite (bind_Done _ _ _ _ _ _ Hb). cbn [app].
  assert (Hrd : exists s3,
    sys_read_buf fd s2 =
      ([EvRead fd (strlen x) (RdData x NoCmsg)], Done (strlen x) s3) /\
    buf s3 = store_bytes (buf s2) x /\ chan s3 = rest /\ num s3 = strlen x /\
    wr_ok s3 = wr_ok s /\ kept s3 = kept s /\ cwd s3 = cwd s /\ environ s3 = environ s).
  { unfold sys_read_buf. rewrite Hn2, Hc2. subst s1. cbn [chan set_num set_chan].
    unfold strlen. rewrite Nat2Z.id. destruct x as [| b x].
    - eexists. split; [reflexivity |]. repeat split; assumption.
    - cbn [sys_recv length app]. rewrite take_ge, drop_ge by (simpl; lia).
      eexists. split; [reflexivity |]. repeat split; assumption. }
  destruct Hrd as (s3 & Hr & Hb3 & Hc3 & Hn3 & Hw3 & Hk3 & Hd3 & He3).
  rewrite (bind_Done _ _ _ _ _ _ Hr).
  destruct (Z.eqb_spec (strlen x) (-1)) as [Hm | _]; [unfold strlen in Hm; lia |].
  eexists _, _. split; [reflexivity |]. unfold decoded. cbn [snd].
  cbn [chan wr_ok kept cwd environ buf set_buf globals fdt fds].
  split; [repeat split; assumption |]. split; [assumption |].
  rewrite Hn3, Hb3. unfold strlen. rewrite Nat2Z.id. apply strdup_store; assumption.
Qed.

Lemma decoded_trans s s1 s2 rest1 rest2 :
  decoded s s1 rest1 -> decoded s1 s2 rest2 -> decoded s s2 rest2.
Proof.
  unfold decoded. intros (_ & Hw1 & Hk1 & Hc1) (Hr & Hw2 & Hk2 & Hc2).
  repeat split; congruence.
Qed.

Lemma recv_environ_chunks w fd env : forall rest s,
  Forall str_ok env -> chan s = enc_strs env ++ rest ->
  exists es s',
    recv_environ w fd (length env) s = (es, Done tt s') /\ decoded s s' rest /\
    environ s' = environ s ++ env.
Proof.
  induction env as [| x env IH]; intros rest s Hok Hc.
  - exists [], s. split; [reflexivity |]. split; [| symmetry; apply app_nil_r].
    repeat split. exact Hc.
  - apply Forall_cons in Hok. destruct Hok as [Hx Hok].
    simpl in Hc. unfold enc_strs in IH. rewrite <- app_assoc in Hc.
    destruct (recvStr_chunk w fd x _ s Hx Hc) as (es1 & s1 & Hr1 & Hd1 & He1 & Hs1).
    cbn [length recv_environ]. rewrite (bind_Done _ _ _ _ _ _ Hr1), bind_modify.
    set (s1' := set_environ (environ s1 ++ [strdup (buf s1)]) s1).
    assert (Hd1' : decoded s s1' (flat_map enc_str env ++ rest)) by exact Hd1.
    destruct (IH rest s1' Hok (proj1 Hd1')) as (es2 & s2 & Hr2 & Hd2 & He2).
    rewrite Hr2. eexists _, s2. split; [reflexivity |].
    split; [eapply decoded_trans; eassumption |].
    rewrite He2. subst s1'. cbn [environ set_environ]. rewrite He1, Hs1, <- app_assoc.
    reflexivity.
Qed.

Lemma recv_argv_chunks w fd args : forall argv rest s,
  Forall str_ok args -> chan s = enc_strs args ++ rest ->
  exists es s',
    recv_argv w fd (length args) argv s = (es, Done (argv ++ args) s') /\
    decoded s s' rest /\ environ s' = environ s.
Proof.
  induction args as [| x args IH]; intros argv rest s Hok Hc.
  - exists [], s. rewrite app_nil_r. split; [reflexivity |]. split; [| reflexivity].
    repeat split. exact Hc.
  - apply Forall_cons in Hok. destruct Hok as [Hx Hok].
    simpl in Hc. unfold enc_strs in IH. rewrite <- app_assoc in Hc.
    destruct (recvStr_chunk w fd x _ s Hx Hc) as (es1 & s1 & Hr1 & Hd1 & He1 & Hs1).
    cbn [length recv_argv]. rewrite (bind_Done _ _ _ _ _ _ Hr1), bind_get.
    destruct (IH (argv ++ [strdup (buf s1)]) rest s1 Hok (proj1 Hd1))
      as (es2 & s2 & Hr2 & Hd2 & He2).
    rewrite Hr2. rewrite Hs1, <- app_assoc. eexists _, s2. split; [reflexivity |].
    split; [eapply decoded_trans; eassumption | congruence].
Qed.

Lemma sys_write_num_eq site fd v s :
  sys_write_num site fd v s =
  ([EvWrite site fd v (fst (next_ok (wr_ok s)))],
   Done (if fst (next_ok (wr_ok s)) then 4 else -1)
        (set_wr_ok (snd (next_ok (wr_ok s))) s)).
Proof. unfold sys_write_num. destruct (next_ok (wr_ok s)). reflexivity. Qed.

(** If the request phase runs to its end on such a stream, it decoded the
    argument vector made of the locator and the further arguments, and
    stopped in front of the descriptor messages. *)
Lemma recv_request_decodes V B w fd s version env dir code_path args tail es a s1 :
  Forall str_ok env -> str_ok dir -> str_ok code_path -> Forall str_ok args ->
  Z.of_nat (length env) < 2 ^ 31 -> Z.of_nat (length args) + 1 < 2 ^ 31 ->
  chan s = request_wire version env dir (Z.of_nat (length args) + 1) code_path args tail ->
  recv_request V w fd (enter B w s) = (es, Done a s1) ->
  a = (Z.of_nat (length args) + 1, code_path :: args) /\
  chan s1 = tail /\ kept s1 = kept (enter B w s) /\ environ s1 = env.
Proof.
  intros Henv Hdir Hcode Hargs Hle Hla Hc Hrun.
  unfold request_wire, enc_num in Hc. cbn [app] in Hc.
  unfold recv_request in Hrun.
  (* version *)
  rewrite (bind_Done _ _ _ _ _ _ (recvNum_chunk fd _ _ (enter B w s) Hc)), bind_get in Hrun.
  cbn [app] in Hrun.
  destruct (negb _); [discriminate |].
  rewrite bind_modify, (bind_Done _ _ _ _ _ _ (sys_write_num_eq _ _ _ _)) in Hrun.
  destruct (fst (next_ok _)); [| discriminate]. cbn [Z.eqb] in Hrun.
  (* environ *)
  match type of Hrun with
  | context [bind (recvNum fd) _ ?s0] =>
    rewrite (bind_Done _ _ _ _ _ _
               (recvNum_chunk fd (Z.of_nat (length env))
                  (enc_strs env ++ enc_str dir ++
                   CData (int_bytes (Z.of_nat (length args) + 1)) NoCmsg ::
                   enc_str code_path ++ enc_strs args ++ tail) s0 eq_refl)) in Hrun
  end.
  rewrite bind_get in Hrun. cbn [num set_num] in Hrun.
  rewrite (wrap_int_small (Z.of_nat (length env))) in Hrun by lia.
  destruct (Z.ltb_spec (Z.of_nat (length env)) 0) as [? | _]; [lia |].
  rewrite bind_modify, Nat2Z.id in Hrun.
  match type of Hrun with
  | context [bind (recv_environ w fd (length env)) _ ?s0] =>
    destruct (recv_environ_chunks w fd env
                (enc_str dir ++ CData (int_bytes (Z.of_nat (length args) + 1)) NoCmsg ::
                 enc_str code_path ++ enc_strs args ++ tail) s0 Henv eq_refl)
      as (es2 & s2 & Hr2 & Hd2 & He2)
  end.
  rewrite (bind_Done _ _ _ _ _ _ Hr2) in Hrun.
  (* cwd *)
  destruct (recvStr_chunk w fd dir _ s2 Hdir (proj1 Hd2)) as (es3 & s3 & Hr3 & Hd3 & He3 & _).
  rewrite (bind_Done _ _ _ _ _ _ Hr3), bind_get, bind_emit, bind_modify in Hrun.
  cbn [fst snd] in Hrun.
  set (s3' := if is_dir w (strdup (buf s3)) then set_cwd (strdup (buf s3)) s3 else s3) in Hrun.
  assert (Hs3' : chan s3' = chan s3 /\ kept s3' = kept s3 /\ environ s3' = environ s3)
    by (subst s3'; destruct (is_dir w _); repeat split).
  destruct Hs3' as (Hc3' & Hk3' & He3').
  (* argc *)
  assert (Hc3 : chan s3' = CData (int_bytes (Z.of_nat (length args) + 1)) NoCmsg ::
                           enc_str code_path ++ enc_strs args ++ tail)
    by (rewrite Hc3'; apply Hd3).
  rewrite (bind_Done _ _ _ _ _ _ (recvNum_chunk fd _ _ s3' Hc3)), bind_get in Hrun.
  cbn [num set_num fst snd] in Hrun.
  rewrite (wrap_int_small (Z.of_nat (length args) + 1)) in Hrun by lia.
  (* code_path *)
  match type of Hrun with
  | context [bind (recvStr w fd) _ ?s0] =>
    destruct (recvStr_chunk w fd code_path (enc_strs args ++ tail) s0 Hcode eq_refl)
      as (es4 & s4 & Hr4 & Hd4 & He4 & Hs4)
  end.
  rewrite (bind_Done _ _ _ _ _ _ Hr4), bind_get in Hrun. cbn [fst snd] in Hrun.
  destruct (Z.leb_spec (Z.of_nat (length args) + 1) 0) as [? | _]; [lia |].
  (* argv *)
  replace (Z.to_nat (Z.of_nat (length args) + 1 - 1)) with (length args) in Hrun by lia.
  destruct (recv_argv_chunks w fd args [strdup (buf s4)] tail s4 Hargs (proj1 Hd4))
    as (es5 & s5 & Hr5 & Hd5 & He5).
  rewrite (bind_Done _ _ _ _ _ _ Hr5) in Hrun. cbn [fst snd ret] in Hrun.
  injection Hrun as _ <- <-.
  rewrite Hs4. split; [reflexivity |]. split; [apply Hd5 |].
  destruct Hd5 as (_ & _ & Hk5 & _), Hd4 as (_ & _ & Hk4 & _),
           Hd3 as (_ & _ & Hk3 & _), Hd2 as (_ & _ & Hk2 & _).
  split.
  - rewrite Hk5, Hk4. cbn [kept globals fdt fds set_num set_chan].
    change (kept s3' = kept (enter B w s)). rewrite Hk3', Hk3, Hk2. reflexivity.
  - rewrite He5, He4. cbn [environ set_num set_chan]. rewrite He3', He3, He2. reflexivity.
Qed.

(** ** What the client puts on the wire *)

Lemma wire_app es es' : wire (es ++ es') = wire es ++ wire es'.
Proof. unfold wire. apply flat_map_app. Qed.

Lemma client_same_refl c : client_same c c.
Proof. repeat split. Qed.

Lemma client_same_trans c c1 c2 : client_same c c1 -> client_same c1 c2 -> client_same c c2.
Proof. unfold client_same. intros (? & ? & ? & ? & ?) (? & ? & ? & ? & ?). repeat split; congruence. Qed.

Lemma sendNum_wire fd v c :
  c_wr_ok c = [] ->
  exists es c',
    sendNum fd v c = (es, Done tt c') /\ wire es = enc_num (wrap_int v) /\
    client_same c c' /\ c_num c' = wrap_int v.
Proof.
  intros Hw. unfold sendNum. rewrite bind_modify. unfold bind, c_write.
  cbn [c_wr_ok set_c_num]. rewrite Hw. cbn [next_ok].
  eexists _, _. split; [reflexivity |]. split; [reflexivity |].
  split; [| reflexivity]. unfold client_same. cbn. rewrite Hw. repeat split.
Qed.

Lemma sendStr_wire fd x c :
  c_wr_ok c = [] -> Z.of_nat (length x) < INT_MAX ->
  exists es c', sendStr fd x c = (es, Done tt c') /\ wire es = enc_str x /\ client_same c c'.
Proof.
  intros Hw Hl. unfold sendStr.
  destruct (sendNum_wire fd (strlen x) c Hw) as (es1 & c1 & Hr1 & Hw1 & Hs1 & Hn1).
  rewrite (bind_Done _ _ _ _ _ _ Hr1), bind_get.
  assert (Hwr : wrap_int (strlen x) = strlen x).
  { apply wrap_int_small. unfold strlen, INT_MAX in *. lia. }
  rewrite Hn1, Hwr in *.
  destruct (Z.ltb_spec (strlen x) 0) as [? | _]; [unfold strlen in *; lia |].
  unfold bind, c_write. rewrite (proj1 Hs1), Hw. cbn [next_ok].
  replace (take (Z.to_nat (strlen x)) x) with x
    by (unfold strlen; rewrite Nat2Z.id, take_ge; [reflexivity | lia]).
  destruct (Z.eqb_spec (Z.of_nat (length x)) (-1)) as [? | _]; [lia |].
  eexists _, _. split; [reflexivity |]. cbn [fst snd ret app].
  split.
  - rewrite wire_app, Hw1. unfold enc_str. f_equal.
    destruct x; reflexivity.
  - eapply client_same_trans; [exact Hs1 |].
    unfold client_same. cbn. rewrite (proj1 Hs1), Hw. repeat split.
Qed.

Lemma send_strings_wire fd l : forall c,
  c_wr_ok c = [] -> Forall str_ok l ->
  exists es c',
    send_strings fd l c = (es, Done tt c') /\ wire es = enc_strs l /\ client_same c c'.
Proof.
  induction l as [| x l IH]; intros c Hw Hok.
  - exists [], c. split; [reflexivity |]. split; [reflexivity | apply client_same_refl].
  - apply Forall_cons in Hok. destruct Hok as [[_ Hx] Hok].
    destruct (sendStr_wire fd x c Hw Hx) as (es1 & c1 & Hr1 & Hw1 & Hs1).
    cbn [send_strings]. rewrite (bind_Done _ _ _ _ _ _ Hr1).
    assert (Hw' : c_wr_ok c1 = []) by (rewrite (proj1 Hs1); exact Hw).
    destruct (IH c1 Hw' Hok) as (es2 & c2 & Hr2 & Hw2 & Hs2).
    rewrite Hr2. cbn [fst snd]. eexists _, _. split; [reflexivity |].
    split; [rewrite wire_app, Hw1, Hw2; reflexivity |].
    eapply client_same_trans; eassumption.
Qed.

Lemma write_fd_wire fd payload k f c :
  c_wr_ok c = [] -> c_fdt c !! k = Some f ->
  exists c',
    write_fd fd payload k c = ([CSendmsg fd payload k (Some f) true], Done 1 c') /\
    client_same c c'.
Proof.
  intros Hw Hk. unfold write_fd. rewrite Hk, Hw. cbn [next_ok].
  eexists. split; [reflexivity |]. unfold client_same. cbn. rewrite Hw. repeat split.
Qed.

Lemma main_tail_wire fd c :
  wire (fst ((n <- c_read_num fd ;;
              if Z.eqb n (-1) then goto_error else
              c_close fd ;; c <- get ;; ret (c_num c)) c)) = [].
Proof.
  unfold bind, c_read_num. destruct (sys_recv 4 (c_reply c)) as [[| bs cm] ch]; cbn.
  - reflexivity.
  - destruct (Z.eqb (Z.of_nat (length bs)) (-1)); reflexivity.
Qed.

Lemma main_body_wire V fd argv c f0 f1 f2 :
  (3 <= length argv)%nat ->
  c_wr_ok c = [] ->
  Forall str_ok (c_environ c) -> str_ok (c_cwd c) -> Forall str_ok (drop 2 argv) ->
  Z.of_nat (length (c_environ c)) < 2 ^ 31 -> Z.of_nat (length argv) < 2 ^ 31 ->
  c_fdt c !! 0 = Some f0 -> c_fdt c !! 1 = Some f1 -> c_fdt c !! 2 = Some f2 ->
  wire (fst (main_body V fd (Z.of_nat (length argv)) argv c)) =
  request_wire (wrap_int V) (c_environ c) (c_cwd c)
    (Z.of_nat (length (drop 3 argv)) + 1) (default [] (argv !! 2%nat)) (drop 3 argv)
    [CData [default NUL (head (c_cwd c))] (Rights f2);
     CData [default NUL (head (c_cwd c))] (Rights f1);
     CData [default NUL (head (c_cwd c))] (Rights f0)].
Proof.
  intros Hargc Hw Henv Hcwd Hargv Hle Hla H0 H1 H2.
  destruct argv as [| a0 [| a1 [| code args]]]; try (simpl in Hargc; lia).
  cbn [drop lookup list_lookup default] in *.
  apply Forall_cons in Hargv. destruct Hargv as [Hcode Hargs].
  unfold main_body, request_wire. cbv zeta. cbn [lookup list_lookup default drop].
  (* version *)
  destruct (sendNum_wire fd V c Hw) as (e1 & c1 & Hr1 & Hw1 & Hs1 & _).
  rewrite (bind_Done _ _ _ _ _ _ Hr1). cbn [fst snd]. rewrite wire_app, Hw1. f_equal.
  rewrite bind_get.
  destruct Hs1 as (Hwr1 & Hf1 & He1 & Hc1 & _). rewrite He1, Hc1.
  (* environ *)
  assert (Hw1' : c_wr_ok c1 = []) by congruence.
  destruct (sendNum_wire fd (Z.of_nat (length (c_environ c))) c1 Hw1')
    as (e2 & c2 & Hr2 & Hw2 & Hs2 & _).
  rewrite (bind_Done _ _ _ _ _ _ Hr2). cbn [fst snd]. rewrite wire_app, Hw2.
  rewrite wrap_int_small by lia. f_equal.
  destruct Hs2 as (Hwr2 & Hf2 & _).
  assert (Hw2' : c_wr_ok c2 = []) by congruence.
  destruct (send_strings_wire fd (c_environ c) c2 Hw2' Henv) as (e3 & c3 & Hr3 & Hw3 & Hs3).
  rewrite (bind_Done _ _ _ _ _ _ Hr3). cbn [fst snd]. rewrite wire_app, Hw3. f_equal.
  destruct Hs3 as (Hwr3 & Hf3 & _).
  (* cwd *)
  assert (Hw3' : c_wr_ok c3 = []) by congruence.
  destruct (sendStr_wire fd (c_cwd c) c3 Hw3' (proj2 Hcwd)) as (e4 & c4 & Hr4 & Hw4 & Hs4).
  rewrite (bind_Done _ _ _ _ _ _ Hr4). cbn [fst snd]. rewrite wire_app, Hw4. f_equal.
  destruct Hs4 as (Hwr4 & Hf4 & _).
  (* argc *)
  assert (Hw4' : c_wr_ok c4 = []) by congruence.
  destruct (sendNum_wire fd (Z.of_nat (length (a0 :: a1 :: code :: args)) - 2) c4 Hw4')
    as (e5 & c5 & Hr5 & Hw5 & Hs5 & _).
  rewrite (bind_Done _ _ _ _ _ _ Hr5). cbn [fst snd]. rewrite wire_app, Hw5.
  rewrite wrap_int_small by (cbn [length] in *; lia).
  replace (Z.of_nat (length (a0 :: a1 :: code :: args)) - 2)
    with (Z.of_nat (length args) + 1) by (cbn [length]; lia).
  f_equal.
  destruct Hs5 as (Hwr5 & Hf5 & _).
  (* code_path *)
  assert (Hw5' : c_wr_ok c5 = []) by congruence.
  destruct (sendStr_wire fd code c5 Hw5' (proj2 Hcode)) as (e6 & c6 & Hr6 & Hw6 & Hs6).
  rewrite (bind_Done _ _ _ _ _ _ Hr6). cbn [fst snd]. rewrite wire_app, Hw6. f_equal.
  destruct Hs6 as (Hwr6 & Hf6 & _).
  (* argv *)
  assert (Hw6' : c_wr_ok c6 = []) by congruence.
  destruct (send_strings_wire fd args c6 Hw6' Hargs) as (e7 & c7 & Hr7 & Hw7 & Hs7).
  rewrite (bind_Done _ _ _ _ _ _ Hr7). cbn [fst snd]. rewrite wire_app, Hw7. f_equal.
  destruct Hs7 as (Hwr7 & Hf7 & _).
  (* descriptors *)
  assert (Hw7' : c_wr_ok c7 = []) by congruence.
  assert (Hf7' : c_fdt c7 = c_fdt c) by congruence.
  destruct (write_fd_wire fd (default NUL (head (c_cwd c))) 2 f2 c7 Hw7')
    as (c8 & Hr8 & Hs8); [rewrite Hf7'; exact H2 |].
  rewrite (bind_Done _ _ _ _ _ _ Hr8). cbn [fst snd Z.eqb]. rewrite wire_app.
  destruct Hs8 as (Hwr8 & Hf8 & _).
  assert (Hw8' : c_wr_ok c8 = []) by congruence.
  destruct (write_fd_wire fd (default NUL (head (c_cwd c))) 1 f1 c8 Hw8')
    as (c9 & Hr9 & Hs9); [rewrite Hf8, Hf7'; exact H1 |].
  rewrite (bind_Done _ _ _ _ _ _ Hr9). cbn [fst snd Z.eqb]. rewrite wire_app.
  destruct Hs9 as (Hwr9 & Hf9 & _).
  assert (Hw9' : c_wr_ok c9 = []) by congruence.
  destruct (write_fd_wire fd (default NUL (head (c_cwd c))) 0 f0 c9 Hw9')
    as (c10 & Hr10 & Hs10); [rewrite Hf9, Hf8, Hf7'; exact H0 |].
  rewrite (bind_Done _ _ _ _ _ _ Hr10). cbn [fst snd Z.eqb]. rewrite wire_app.
  rewrite main_tail_wire. reflexivity.
Qed.

Lemma lowest_free_range lim (t : gmap Z file) d : lowest_free lim t = Some d -> 0 <= d.
Proof.
  unfold lowest_free. intros Hf. apply find_some in Hf. destruct Hf as [Hin _].
  apply list_elem_of_In, elem_of_seqZ in Hin. lia.
Qed.

(** The stream a well-behaved client produces is the request of §4.1, with
    the count of the locator and the further arguments in its argument
    count field, followed by the three descriptor messages for the client's
    descriptors 2, 1 and 0. *)
Lemma main_wire V U argv c :
  client_ok U argv c ->
  exists f0 f1 f2,
    c_fdt c !! 0 = Some f0 /\ c_fdt c !! 1 = Some f1 /\ c_fdt c !! 2 = Some f2 /\
    wire (fst (main V U argv c)) =
    request_wire (wrap_int V) (c_environ c) (c_cwd c)
      (Z.of_nat (length (drop 3 argv)) + 1) (default [] (argv !! 2%nat)) (drop 3 argv)
      [CData [default NUL (head (c_cwd c))] (Rights f2);
       CData [default NUL (head (c_cwd c))] (Rights f1);
       CData [default NUL (head (c_cwd c))] (Rights f0)].
Proof.
  intros (Hargc & Hpath & [f Hsock] & [sfd Hfree] & Hconn & Hw & Henv & Hcwd & Hargv
          & Hle & Hla & [f0 H0] & [f1 H1] & [f2 H2]).
  exists f0, f1, f2. do 3 (split; [assumption |]).
  unfold main. destruct (Z.ltb_spec (Z.of_nat (length argv)) 3) as [? | _]; [lia |].
  unfold open_unix_fd.
  destruct (Z.leb_spec (U - 1) (strlen (default [] (argv !! 1%nat))))
    as [? | _]; [lia |].
  rewrite Hsock, Hfree, Hconn. cbn [option_map].
  pose proof (lowest_free_range _ _ _ Hfree) as Hpos.
  pose proof (lowest_free_spec _ _ _ Hfree) as Hnone.
  destruct (Z.eqb_spec sfd (-1)) as [? | _]; [lia |].
  set (c1 := set_c_fdt _ c).
  assert (Hbody : wire (fst (main_body V sfd (Z.of_nat (length argv)) argv c1)) =
    request_wire (wrap_int V) (c_environ c) (c_cwd c)
      (Z.of_nat (length (drop 3 argv)) + 1) (default [] (argv !! 2%nat)) (drop 3 argv)
      [CData [default NUL (head (c_cwd c))] (Rights f2);
       CData [default NUL (head (c_cwd c))] (Rights f1);
       CData [default NUL (head (c_cwd c))] (Rights f0)]).
  { apply (main_body_wire V sfd argv c1 f0 f1 f2); try assumption;
      subst c1; cbn [c_fdt set_c_fdt];
      rewrite lookup_insert_ne; try assumption; intros ->; congruence. }
  destruct (main_body V sfd (Z.of_nat (length argv)) argv c1) as [es' [v c2 | c2 | c2]];
    cbn [fst] in *; rewrite ?wire_app, Hbody; cbn [wire flat_map wire_of app];
    rewrite ?app_nil_r; reflexivity.
Qed.

Lemma load_code_state w path s es l s' :
  load_code w path s = (es, Done l s') -> s' = s.
Proof.
  unfold load_code. rewrite bind_emit.
  destruct (dlopen w (Some path)) as [h |]; [| discriminate].
  rewrite bind_emit. destruct (dlsym w h) as [run |]; [| discriminate].
  cbn. intros [= _ _ <-]. reflexivity.
Qed.

Lemma read_fd_rights w fd k p f rest s :
  chan s = CData [p] (Rights f) :: rest ->
  exists n s',
    read_fd w fd k s = ([EvRecvmsg fd (RdData [p] (Rights f)) n], Done 1 s') /\
    chan s' = rest /\
    fds s' = <[k := default (-1) n]> (fds s) /\
    match n with
    | Some d => 0 <= d /\ (fdt s : gmap Z file) !! d = None /\ fdt s' = <[d := f]> (fdt s)
    | None => fdt s' = fdt s
    end.
Proof.
  intros Hc. unfold read_fd. rewrite Hc. cbn [sys_recv take drop].
  cbn [fdt fds chan buf set_buf set_chan].
  destruct (lowest_free (nofile w) (fdt s)) as [d |] eqn:Hd.
  - eexists (Some d), _. split; [reflexivity |]. cbn.
    repeat split; eauto using lowest_free_range, lowest_free_spec.
  - eexists None, _. split; [reflexivity |]. cbn. repeat split.
Qed.

(** ** C5: the argument count and the argument vector *)

(** C5 (amended). The argument count a client sends is the number of its
    arguments from the locator on, the locator included: one more than the
    number of further arguments.  After the locator exactly that many
    strings less one follow, and a child that enters the unit on this
    request passes it that count and the vector made of the locator
    followed by the further arguments. *)
Theorem argument_count_includes_locator V B U H w fd objc objv s argv c :
  client_ok U argv c ->
  let code_path := default [] (argv !! 2%nat) in
  let args := drop 3 argv in
  (exists tail,
     wire (fst (main V U argv c)) =
     request_wire (wrap_int V) (c_environ c) (c_cwd c)
       (Z.of_nat (length args) + 1) code_path args tail /\
     length tail = 3%nat) /\
  forall objc' objv' argc' argv' t r,
    In (EvRun objc' objv' argc' argv' t r)
       (fst (grow_this_zygote V B H w fd objc objv
               (set_chan (wire (fst (main V U argv c))) s))) ->
    argc' = Z.of_nat (length args) + 1 /\ argv' = code_path :: args /\
    argv' !! 0%nat = Some code_path /\ Z.of_nat (length argv') = argc'.
Proof.
  intros Hok. cbv zeta.
  destruct (main_wire V U argv c Hok) as (f0 & f1 & f2 & _ & _ & _ & Hwire).
  split; [eexists; split; [exact Hwire | reflexivity] |].
  intros objc' objv' argc' argv' t r Hin.
  destruct (unit_entered _ _ _ _ _ _ _ _ _ _ _ _ _ _ Hin)
    as (es1 & a & s1 & es2 & l & s2 & es3 & s3 & post & H1 & _ & _ & _ & _ & _ & _
        & _ & _ & _ & _ & -> & -> & _ & _).
  destruct Hok as (Hargc & _ & _ & _ & _ & _ & Henv & Hcwd & Hargv & Hle & Hla & _).
  assert (Hargv' : str_ok (default [] (argv !! 2%nat)) /\ Forall str_ok (drop 3 argv)).
  { destruct argv as [| a0 [| a1 [| code args]]]; try (simpl in Hargc; lia).
    cbn in *. apply Forall_cons in Hargv. exact Hargv. }
  assert (Hlen : Z.of_nat (length (drop 3 argv)) + 1 < 2 ^ 31)
    by (rewrite length_drop; lia).
  destruct (recv_request_decodes V B w fd (set_chan (wire (fst (main V U argv c))) s)
              _ _ _ _ _ _ es1 a s1
              Henv Hcwd (proj1 Hargv') (proj2 Hargv') Hle Hlen Hwire H1)
    as (-> & _).
  cbn [fst snd]. repeat split. cbn [length]. lia.
Qed.

(** C5, counterexample.  Started as [grow /tmp/z.sock unit.so a b], the
    client does not send the stream the specification describes: its
    argument count field is 3, for two arguments after the locator. *)
Lemma argument_count_is_not_arity :
  wire (fst (main 7 108 demo_argv demo_client)) <>
  spec_request_wire 7 (c_environ demo_client) (c_cwd demo_client)
    (cs "unit.so") [cs "a"; cs "b"] (stdio_wire demo_client).
Proof. vm_compute. discriminate. Qed.

(** ** C2: the caller's standard streams *)

Lemma dup_fds_Done s es s' :
  dup_fds 0 3 s = (es, Done tt s') ->
  exists g0 g1 g2,
    es = [EvDup2 (default (-1) (fds s !! 0%nat)) 0 true;
          EvDup2 (default (-1) (fds s !! 1%nat)) 1 true;
          EvDup2 (default (-1) (fds s !! 2%nat)) 2 true] /\
    (fdt s : gmap Z file) !! default (-1) (fds s !! 0%nat) = Some g0 /\
    (<[0 := g0]> (fdt s) : gmap Z file) !! default (-1) (fds s !! 1%nat) = Some g1 /\
    (<[1 := g1]> (<[0 := g0]> (fdt s)) : gmap Z file) !! default (-1) (fds s !! 2%nat)
      = Some g2 /\
    fdt s' = <[2 := g2]> (<[1 := g1]> (<[0 := g0]> (fdt s))).
Proof.
  intros Hrun.
  rewrite dup_fds_S in Hrun. cbv zeta in Hrun. unfold sys_dup2 in Hrun at 1.
  destruct (fdt s !! default (-1) (fds s !! 0%nat)) as [g0 |] eqn:Hg0; [| discriminate].
  rewrite dup_fds_S in Hrun. cbv zeta in Hrun. unfold sys_dup2 in Hrun at 1 2.
  cbn [fds fdt set_fdt] in Hrun.
  destruct ((<[Z.of_nat 0 := g0]> (fdt s) : gmap Z file) !! default (-1) (fds s !! 1%nat))
    as [g1 |] eqn:Hg1; [| cbn [fst snd] in Hrun; discriminate].
  cbn [fst snd] in Hrun.
  rewrite dup_fds_S in Hrun. cbv zeta in Hrun. unfold sys_dup2 in Hrun at 1 2.
  cbn [fds fdt set_fdt] in Hrun.
  destruct ((<[Z.of_nat 1 := g1]> (<[Z.of_nat 0 := g0]> (fdt s)) : gmap Z file)
              !! default (-1) (fds s !! 2%nat)) as [g2 |] eqn:Hg2;
    [| cbn [fst snd] in Hrun; discriminate].
  simpl in Hrun. injection Hrun as <- <-.
  exists g0, g1, g2. repeat split; assumption.
Qed.

(** Receiving a descriptor never makes descriptor -1 valid. *)
Lemma received_keeps_invalid (t t' : gmap Z file) (n : option Z) (f : file) :
  t !! (-1) = None ->
  match n with
  | Some d => 0 <= d /\ t !! d = None /\ t' = <[d := f]> t
  | None => t' = t
  end ->
  t' !! (-1) = None.
Proof.
  intros Ht Hn. destruct n as [d |].
  - destruct Hn as (Hd & _ & ->). rewrite lookup_insert_ne by lia. exact Ht.
  - subst t'. exact Ht.
Qed.

(** The descriptor phase on the three messages of a client, in a child
    whose standard slots are open: the files arrive in the order stderr,
    stdout, stdin and end up on the slots 2, 1 and 0. *)
Lemma recv_stdio_rights w fd p f2 f1 f0 s es s' :
  chan s = [CData [p] (Rights f2); CData [p] (Rights f1); CData [p] (Rights f0)] ->
  length (fds s) = 3%nat ->
  is_Some ((fdt s : gmap Z file) !! 0) -> is_Some ((fdt s : gmap Z file) !! 1) ->
  is_Some ((fdt s : gmap Z file) !! 2) -> (fdt s : gmap Z file) !! (-1) = None ->
  recv_stdio w fd s = (es, Done tt s') ->
  exists d2 d1 d0,
    es = [EvRecvmsg fd (RdData [p] (Rights f2)) (Some d2);
          EvRecvmsg fd (RdData [p] (Rights f1)) (Some d1);
          EvRecvmsg fd (RdData [p] (Rights f0)) (Some d0);
          EvDup2 d0 0 true; EvDup2 d1 1 true; EvDup2 d2 2 true] /\
    (fdt s' : gmap Z file) !! 0 = Some f0 /\
    (fdt s' : gmap Z file) !! 1 = Some f1 /\
    (fdt s' : gmap Z file) !! 2 = Some f2.
Proof.
  intros Hc Hl [x0 H0] [x1 H1] [x2 H2] Hneg Hrun. unfold recv_stdio in Hrun.
  destruct (read_fd_rights w fd 2 p f2 _ s Hc) as (n2 & t1 & Hr2 & Hc1 & Hd1 & Hn2).
  rewrite (bind_Done _ _ _ _ _ _ Hr2) in Hrun. cbv beta in Hrun.
  change (Z.eqb 1 (-1)) with false in Hrun. cbv beta iota in Hrun.
  destruct (read_fd_rights w fd 1 p f1 _ t1 Hc1) as (n1 & t2 & Hr1 & Hc2 & Hd2 & Hn1).
  rewrite (bind_Done _ _ _ _ _ _ Hr1) in Hrun. cbv beta in Hrun.
  change (Z.eqb 1 (-1)) with false in Hrun. cbv beta iota in Hrun.
  destruct (read_fd_rights w fd 0 p f0 _ t2 Hc2) as (n0 & t3 & Hr0 & Hc3 & Hd3 & Hn0).
  rewrite (bind_Done _ _ _ _ _ _ Hr0) in Hrun. cbv beta in Hrun.
  change (Z.eqb 1 (-1)) with false in Hrun. cbv beta iota in Hrun.
  cbn [fst snd] in Hrun.
  destruct (dup_fds 0 3 t3) as [esd rd] eqn:Hdup. cbn [fst snd app] in Hrun.
  injection Hrun as <- ->.
  apply dup_fds_Done in Hdup. destruct Hdup as (g0 & g1 & g2 & -> & Hg0 & Hg1 & Hg2 & Ht).
  (* the array fds *)
  destruct (fds s) as [| a [| b [| c0 [| ? ?]]]] eqn:Hfds; try discriminate Hl.
  rewrite Hd3, Hd2, Hd1 in Hg0, Hg1, Hg2 |- *. cbn in Hg0, Hg1, Hg2 |- *.
  (* descriptor -1 is never valid *)
  pose proof (received_keeps_invalid _ _ _ _ Hneg Hn2) as Hneg1.
  pose proof (received_keeps_invalid _ _ _ _ Hneg1 Hn1) as Hneg2.
  pose proof (received_keeps_invalid _ _ _ _ Hneg2 Hn0) as Hneg3.
  destruct n0 as [d0 |]; [| cbn in Hg0; congruence].
  destruct n1 as [d1 |];
    [| cbn in Hg1; rewrite lookup_insert_ne in Hg1 by lia; congruence].
  destruct n2 as [d2 |];
    [| cbn in Hg2; rewrite !lookup_insert_ne in Hg2 by lia; congruence].
  cbn [default] in *. unfold id in *.
  destruct Hn2 as (Hp2 & Hf2 & Ht1), Hn1 as (Hp1 & Hf1 & Ht2), Hn0 as (Hp0 & Hf0 & Ht3).
  rewrite Ht2, Ht1 in Hf0. rewrite Ht1 in Hf1.
  apply lookup_insert_None in Hf1. destruct Hf1 as [Hf1 Hne12].
  apply lookup_insert_None in Hf0. destruct Hf0 as [Hf0 Hne01].
  apply lookup_insert_None in Hf0. destruct Hf0 as [Hf0 Hne02].
  assert (Hd2s : d2 <> 0 /\ d2 <> 1 /\ d2 <> 2) by (repeat split; intros ->; congruence).
  assert (Hd1s : d1 <> 0 /\ d1 <> 1 /\ d1 <> 2) by (repeat split; intros ->; congruence).
  assert (Hd0s : d0 <> 0 /\ d0 <> 1 /\ d0 <> 2) by (repeat split; intros ->; congruence).
  rewrite Ht3, Ht2, Ht1 in Hg0, Hg1, Hg2, Ht.
  rewrite lookup_insert_eq in Hg0. injection Hg0 as <-.
  rewrite lookup_insert_ne, lookup_insert_ne, lookup_insert_eq in Hg1 by lia.
  injection Hg1 as <-.
  rewrite lookup_insert_ne, lookup_insert_ne, lookup_insert_ne, lookup_insert_ne,
    lookup_insert_eq in Hg2 by lia.
  injection Hg2 as <-.
  exists d2, d1, d0. split; [reflexivity |]. rewrite Ht.
  split; [| split].
  - rewrite lookup_insert_ne, lookup_insert_ne, lookup_insert_eq by lia. reflexivity.
  - rewrite lookup_insert_ne, lookup_insert_eq by lia. reflexivity.
  - rewrite lookup_insert_eq. reflexivity.
Qed.

(** C2. A client whose exchange goes through sends its descriptors 2, 1
    and 0 in this order.  Whenever a child whose standard slots are open
    enters the unit on that request, it has just received three
    descriptors in that same order, stderr then stdout then stdin, and
    duplicated each onto its slot: at the entry of the unit the slots 2, 1
    and 0 hold the files of the caller's standard error, output and
    input. *)
Theorem caller_stdio_installed V B U H w fd objc objv s argv c objc' objv' argc' argv' t r :
  client_ok U argv c ->
  is_Some ((fdt s : gmap Z file) !! 0) -> is_Some ((fdt s : gmap Z file) !! 1) ->
  is_Some ((fdt s : gmap Z file) !! 2) -> (fdt s : gmap Z file) !! (-1) = None ->
  In (EvRun objc' objv' argc' argv' t r)
     (fst (grow_this_zygote V B H w fd objc objv
             (set_chan (wire (fst (main V U argv c))) s))) ->
  exists f2 f1 f0 p req pre d2 d1 d0 post,
    c_fdt c !! 2 = Some f2 /\ c_fdt c !! 1 = Some f1 /\ c_fdt c !! 0 = Some f0 /\
    wire (fst (main V U argv c)) =
      req ++ [CData [p] (Rights f2); CData [p] (Rights f1); CData [p] (Rights f0)] /\
    fst (grow_this_zygote V B H w fd objc objv
           (set_chan (wire (fst (main V U argv c))) s)) =
      pre ++
      [EvRecvmsg fd (RdData [p] (Rights f2)) (Some d2);
       EvRecvmsg fd (RdData [p] (Rights f1)) (Some d1);
       EvRecvmsg fd (RdData [p] (Rights f0)) (Some d0);
       EvDup2 d0 0 true; EvDup2 d1 1 true; EvDup2 d2 2 true;
       EvRun objc' objv' argc' argv' t r] ++ post /\
    Forall request_event pre /\
    t !! 2 = Some f2 /\ t !! 1 = Some f1 /\ t !! 0 = Some f0.
Proof.
  intros Hok Hs0 Hs1 Hs2 Hneg Hin.
  destruct (main_wire V U argv c Hok) as (f0 & f1 & f2 & Hc0 & Hc1 & Hc2 & Hwire).
  destruct (unit_entered _ _ _ _ _ _ _ _ _ _ _ _ _ _ Hin)
    as (es1 & a & s1 & es2 & l & s2 & es3 & s3 & post & H1 & H2 & H3 & Hreq & _ & Hf & Hl
        & Hes & _ & -> & -> & -> & -> & -> & _).
  destruct Hok as (Hargc & _ & _ & _ & _ & _ & Henv & Hcwd & Hargv & Hle & Hla & _).
  assert (Hargv' : str_ok (default [] (argv !! 2%nat)) /\ Forall str_ok (drop 3 argv)).
  { destruct argv as [| a0 [| a1 [| code args]]]; try (simpl in Hargc; lia).
    cbn in *. apply Forall_cons in Hargv. exact Hargv. }
  assert (Hlen : Z.of_nat (length (drop 3 argv)) + 1 < 2 ^ 31)
    by (rewrite length_drop; lia).
  destruct (recv_request_decodes V B w fd (set_chan (wire (fst (main V U argv c))) s)
              _ _ _ _ _ _ es1 a s1
              Henv Hcwd (proj1 Hargv') (proj2 Hargv') Hle Hlen Hwire H1)
    as (_ & Hchan & _ & _).
  apply load_code_state in H2. subst s2.
  cbn [fdt set_chan] in Hf.
  rewrite <- Hf in Hs0, Hs1, Hs2, Hneg.
  destruct (recv_stdio_rights w fd _ f2 f1 f0 s1 es3 s3 Hchan Hl Hs0 Hs1 Hs2 Hneg H3)
    as (d2 & d1 & d0 & -> & Ht0 & Ht1 & Ht2).
  eexists f2, f1, f0, _, _, (es1 ++ es2), d2, d1, d0, post.
  do 3 (split; [assumption |]).
  split; [unfold request_wire in Hwire; rewrite !app_assoc in Hwire; exact Hwire |].
  split; [rewrite Hes; cbn [app]; reflexivity |].
  split; [exact Hreq |]. auto.
Qed.

(** ** The claims on the concrete daemon and client *)



Lemma pid_reply_before_rest_witness :
  version_received demo_world demo_child_state = Some 7 /\
  exists r ok rest,
    fst (demo_child false) = EvRead 5 4 r :: EvWrite Pid_write 5 (pid demo_world) ok :: rest.
Proof.
  assert (H1 : version_received demo_world demo_child_state = Some 7)
    by (vm_compute; reflexivity).
  split; [exact H1 |].
  exact (pid_reply_before_rest 7 8192 false demo_world 5 0 [] demo_child_state H1).
Defined.

Lemma version_mismatch_closes_witness :
  version_received demo_world demo_child_state = Some 7 /\ 7 <> 8 /\
  exists r ok hs s',
    grow_this_zygote 8 8192 false demo_world 5 0 [] demo_child_state =
    (EvRead 5 4 r :: EvWrite Error_write 5 EXIT_FAILURE ok :: EvClose 5 ::
       hs ++ [EvExit EXIT_FAILURE],
     Exited EXIT_FAILURE s') /\
    Forall hook_event hs.
Proof.
  assert (H1 : version_received demo_world demo_child_state = Some 7)
    by (vm_compute; reflexivity).
  assert (H2 : 7 <> 8) by lia.
  split; [exact H1 |]. split; [exact H2 |].
  exact (version_mismatch_closes 8 8192 false demo_world 5 0 [] demo_child_state 7 H1 H2).
Defined.

(** With fewer than three arguments [main] returns 1 and touches no
    socket. *)
Lemma usage_error_before_socket V U argv c :
  (length argv < 3)%nat -> main V U argv c = ([], Some 1).
Proof.
  intros Hl. unfold main.
  destruct (Z.ltb_spec (Z.of_nat (length argv)) 3) as [_ | ?]; [reflexivity | lia].
Qed.

(** C6, at a concrete input.  The first integer the child writes on the
    connection is its pid, and it is the only integer [main] reads: the
    client returns 4242 although the unit returned, and the child sent, the
    status 0; with the exit hook as without. *)
Lemma client_returns_pid_reply :
  status_writes (fst (demo_session false)) = [(0, true)] /\
  snd (demo_session false) = Some 4242 /\
  status_writes (fst (demo_session true)) = [(0, true)] /\
  snd (demo_session true) = Some 4242.
Proof. vm_compute. repeat split. Qed.

(** C9, counterexample.  The child that serves the concrete client enters
    the unit with the carriers 6, 7 and 8 open. *)
Lemma carriers_left_open : carriers_closed_at_run (fst (demo_child false)) = false.
Proof. vm_compute. reflexivity. Qed.

Lemma demo_run_entered : In demo_run (fst (demo_child false)).
Proof. vm_compute. repeat (first [left; reflexivity | right]). Defined.

Lemma carriers_stay_open_witness :
  In demo_run (fst (demo_child false)) /\
  (forall fd' rr d,
     In (EvRecvmsg fd' rr (Some d)) (fst (demo_child false)) -> is_Some (demo_table !! d)) /\
  exists pre post,
    fst (demo_child false) = pre ++ demo_run :: post /\ Forall decode_event pre.
Proof.
  split; [exact demo_run_entered |].
  exact (carriers_stay_open 7 8192 false demo_world 5 0 [] demo_child_state
           0 [] 3 [cs "unit.so"; cs "a"; cs "b"] demo_table 0 demo_run_entered).
Defined.

Ltac solve_str_ok :=
  split;
  [ let H := fresh in
    intros H; vm_compute in H;
    repeat (destruct H as [H | H]; [discriminate H |]); exact H
  | vm_compute; reflexivity ].

Lemma demo_client_ok : client_ok 108 demo_argv demo_client.
Proof.
  unfold client_ok.
  split; [vm_compute; lia |].
  split; [vm_compute; reflexivity |].
  split; [eexists; reflexivity |].
  split; [vm_compute; eexists; reflexivity |].
  split; [reflexivity |].
  split; [reflexivity |].
  split; [apply List.Forall_cons; [solve_str_ok | apply List.Forall_nil] |].
  split; [solve_str_ok |].
  split; [do 3 (apply List.Forall_cons; [solve_str_ok |]); apply List.Forall_nil |].
  split; [vm_compute; reflexivity |].
  split; [vm_compute; reflexivity |].
  split; [vm_compute; eexists; reflexivity |].
  split; [vm_compute; eexists; reflexivity |].
  vm_compute; eexists; reflexivity.
Defined.

Lemma demo_slots_open :
  is_Some ((fdt demo_child_state : gmap Z file) !! 0) /\
  is_Some ((fdt demo_child_state : gmap Z file) !! 1) /\
  is_Some ((fdt demo_child_state : gmap Z file) !! 2) /\
  (fdt demo_child_state : gmap Z file) !! (-1) = None.
Proof.
  repeat split; vm_compute; try (eexists; reflexivity); reflexivity.
Defined.

Lemma argument_count_includes_locator_witness :
  client_ok 108 demo_argv demo_client /\
  (exists tail,
     wire (fst (main 7 108 demo_argv demo_client)) =
     request_wire (wrap_int 7) (c_environ demo_client) (c_cwd demo_client)
       (Z.of_nat (length (drop 3 demo_argv)) + 1) (default [] (demo_argv !! 2%nat))
       (drop 3 demo_argv) tail /\
     length tail = 3%nat) /\
  forall objc' objv' argc' argv' t r,
    In (EvRun objc' objv' argc' argv' t r)
       (fst (grow_this_zygote 7 8192 false demo_world 5 0 []
               (set_chan (wire (fst (main 7 108 demo_argv demo_client))) demo_child_state))) ->
    argc' = Z.of_nat (length (drop 3 demo_argv)) + 1 /\
    argv' = default [] (demo_argv !! 2%nat) :: drop 3 demo_argv /\
    argv' !! 0%nat = Some (default [] (demo_argv !! 2%nat)) /\
    Z.of_nat (length argv') = argc'.
Proof.
  split; [exact demo_client_ok |].
  exact (argument_count_includes_locator 7 8192 108 false demo_world 5 0 []
           demo_child_state demo_argv demo_client demo_client_ok).
Defined.

Lemma demo_run_served :
  In demo_run
     (fst (grow_this_zygote 7 8192 false demo_world 5 0 []
             (set_chan (wire (fst (main 7 108 demo_argv demo_client))) demo_child_state))).
Proof. vm_compute. repeat (first [left; reflexivity | right]). Defined.

Lemma caller_stdio_installed_witness :
  client_ok 108 demo_argv demo_client /\
  is_Some ((fdt demo_child_state : gmap Z file) !! 0) /\
  is_Some ((fdt demo_child_state : gmap Z file) !! 1) /\
  is_Some ((fdt demo_child_state : gmap Z file) !! 2) /\
  (fdt demo_child_state : gmap Z file) !! (-1) = None /\
  In demo_run
     (fst (grow_this_zygote 7 8192 false demo_world 5 0 []
             (set_chan (wire (fst (main 7 108 demo_argv demo_client))) demo_child_state))) /\
  exists f2 f1 f0 p req pre d2 d1 d0 post,
    c_fdt demo_client !! 2 = Some f2 /\ c_fdt demo_client !! 1 = Some f1 /\
    c_fdt demo_client !! 0 = Some f0 /\
    wire (fst (main 7 108 demo_argv demo_client)) =
      req ++ [CData [p] (Rights f2); CData [p] (Rights f1); CData [p] (Rights f0)] /\
    fst (grow_this_zygote 7 8192 false demo_world 5 0 []
           (set_chan (wire (fst (main 7 108 demo_argv demo_client))) demo_child_state)) =
      pre ++
      [EvRecvmsg 5 (RdData [p] (Rights f2)) (Some d2);
       EvRecvmsg 5 (RdData [p] (Rights f1)) (Some d1);
       EvRecvmsg 5 (RdData [p] (Rights f0)) (Some d0);
       EvDup2 d0 0 true; EvDup2 d1 1 true; EvDup2 d2 2 true;
       demo_run] ++ post /\
    Forall request_event pre /\
    demo_table !! 2 = Some f2 /\ demo_table !! 1 = Some f1 /\ demo_table !! 0 = Some f0.
Proof.
  destruct demo_slots_open as (H0 & H1 & H2 & Hn).
  split; [exact demo_client_ok |].
  split; [exact H0 |]. split; [exact H1 |]. split; [exact H2 |]. split; [exact Hn |].
  split; [exact demo_run_served |].
  exact (caller_stdio_installed 7 8192 108 false demo_world 5 0 [] demo_child_state
           demo_argv demo_client 0 [] 3 [cs "unit.so"; cs "a"; cs "b"] demo_table 0
           demo_client_ok H0 H1 H2 Hn demo_run_served).
Defined.

(** ** The two ends of the codec *)

Lemma wrap_int_range z : - 2 ^ 31 <= wrap_int z < 2 ^ 31.
Proof.
  unfold wrap_int.
  assert (H : 0 <= (z + 2 ^ 31) mod 2 ^ 32 < 2 ^ 32) by (apply Z.mod_pos_bound; lia).
  lia.
Qed.

Lemma wrap_int_idem z : wrap_int (wrap_int z) = wrap_int z.
Proof. apply wrap_int_small, wrap_int_range. Qed.

Lemma sys_recv_length n ch bs c ch' :
  sys_recv n ch = (RdData bs c, ch') -> (length bs <= n)%nat.
Proof.
  destruct n as [| n]; [intros [= <- _ _]; simpl; lia |].
  destruct ch as [| [| bs0 c0] ch0]; simpl.
  - intros [= <- _ _]. simpl. lia.
  - discriminate.
  - intros [= <- _ _]. rewrite length_take. lia.
Qed.

Lemma store_bytes_length old new :
  (length new <= length old)%nat -> length (store_bytes old new) = length old.
Proof. intros H. unfold store_bytes. rewrite length_app, length_drop. lia. Qed.

(** A completed [recvNum] leaves an [int] in [num] and touches nothing but
    [num] and the input. *)
Lemma recvNum_Done fd s es s' :
  recvNum fd s = (es, Done tt s') ->
  - 2 ^ 31 <= num s' < 2 ^ 31 /\
  buf s' = buf s /\ environ s' = environ s /\ kept s' = kept s /\ wr_ok s' = wr_ok s /\
  cwd s' = cwd s.
Proof.
  unfold recvNum, bind, sys_read_num.
  destruct (sys_recv 4 (chan s)) as [[| bs c] ch]; simpl.
  - discriminate.
  - destruct (Z.eqb_spec (Z.of_nat (length bs)) (-1)) as [H | _]; [lia |].
    simpl. intros [= _ <-]. split; [apply wrap_int_range |]. repeat split.
Qed.

(** What [recvStr] has established when it completes, whatever the peer
    sent: the length read is a valid index of the (possibly grown) buffer,
    and the terminator is stored there. *)
Lemma recvStr_bounds w fd s es s' :
  recvStr w fd s = (es, Done tt s') ->
  (exists e1 s1, recvNum fd s = (e1, Done tt s1) /\ num s' = num s1) /\
  0 <= num s' < INT_MAX /\ num s' < buflen s' /\ buflen s <= buflen s' /\
  buf s' !! Z.to_nat (num s') = Some NUL /\
  environ s' = environ s /\ kept s' = kept s /\ wr_ok s' = wr_ok s /\ cwd s' = cwd s.
Proof.
  unfold recvStr. intros Hrun.
  destruct (recvNum fd s) as [e1 [[] s1 | s1 | s1]] eqn:H1;
    [ rewrite (bind_Done _ _ _ _ _ _ H1) in Hrun
    | rewrite (bind_Goto_error _ _ _ _ _ H1) in Hrun; discriminate
    | rewrite (bind_Undefined _ _ _ _ _ H1) in Hrun; discriminate ].
  destruct (recvNum_Done _ _ _ _ H1) as (Hr1 & Hb1 & He1 & Hk1 & Hw1 & Hd1).
  rewrite bind_get in Hrun.
  destruct (bool_decide (num s1 < 0 \/ num s1 = INT_MAX)) eqn:Hd;
    [cbn in Hrun; discriminate |].
  apply bool_decide_eq_false in Hd.
  assert (Hn : 0 <= num s1 < INT_MAX) by (unfold INT_MAX in *; lia).
  (* the buffer after the allocation step *)
  assert (Hbuf : exists s2,
    ((if Z.ltb (buflen s1 - 1) (num s1)
      then modify (fun s => set_buf (realloc w (buf s) (Z.to_nat (num s + 1))) s)
      else ret tt) : M unit) s1 = ([], Done tt s2) /\
    num s2 = num s1 /\ num s1 < buflen s2 /\ buflen s1 <= buflen s2 /\
    chan s2 = chan s1 /\
    environ s2 = environ s /\ kept s2 = kept s /\ wr_ok s2 = wr_ok s /\ cwd s2 = cwd s).
  { unfold buflen in *. destruct (Z.ltb_spec (Z.of_nat (length (buf s1)) - 1) (num s1)) as [Hlt | Hge].
    - eexists. split; [reflexivity |]. cbn [buf set_buf num chan environ wr_ok cwd].
      rewrite realloc_length by lia.
      repeat split; first [lia | assumption].
    - exists s1. split; [reflexivity |]. repeat split; first [lia | assumption]. }
  destruct Hbuf as (s2 & Hb & Hn2 & Hl2 & Hg2 & Hc2 & He2 & Hk2 & Hw2 & Hd2).
  cbn beta iota in Hrun. 
  rewrite (bind_Done _ _ _ _ _ _ Hb) in Hrun. cbn [app fst snd] in Hrun.
  unfold bind, sys_read_buf in Hrun.
  destruct (sys_recv (Z.to_nat (num s2)) (chan s2)) as [[| bs c] ch] eqn:Hrecv;
    [cbn in Hrun; discriminate |].
  apply sys_recv_length in Hrecv.
  cbn [rd_ret] in Hrun.
  destruct (Z.eqb_spec (Z.of_nat (length bs)) (-1)) as [Hm | _]; [lia |].
  cbn in Hrun. injection Hrun as _ <-.
  cbn [num buf set_buf set_chan environ wr_ok cwd].
  unfold buflen in *. cbn [buf set_buf set_chan].
  rewrite length_insert, store_bytes_length by lia.
  rewrite <- Hb1.
  split; [exists e1, s1; split; [reflexivity | exact Hn2] |].
  split; [lia |]. split; [lia |]. split; [lia |].
  split; [| repeat split; assumption].
  apply list_lookup_insert_eq. rewrite store_bytes_length by lia. lia.
Qed.

(** The bytes [strdup] copies are those before the first NUL. *)
Lemma strdup_length_le m i :
  m !! i = Some NUL -> (length (strdup m) <= i)%nat.
Proof.
  revert i. induction m as [| b m IH]; intros i Hi; [discriminate |].
  simpl. destruct (Byte.eqb b NUL) eqn:Hb; [simpl; lia |].
  destruct i as [| i].
  - simpl in Hi. injection Hi as ->. discriminate.
  - simpl. apply IH in Hi. lia.
Qed.

Lemma strdup_no_NUL m : ~ In NUL (strdup m).
Proof.
  induction m as [| b m IH]; simpl; [tauto |].
  destruct (Byte.eqb b NUL) eqn:Hb; simpl; [tauto |].
  intros [-> | H]; [discriminate | tauto].
Qed.

Lemma sendNum_Done fd v c es c' :
  sendNum fd v c = (es, Done tt c') ->
  es = [CWrite fd (int_bytes (wrap_int v)) true] /\ c_num c' = wrap_int v /\
  c_fdt c' = c_fdt c /\ c_environ c' = c_environ c /\ c_cwd c' = c_cwd c /\
  c_reply c' = c_reply c /\ c_wr_ok c' = snd (next_ok (c_wr_ok c)).
Proof.
  unfold sendNum. rewrite bind_modify. unfold bind, c_write.
  cbn [c_wr_ok set_c_num].
  destruct (next_ok (c_wr_ok c)) as [[] o]; cbn; [| discriminate].
  intros [= <- <-]. repeat split.
Qed.

Lemma sendStr_Done fd x c es c' :
  Z.of_nat (length x) < INT_MAX ->
  sendStr fd x c = (es, Done tt c') ->
  wire es = enc_str x /\ c_num c' = strlen x /\
  c_fdt c' = c_fdt c /\ c_environ c' = c_environ c /\ c_cwd c' = c_cwd c /\
  c_reply c' = c_reply c.
Proof.
  intros Hlen. unfold sendStr. intros Hrun.
  destruct (sendNum fd (strlen x) c) as [e1 [[] c1 | c1 | c1]] eqn:H1;
    [ rewrite (bind_Done _ _ _ _ _ _ H1) in Hrun
    | rewrite (bind_Goto_error _ _ _ _ _ H1) in Hrun; discriminate
    | rewrite (bind_Undefined _ _ _ _ _ H1) in Hrun; discriminate ].
  apply sendNum_Done in H1. destruct H1 as (-> & Hn & Hf & He & Hd & Hr & Ho).
  assert (Hw : wrap_int (strlen x) = strlen x).
  { apply wrap_int_small. unfold strlen, INT_MAX in *. lia. }
  rewrite Hw in *.
  rewrite bind_get in Hrun. cbv beta in Hrun. rewrite Hn in Hrun.
  destruct (Z.ltb_spec (strlen x) 0) as [Hneg | _]; [unfold strlen in Hneg; lia |].
  unfold strlen in Hrun. rewrite Nat2Z.id, take_ge in Hrun by lia.
  unfold bind, c_write in Hrun.
  destruct (next_ok (c_wr_ok c1)) as [[] o]; cbn in Hrun.
  - destruct (Z.eqb_spec (Z.of_nat (length x)) (-1)) as [Hm | _]; [lia |].
    cbn in Hrun. injection Hrun as <- <-. cbn.
    split; [| repeat split; assumption].
    unfold enc_str, enc_num. destruct x; reflexivity.
  - discriminate.
Qed.

(** X1. An integer that [sendNum] wrote without error is the integer [recvNum]
    reads at the other end: [num] holds its value as an [int] on both
    sides, and the read consumes exactly the four bytes sent. *)
Theorem sent_number_is_received fd fd' v c es c' rest s :
  sendNum fd v c = (es, Done tt c') ->
  chan s = wire es ++ rest ->
  exists s',
    recvNum fd' s = ([EvRead fd' 4 (RdData (int_bytes (wrap_int v)) NoCmsg)], Done tt s') /\
    num s' = wrap_int v /\ c_num c' = wrap_int v /\ chan s' = rest /\
    buf s' = buf s /\ kept s' = kept s.
Proof.
  intros Hs Hc. apply sendNum_Done in Hs. destruct Hs as (-> & Hn & _).
  cbn in Hc. eexists. split; [apply recvNum_chunk; exact Hc |].
  cbn. rewrite wrap_int_idem. repeat split. exact Hn.
Qed.

Lemma sent_number_is_received_witness :
  sendNum 3 (-5) demo_client =
    ([CWrite 3 (int_bytes (-5)) true], Done tt (set_c_num (-5) demo_client)) /\
  chan (set_chan (enc_num (-5) ++ enc_num 1) demo_init) =
    wire [CWrite 3 (int_bytes (-5)) true] ++ enc_num 1 /\
  exists s',
    recvNum 5 (set_chan (enc_num (-5) ++ enc_num 1) demo_init) =
      ([EvRead 5 4 (RdData (int_bytes (wrap_int (-5))) NoCmsg)], Done tt s') /\
    num s' = wrap_int (-5) /\ c_num (set_c_num (-5) demo_client) = wrap_int (-5) /\
    chan s' = enc_num 1 /\
    buf s' = buf (set_chan (enc_num (-5) ++ enc_num 1) demo_init) /\
    kept s' = kept (set_chan (enc_num (-5) ++ enc_num 1) demo_init).
Proof.
  split; [reflexivity |]. split; [reflexivity |].
  exact (sent_number_is_received 3 5 (-5) demo_client _ _ (enc_num 1)
           (set_chan (enc_num (-5) ++ enc_num 1) demo_init) eq_refl eq_refl).
Defined.

(** X2. A string without NUL and shorter than [INT_MAX] that [sendStr]
    wrote without error is the string [recvStr] leaves in [buf]: the
    length prefix and the bytes are consumed and nothing more, the buffer
    is grown when the string does not fit and never shrinks, and the
    terminator lies within it.  The empty string, for which the second
    [write] transfers nothing, is included. *)
Theorem sent_string_is_received w fd fd' x c es c' rest s :
  str_ok x ->
  sendStr fd x c = (es, Done tt c') ->
  chan s = wire es ++ rest ->
  exists es' s',
    recvStr w fd' s = (es', Done tt s') /\
    strdup (buf s') = x /\ num s' = strlen x /\ chan s' = rest /\
    (length x < length (buf s'))%nat /\ (length (buf s) <= length (buf s'))%nat /\
    environ s' = environ s /\ kept s' = kept s.
Proof.
  intros Hx Hs Hc.
  apply sendStr_Done in Hs; [| exact (proj2 Hx)]. destruct Hs as (Hwire & _).
  rewrite Hwire in Hc.
  destruct (recvStr_chunk w fd' x rest s Hx Hc) as (es' & s' & Hrun & Hdec & Henv & Hstr).
  exists es', s'. split; [exact Hrun |].
  destruct (recvStr_bounds w fd' s es' s' Hrun)
    as ((e1 & s1 & H1 & Hnum) & Hn & Hlt & Hge & Hnul & _ & Hk & _).
  destruct Hdec as (Hch & _).
  assert (Hw : wrap_int (strlen x) = strlen x).
  { apply wrap_int_small. destruct Hx as [_ Hx]. unfold strlen, INT_MAX in *. lia. }
  unfold enc_str, enc_num in Hc. cbn [app] in Hc.
  rewrite (recvNum_chunk fd' _ _ s Hc) in H1. injection H1 as _ <-.
  cbn [num set_num] in Hnum. rewrite Hw in Hnum.
  unfold buflen, strlen in *.
  repeat split; first [assumption | lia].
Qed.

Lemma sent_string_is_received_witness :
  str_ok (cs "A=1") /\
  sendStr 3 (cs "A=1") demo_client =
    ([CWrite 3 (int_bytes 3) true; CWrite 3 (cs "A=1") true],
     Done tt (set_c_num 3 demo_client)) /\
  chan (set_chan (enc_str (cs "A=1")) demo_init) =
    wire [CWrite 3 (int_bytes 3) true; CWrite 3 (cs "A=1") true] ++ [] /\
  exists es' s',
    recvStr demo_world 5 (set_chan (enc_str (cs "A=1")) demo_init) = (es', Done tt s') /\
    strdup (buf s') = cs "A=1" /\ num s' = strlen (cs "A=1") /\ chan s' = [] /\
    (length (cs "A=1") < length (buf s'))%nat /\
    (length (buf (set_chan (enc_str (cs "A=1")) demo_init)) <= length (buf s'))%nat /\
    environ s' = environ (set_chan (enc_str (cs "A=1")) demo_init) /\
    kept s' = kept (set_chan (enc_str (cs "A=1")) demo_init).
Proof.
  assert (Hx : str_ok (cs "A=1")) by solve_str_ok.
  split; [exact Hx |]. split; [reflexivity |]. split; [reflexivity |].
  exact (sent_string_is_received demo_world 3 5 (cs "A=1") demo_client _ _ []
           (set_chan (enc_str (cs "A=1")) demo_init) Hx eq_refl eq_refl).
Defined.

(** X3. Whatever the peer sends, a [recvStr] that completes has read a
    length [num] that is a valid index of the buffer, has stored the
    terminator at that index without shrinking the buffer, and the string
    [strdup] then copies has at most [num] bytes and no NUL, even when
    fewer bytes than announced arrived or the bytes contain a NUL. *)
Theorem recvStr_terminates_within_buffer w fd s es s' :
  recvStr w fd s = (es, Done tt s') ->
  0 <= num s' < INT_MAX /\ num s' < buflen s' /\ buflen s <= buflen s' /\
  buf s' !! Z.to_nat (num s') = Some NUL /\
  strlen (strdup (buf s')) <= num s' /\ ~ In NUL (strdup (buf s')).
Proof.
  intros Hrun.
  destruct (recvStr_bounds w fd s es s' Hrun) as (_ & Hn & Hlt & Hge & Hnul & _).
  split; [exact Hn |]. split; [exact Hlt |]. split; [exact Hge |]. split; [exact Hnul |].
  split; [| apply strdup_no_NUL].
  apply strdup_length_le in Hnul. unfold strlen. lia.
Qed.

Lemma recvStr_terminates_within_buffer_witness :
  recvStr demo_world 5 (set_chan [CData (int_bytes 5) NoCmsg; CData (cs "/tmp") NoCmsg]
                          (set_buf (cs "0123456789") demo_init)) =
    ([EvRead 5 4 (RdData (int_bytes 5) NoCmsg); EvRead 5 5 (RdData (cs "/tmp") NoCmsg)],
     Done tt (set_num 5 (set_chan [] (set_buf (cs "/tmp4" ++ NUL :: cs "6789") demo_init)))) /\
  let s' := set_num 5 (set_chan [] (set_buf (cs "/tmp4" ++ NUL :: cs "6789") demo_init)) in
  0 <= num s' < INT_MAX /\ num s' < buflen s' /\
  buflen (set_chan [CData (int_bytes 5) NoCmsg; CData (cs "/tmp") NoCmsg]
            (set_buf (cs "0123456789") demo_init)) <= buflen s' /\
  buf s' !! Z.to_nat (num s') = Some NUL /\
  strlen (strdup (buf s')) <= num s' /\ ~ In NUL (strdup (buf s')).
Proof.
  split; [reflexivity |].
  refine (recvStr_terminates_within_buffer demo_world 5
            (set_chan [CData (int_bytes 5) NoCmsg; CData (cs "/tmp") NoCmsg]
               (set_buf (cs "0123456789") demo_init))
            [EvRead 5 4 (RdData (int_bytes 5) NoCmsg); EvRead 5 5 (RdData (cs "/tmp") NoCmsg)]
            (set_num 5 (set_chan [] (set_buf (cs "/tmp4" ++ NUL :: cs "6789") demo_init))) _).
  reflexivity.
Defined.
(** ** The environment and the directory of the caller *)

(** The request phase on the stream of a well-behaved client: besides the
    argument vector, the directory change it issues and the directory it
    leaves the process in. *)
Lemma recv_request_chdir V B w fd s version env dir code_path args tail es a s1 :
  Forall str_ok env -> str_ok dir -> str_ok code_path -> Forall str_ok args ->
  Z.of_nat (length env) < 2 ^ 31 -> Z.of_nat (length args) + 1 < 2 ^ 31 ->
  chan s = request_wire version env dir (Z.of_nat (length args) + 1) code_path args tail ->
  recv_request V w fd (enter B w s) = (es, Done a s1) ->
  In (EvChdir dir) es /\ cwd s1 = (if is_dir w dir then dir else cwd s).
Proof.
  intros Henv Hdir Hcode Hargs Hle Hla Hc Hrun.
  unfold request_wire, enc_num in Hc. cbn [app] in Hc.
  unfold recv_request in Hrun.
  (* version *)
  rewrite (bind_Done _ _ _ _ _ _ (recvNum_chunk fd _ _ (enter B w s) Hc)), bind_get in Hrun.
  cbn [app] in Hrun.
  destruct (negb _); [discriminate |].
  rewrite bind_modify, (bind_Done _ _ _ _ _ _ (sys_write_num_eq _ _ _ _)) in Hrun.
  destruct (fst (next_ok _)); [| discriminate]. cbn [Z.eqb] in Hrun.
  (* environ *)
  match type of Hrun with
  | context [bind (recvNum fd) _ ?s0] =>
    rewrite (bind_Done _ _ _ _ _ _
               (recvNum_chunk fd (Z.of_nat (length env))
                  (enc_strs env ++ enc_str dir ++
                   CData (int_bytes (Z.of_nat (length args) + 1)) NoCmsg ::
                   enc_str code_path ++ enc_strs args ++ tail) s0 eq_refl)) in Hrun
  end.
  rewrite bind_get in Hrun. cbn [num set_num] in Hrun.
  rewrite (wrap_int_small (Z.of_nat (length env))) in Hrun by lia.
  destruct (Z.ltb_spec (Z.of_nat (length env)) 0) as [? | _]; [lia |].
  rewrite bind_modify, Nat2Z.id in Hrun.
  match type of Hrun with
  | context [bind (recv_environ w fd (length env)) _ ?s0] =>
    destruct (recv_environ_chunks w fd env
                (enc_str dir ++ CData (int_bytes (Z.of_nat (length args) + 1)) NoCmsg ::
                 enc_str code_path ++ enc_strs args ++ tail) s0 Henv eq_refl)
      as (es2 & s2 & Hr2 & Hd2 & He2)
  end.
  rewrite (bind_Done _ _ _ _ _ _ Hr2) in Hrun.
  (* cwd *)
  destruct (recvStr_chunk w fd dir _ s2 Hdir (proj1 Hd2)) as (es3 & s3 & Hr3 & Hd3 & He3 & Hs3).
  rewrite (bind_Done _ _ _ _ _ _ Hr3), bind_get, bind_emit, bind_modify in Hrun.
  cbn [fst snd] in Hrun. rewrite Hs3 in Hrun.
  set (s3' := if is_dir w dir then set_cwd dir s3 else s3) in Hrun.
  assert (Hs3' : chan s3' = chan s3 /\ cwd s3' = (if is_dir w dir then dir else cwd s3))
    by (subst s3'; destruct (is_dir w _); repeat split).
  destruct Hs3' as (Hc3' & Hw3').
  (* argc *)
  assert (Hc3 : chan s3' = CData (int_bytes (Z.of_nat (length args) + 1)) NoCmsg ::
                           enc_str code_path ++ enc_strs args ++ tail)
    by (rewrite Hc3'; apply Hd3).
  rewrite (bind_Done _ _ _ _ _ _ (recvNum_chunk fd _ _ s3' Hc3)), bind_get in Hrun.
  cbn [num set_num fst snd] in Hrun.
  rewrite (wrap_int_small (Z.of_nat (length args) + 1)) in Hrun by lia.
  (* code_path *)
  match type of Hrun with
  | context [bind (recvStr w fd) _ ?s0] =>
    destruct (recvStr_chunk w fd code_path (enc_strs args ++ tail) s0 Hcode eq_refl)
      as (es4 & s4 & Hr4 & Hd4 & He4 & Hs4)
  end.
  rewrite (bind_Done _ _ _ _ _ _ Hr4), bind_get in Hrun. cbn [fst snd] in Hrun.
  destruct (Z.leb_spec (Z.of_nat (length args) + 1) 0) as [? | _]; [lia |].
  (* argv *)
  replace (Z.to_nat (Z.of_nat (length args) + 1 - 1)) with (length args) in Hrun by lia.
  destruct (recv_argv_chunks w fd args [strdup (buf s4)] tail s4 Hargs (proj1 Hd4))
    as (es5 & s5 & Hr5 & Hd5 & He5).
  rewrite (bind_Done _ _ _ _ _ _ Hr5) in Hrun. cbn [fst snd ret] in Hrun.
  injection Hrun as <- _ <-.
  destruct Hd5 as (_ & _ & _ & Hw5), Hd4 as (_ & _ & _ & Hw4),
           Hd3 as (_ & _ & _ & Hw3), Hd2 as (_ & _ & _ & Hw2).
  split.
  - do 3 right. apply in_or_app. right. apply in_or_app. right. left. reflexivity.
  - rewrite Hw5, Hw4. cbn [cwd set_num set_chan]. rewrite Hw3', Hw3, Hw2. reflexivity.
Qed.

(** The environment and the directory are untouched while the descriptors
    are received. *)
Lemma read_fd_surroundings w fd k :
  frame (fun _ : event => True) (fun s => (environ s, cwd s)) (read_fd w fd k).
Proof.
  intros s. unfold read_fd. destruct (sys_recv 1 (chan s)) as [r ch].
  destruct r as [| [| b bs] c]; try (split; [repeat constructor | reflexivity]).
  destruct c; [| destruct (lowest_free _ _) |];
    (split; [repeat constructor | reflexivity]).
Qed.

Lemma dup_fds_surroundings i n :
  frame (fun _ : event => True) (fun s => (environ s, cwd s)) (dup_fds i n).
Proof.
  revert i. induction n as [| n IH]; intros i; simpl; [apply frame_ret |].
  apply frame_bind; [apply frame_get | intros s0].
  destruct (sys_dup2 _ _ _).
  - apply frame_bind; [apply frame_emit; exact I | intros _].
    apply frame_bind; [apply frame_modify; reflexivity | intros _]. apply IH.
  - apply frame_bind; [apply frame_emit; exact I | intros _]. apply frame_goto_error.
Qed.

Lemma recv_stdio_surroundings w fd :
  frame (fun _ : event => True) (fun s => (environ s, cwd s)) (recv_stdio w fd).
Proof.
  unfold recv_stdio.
  repeat (apply frame_bind; [apply read_fd_surroundings | intros ?];
          destruct (Z.eqb _ _); [apply frame_goto_error |]).
  apply dup_fds_surroundings.
Qed.

(** X4. When the child of a well-behaved client returns to the host
    program, the process environment is the list of strings the client
    had as its own, in the same order; the child has called [chdir] with
    the client's working directory, and is in that directory when it
    exists (otherwise the failure of [chdir] is ignored and the daemon's
    directory is kept). *)
Theorem caller_environment_installed V B U H w fd objc objv s argv c v s' :
  client_ok U argv c ->
  snd (grow_this_zygote V B H w fd objc objv
         (set_chan (wire (fst (main V U argv c))) s)) = Returned v s' ->
  environ s' = c_environ c /\
  In (EvChdir (c_cwd c))
     (fst (grow_this_zygote V B H w fd objc objv
             (set_chan (wire (fst (main V U argv c))) s))) /\
  cwd s' = (if is_dir w (c_cwd c) then c_cwd c else cwd s).
Proof.
  intros Hok Hret.
  destruct (main_wire V U argv c Hok) as (f0 & f1 & f2 & _ & _ & _ & Hwire).
  destruct Hok as (Hlen & _ & _ & _ & _ & _ & Henv & Hdir & Hargv & Hle & Hla & _).
  set (s0 := set_chan (wire (fst (main V U argv c))) s) in *.
  assert (Hdrop : drop 2 argv = default [] (argv !! 2%nat) :: drop 3 argv).
  { destruct argv as [| a0 [| a1 [| a2 argv]]]; simpl in Hlen; try lia. reflexivity. }
  rewrite Hdrop in Hargv. apply Forall_cons in Hargv. destruct Hargv as [Hcode Hargs].
  assert (Hla' : Z.of_nat (length (drop 3 argv)) + 1 < 2 ^ 31).
  { rewrite length_drop. lia. }
  destruct (grow_this_zygote_prefix V B H w fd objc objv s0) as (rest & Hpre).
  unfold grow_this_zygote in Hret.
  destruct (grow_this_zygote_body_cases V B H w fd objc objv s0)
    as [(es1 & a & s1 & es2 & l & s2 & es3 & s3 & H1 & H2 & H3 & _ & _ & _ & _ & _ & Hbody)
       | (es & r0 & Hbody & _ & _ & Hr)].
  2: { rewrite Hbody in Hret. destruct r0 as [? ? | s1 | s1]; [contradiction | |].
       - rewrite error_path_eq in Hret. discriminate.
       - discriminate. }
  rewrite Hbody in Hret. rewrite H1 in Hpre. cbn [fst] in Hpre.
  destruct (recv_request_chdir V B w fd s0 _ _ _ _ _ _ es1 a s1
              Henv Hdir Hcode Hargs Hle Hla' Hwire H1) as (Hin & Hcwd).
  destruct (recv_request_decodes V B w fd s0 _ _ _ _ _ _ es1 a s1
              Henv Hdir Hcode Hargs Hle Hla' Hwire H1) as (_ & _ & _ & Henv1).
  apply load_code_state in H2. subst s2.
  destruct (recv_stdio_surroundings w fd s1) as [_ Hsur]. rewrite H3 in Hsur.
  cbn [snd state_of] in Hsur. injection Hsur as He3 Hc3.
  rewrite run_and_reply_eq in Hret. cbv zeta in Hret.
  assert (Hfin : environ s' = environ s3 /\ cwd s' = cwd s3).
  { destruct H.
    - cbn [fst snd] in Hret. injection Hret as _ <-. split; reflexivity.
    - destruct (fst (next_ok (wr_ok s3))); cbn [fst snd] in Hret.
      + injection Hret as _ <-. split; reflexivity.
      + rewrite error_path_eq in Hret. discriminate. }
  destruct Hfin as [Hfe Hfc].
  split; [congruence |]. split.
  - rewrite Hpre. apply in_or_app. left. exact Hin.
  - rewrite Hfc, Hc3, Hcwd. reflexivity.
Qed.

Lemma caller_environment_installed_witness :
  client_ok 108 demo_argv demo_client /\
  snd (grow_this_zygote 7 8192 false demo_world 5 0 []
         (set_chan (wire (fst (main 7 108 demo_argv demo_client))) demo_child_state)) =
    Returned 0
      (outcome_state
         (snd (grow_this_zygote 7 8192 false demo_world 5 0 []
                 (set_chan (wire (fst (main 7 108 demo_argv demo_client)))
                    demo_child_state)))) /\
  environ
    (outcome_state
       (snd (grow_this_zygote 7 8192 false demo_world 5 0 []
               (set_chan (wire (fst (main 7 108 demo_argv demo_client)))
                  demo_child_state)))) = c_environ demo_client /\
  In (EvChdir (c_cwd demo_client))
     (fst (grow_this_zygote 7 8192 false demo_world 5 0 []
             (set_chan (wire (fst (main 7 108 demo_argv demo_client))) demo_child_state))) /\
  cwd
    (outcome_state
       (snd (grow_this_zygote 7 8192 false demo_world 5 0 []
               (set_chan (wire (fst (main 7 108 demo_argv demo_client)))
                  demo_child_state)))) =
    (if is_dir demo_world (c_cwd demo_client) then c_cwd demo_client
     else cwd demo_child_state).
Proof.
  assert (Hret :
    snd (grow_this_zygote 7 8192 false demo_world 5 0 []
           (set_chan (wire (fst (main 7 108 demo_argv demo_client))) demo_child_state)) =
    Returned 0
      (outcome_state
         (snd (grow_this_zygote 7 8192 false demo_world 5 0 []
                 (set_chan (wire (fst (main 7 108 demo_argv demo_client)))
                    demo_child_state)))))
    by (vm_compute; reflexivity).
  split; [exact demo_client_ok |]. split; [exact Hret |].
  exact (caller_environment_installed 7 8192 108 false demo_world 5 0 [] demo_child_state
           demo_argv demo_client 0 _ demo_client_ok Hret).
Defined.

(** ** The unit and the capability objects *)

Lemma run_tables_none es : Forall not_run es -> run_tables es = [].
Proof.
  induction 1 as [| e es He _ IH]; [reflexivity |].
  unfold run_tables in *. destruct e; simpl in *; first [contradiction | exact IH].
Qed.

Lemma run_tables_app es es' : run_tables (es ++ es') = run_tables es ++ run_tables es'.
Proof. unfold run_tables. apply omap_app. Qed.

Lemma run_tables_cases es :
  run_tables es = [] \/
  exists objc objv argc argv t r, In (EvRun objc objv argc argv t r) es.
Proof.
  induction es as [| e es IH]; [left; reflexivity |].
  destruct e;
    try (right; eexists _, _, _, _, _, _; left; reflexivity);
    (destruct IH as [IH | (x1 & x2 & x3 & x4 & x5 & x6 & IH)];
     [left; exact IH | right; exists x1, x2, x3, x4, x5, x6; right; exact IH]).
Qed.

Lemma decode_not_run e : decode_event e -> not_run e.
Proof. by_event e. Qed.

Lemma after_not_run e : after_event e -> not_run e.
Proof. by_event e. Qed.

Lemma grow_this_zygote_runs_once V B H w fd objc objv s :
  (length (run_tables (fst (grow_this_zygote V B H w fd objc objv s))) <= 1)%nat.
Proof.
  destruct (run_tables_cases (fst (grow_this_zygote V B H w fd objc objv s)))
    as [-> | (o & v & a & g & t & r & Hin)]; [simpl; lia |].
  destruct (unit_entered _ _ _ _ _ _ _ _ _ _ _ _ _ _ Hin)
    as (es1 & a0 & s1 & es2 & l & s2 & es3 & s3 & post & _ & _ & _ & Hreq & Hdec & _ & _
        & Hshape & Hpost & _).
  rewrite Hshape, (run_tables_app (es1 ++ es2)), (run_tables_app es3).
  rewrite (run_tables_none (es1 ++ es2)), (run_tables_none es3).
  - change (run_tables (EvRun objc objv (fst a0) (snd a0) (fdt s3) r :: post))
      with (fdt s3 :: run_tables post).
    rewrite (run_tables_none post); [simpl; lia |].
    eapply Forall_impl; [exact Hpost | exact after_not_run].
  - eapply Forall_impl; [exact Hdec | exact decode_not_run].
  - eapply Forall_impl; [exact Hreq |].
    intros e He. apply decode_not_run, request_decode_event, He.
Qed.

Lemma accept_loop_runs V B H w sfd spath objc objv conns : forall s,
  (forall objc' objv' argc argv t r,
     In (EvRun objc' objv' argc argv t r)
        (fst (accept_loop V B H w sfd spath objc objv conns s)) ->
     objc' = objc /\ objv' = objv) /\
  (length (run_tables (fst (accept_loop V B H w sfd spath objc objv conns s))) <= 1)%nat.
Proof.
  induction conns as [| c conns IH]; intros s; simpl.
  - split; [intros; contradiction | simpl; lia].
  - destruct c as [c |]; [destruct (lowest_free (nofile w) (fdt s)) as [d |] |]; simpl.
    2, 3: split; [intros ? ? ? ? ? ? Hin; simpl in Hin;
                  repeat (destruct Hin as [Hin | Hin]; [discriminate |]); contradiction
                 | simpl; lia].
    destruct (Z.eqb (fork_ret c) 0).
    + destruct (zygote_child V B H w d objc objv c _) as [es out] eqn:E.
      unfold zygote_child in E. simpl. split.
      * intros o v a g t r [Hin | [Hin | Hin]]; try discriminate.
        replace es with (fst (es, out)) in Hin by reflexivity. rewrite <- E in Hin.
        destruct (unit_entered _ _ _ _ _ _ _ _ _ _ _ _ _ _ Hin)
          as (? & ? & ? & ? & ? & ? & ? & ? & ? & _ & _ & _ & _ & _ & _ & _ & _ & _
              & Ho & Hv & _).
        split; assumption.
      * replace es with (fst (es, out)) by reflexivity. rewrite <- E.
        apply grow_this_zygote_runs_once.
    + match goal with
      | |- context [accept_loop V B H w sfd spath objc objv conns ?s2] =>
        destruct (IH s2) as [IH1 IH2];
        destruct (accept_loop V B H w sfd spath objc objv conns s2) as [es out]
      end.
      simpl in *. split; [| exact IH2].
      intros o v a g t r [Hin | [Hin | [Hin | Hin]]]; try discriminate.
      exact (IH1 _ _ _ _ _ _ Hin).
Qed.

Lemma objv_of_varargs_no_NULL ap : ~ In 0 (objv_of_varargs ap).
Proof.
  induction ap as [| p ap IH]; simpl; [tauto |].
  destruct (Z.eqb_spec p 0) as [-> | Hp]; simpl; [tauto |].
  intros [Hq | Hq]; [congruence | tauto].
Qed.

Lemma objv_of_varargs_prefix ap : exists l, ap = objv_of_varargs ap ++ l.
Proof.
  induction ap as [| p ap [l IH]]; simpl; [exists []; reflexivity |].
  destruct (Z.eqb p 0); [exists (p :: ap); reflexivity |].
  exists l. simpl. f_equal. exact IH.
Qed.

(** X5. In whatever process [zygote] is observed, and whatever the
    connections carry, the unit is entered at most once, and the
    capability objects it is handed are the variadic arguments the host
    gave to [zygote], up to the first NULL: nothing a client sends has a
    part in them. *)
Theorem unit_gets_daemon_capabilities V B U H w socket_path ap b conns s :
  (length (run_tables (fst (zygote V B U H w socket_path ap b conns s))) <= 1)%nat /\
  forall objc objv argc argv t r,
    In (EvRun objc objv argc argv t r)
       (fst (zygote V B U H w socket_path ap b conns s)) ->
    objv = objv_of_varargs ap /\ objc = Z.of_nat (length objv) /\
    ~ In 0 objv /\ exists rest, ap = objv ++ rest.
Proof.
  assert (Hcap : forall objc objv,
    objc = Z.of_nat (length (objv_of_varargs ap)) /\ objv = objv_of_varargs ap ->
    objv = objv_of_varargs ap /\ objc = Z.of_nat (length objv) /\
    ~ In 0 objv /\ exists rest, ap = objv ++ rest).
  { intros objc objv [-> ->]. split; [reflexivity |]. split; [reflexivity |].
    split; [apply objv_of_varargs_no_NULL | apply objv_of_varargs_prefix]. }
  unfold zygote.
  destruct (Z.leb U (strlen socket_path)); [split; [simpl; lia | intros; contradiction] |].
  cbv zeta.
  destruct (stale b);
    try (split; [simpl; lia
                | intros ? ? ? ? ? ? Hin; simpl in Hin;
                  repeat (destruct Hin as [Hin | Hin]; [discriminate |]); contradiction]).
  all: match goal with
       | |- context [match ?X with Some _ => _ | None => _ end] => destruct X as [[sfd f] |]
       end;
    try (split; [simpl; lia
                | intros ? ? ? ? ? ? Hin; simpl in Hin;
                  repeat (destruct Hin as [Hin | Hin]; [discriminate |]); contradiction]).
  all: destruct (negb (bind_ok b));
    try (split; [simpl; lia
                | intros ? ? ? ? ? ? Hin; simpl in Hin;
                  repeat (destruct Hin as [Hin | Hin]; [discriminate |]); contradiction]).
  all: destruct (negb (listen_ok b));
    try (split; [simpl; lia
                | intros ? ? ? ? ? ? Hin; simpl in Hin;
                  repeat (destruct Hin as [Hin | Hin]; [discriminate |]); contradiction]).
  all: match goal with
       | |- context [accept_loop ?v0 ?b0 ?h0 ?w0 ?fd0 ?p0 ?oc ?ov ?cs0 ?s5] =>
         destruct (accept_loop_runs v0 b0 h0 w0 fd0 p0 oc ov cs0 s5) as [H1 H2];
         destruct (accept_loop v0 b0 h0 w0 fd0 p0 oc ov cs0 s5) as [es out]
       end;
    simpl in *; (split; [exact H2 |]);
    intros objc objv argc argv t r Hin;
    repeat (destruct Hin as [Hin | Hin]; [discriminate |]);
    apply Hcap; exact (H1 _ _ _ _ _ _ Hin).
Qed.

(** ** A unit that cannot be loaded *)

Lemma load_code_fails w path s :
  (forall p, dlopen w (Some p) = None) \/ (forall h, dlsym w h = None) ->
  exists es, load_code w path s = (es, Goto_error s) /\ Forall request_event es.
Proof.
  intros Hno. unfold load_code. rewrite bind_emit.
  destruct (dlopen w (Some path)) as [h |] eqn:Ho.
  - destruct Hno as [Hno | Hno]; [rewrite Hno in Ho; discriminate |].
    rewrite bind_emit, (Hno h). cbn.
    eexists. split; [reflexivity | repeat constructor].
  - cbn. eexists. split; [reflexivity | repeat constructor].
Qed.

Lemma request_not_loaded e : request_event e -> ~ loaded_event e.
Proof. by_event e. Qed.

Lemma hook_not_loaded e : hook_event e -> ~ loaded_event e.
Proof. by_event e. Qed.

(** X6. When the loader cannot open the unit, or cannot resolve its
    entry point, the child never gets to the descriptors: whatever the
    request, it issues no [recvmsg] and no [dup2], does not enter the unit
    and registers nothing; unless its behaviour is undefined it writes the
    failure status, closes the connection and exits with the failure
    status, and it never returns to the host program. *)
Theorem unloadable_unit_is_not_entered V B H w fd objc objv s :
  (forall p, dlopen w (Some p) = None) \/ (forall h, dlsym w h = None) ->
  Forall (fun e => ~ loaded_event e) (fst (grow_this_zygote V B H w fd objc objv s)) /\
  match snd (grow_this_zygote V B H w fd objc objv s) with
  | Exited st _ =>
    st = EXIT_FAILURE /\
    exists pre ok hs,
      fst (grow_this_zygote V B H w fd objc objv s) =
        pre ++ EvWrite Error_write fd EXIT_FAILURE ok :: EvClose fd ::
        hs ++ [EvExit EXIT_FAILURE] /\
      Forall request_event pre /\ Forall hook_event hs
  | Undefined_behaviour _ => True
  | _ => False
  end.
Proof.
  intros Hno.
  assert (Hbody : exists es r,
    grow_this_zygote_body V B H w fd objc objv s = (es, r) /\ Forall request_event es /\
    match r with Done _ _ => False | _ => True end).
  { unfold grow_this_zygote_body. rewrite bind_modify.
    destruct (recv_request_kept V w fd (enter B w s)) as [He1 _].
    destruct (recv_request V w fd (enter B w s)) as [es1 [a s1 | s1 | s1]] eqn:H1;
      cbn [fst] in He1.
    - rewrite (bind_Done _ _ _ _ _ _ H1).
      destruct (load_code_fails w (default [] (head (snd a))) s1 Hno) as (es2 & H2 & He2).
      rewrite (bind_Goto_error _ _ _ _ _ H2). cbn [fst snd].
      eexists _, _. split; [reflexivity |]. split; [| exact I].
      apply Forall_app. split; assumption.
    - rewrite (bind_Goto_error _ _ _ _ _ H1). eexists _, _. repeat split. exact He1.
    - rewrite (bind_Undefined _ _ _ _ _ H1). eexists _, _. repeat split. exact He1. }
  destruct Hbody as (es & r & Hbody & Hes & Hr).
  assert (Hes' : Forall (fun e => ~ loaded_event e) es)
    by (eapply Forall_impl; [exact Hes | exact request_not_loaded]).
  unfold grow_this_zygote. rewrite Hbody.
  destruct r as [v s1 | s1 | s1]; [contradiction | | split; [exact Hes' | exact I]].
  rewrite error_path_eq. cbv zeta. cbn [fst snd].
  pose proof (run_hooks_hook_events (exit_hooks s1) EXIT_FAILURE
                (set_fdt (delete fd (fdt s1))
                   (set_wr_ok (snd (next_ok (wr_ok s1))) (set_num EXIT_FAILURE s1)))) as Hh.
  split.
  - apply Forall_app. split; [exact Hes' |].
    constructor; [intros []|]. constructor; [intros [] |].
    apply Forall_app. split; [| repeat constructor; intros []].
    eapply Forall_impl; [exact Hh | exact hook_not_loaded].
  - split; [reflexivity |]. eexists es, _, _. split; [reflexivity |].
    split; [exact Hes | exact Hh].
Qed.

Lemma unloadable_unit_is_not_entered_witness :
  ((forall p, dlopen barren_world (Some p) = None) \/
   (forall h, dlsym barren_world h = None)) /\
  Forall (fun e => ~ loaded_event e)
    (fst (grow_this_zygote 7 8192 false barren_world 5 0 [] demo_child_state)) /\
  match snd (grow_this_zygote 7 8192 false barren_world 5 0 [] demo_child_state) with
  | Exited st _ =>
    st = EXIT_FAILURE /\
    exists pre ok hs,
      fst (grow_this_zygote 7 8192 false barren_world 5 0 [] demo_child_state) =
        pre ++ EvWrite Error_write 5 EXIT_FAILURE ok :: EvClose 5 ::
        hs ++ [EvExit EXIT_FAILURE] /\
      Forall request_event pre /\ Forall hook_event hs
  | Undefined_behaviour _ => True
  | _ => False
  end.
Proof.
  assert (Hno : (forall p, dlopen barren_world (Some p) = None) \/
                (forall h, dlsym barren_world h = None))
    by (left; intros p; reflexivity).
  split; [exact Hno |].
  exact (unloadable_unit_is_not_entered 7 8192 false barren_world 5 0 [] demo_child_state Hno).
Defined.

(** ** The daemon: start, accept loop and signals *)

Lemma grow_this_zygote_not_listening V B H w fd objc objv s s' :
  snd (grow_this_zygote V B H w fd objc objv s) <> Listening s'.
Proof.
  unfold grow_this_zygote.
  destruct (grow_this_zygote_body V B H w fd objc objv s) as [es [v s1 | s1 | s1]];
    [discriminate | rewrite error_path_eq; discriminate | discriminate].
Qed.

(** A process still listening after [conns] was the parent of every
    [fork], and is in the state in which it started to listen. *)
Lemma accept_loop_listening V B H w sfd spath objc objv conns : forall s s',
  snd (accept_loop V B H w sfd spath objc objv conns s) = Listening s' ->
  s' = s /\ Forall parent_conn conns /\
  exists d,
    (conns <> [] -> lowest_free (nofile w) (fdt s) = Some d) /\
    fst (accept_loop V B H w sfd spath objc objv conns s) =
      flat_map (parent_events sfd d) conns.
Proof.
  induction conns as [| c conns IH]; intros s s'; simpl.
  - intros [= <-]. split; [reflexivity |]. split; [constructor |].
    exists 0. split; [congruence | reflexivity].
  - destruct c as [c |]; [destruct (lowest_free (nofile w) (fdt s)) as [d |] eqn:Hd |];
      simpl; try discriminate.
    destruct (Z.eqb_spec (fork_ret c) 0) as [Hz | Hnz].
    + destruct (zygote_child V B H w d objc objv c _) as [es out] eqn:E. simpl.
      intros ->. exfalso. unfold zygote_child in E.
      eapply grow_this_zygote_not_listening. rewrite E. reflexivity.
    + cbn [fdt set_fdt].
      rewrite (delete_insert_id (fdt s) d (conn_file c) (lowest_free_spec _ _ _ Hd)).
      replace (set_fdt (fdt s) (set_fdt (<[d := conn_file c]> (fdt s)) s)) with s
        by (destruct s; reflexivity).
      specialize (IH s s').
      destruct (accept_loop V B H w sfd spath objc objv conns s) as [es out].
      simpl in *. intros Hout. destruct (IH Hout) as (-> & Hall & d' & Hd' & Hes).
      split; [reflexivity |]. split; [constructor; [exact Hnz | exact Hall] |].
      exists d. split; [reflexivity |]. rewrite Hes.
      destruct conns as [| c' conns']; [reflexivity |].
      assert (d' = d) by (specialize (Hd' ltac:(discriminate)); congruence).
      subst d'. reflexivity.
Qed.

Ltac zygote_socket b :=
  destruct (match sock b with Some _ => _ | None => _ end) as [[sfd f] |] eqn:Hsock;
  [ destruct (bind_ok b) eqn:Hbind; [destruct (listen_ok b) eqn:Hlisten |] |];
  cbn [negb].

Ltac zygote_cases U socket_path b :=
  unfold zygote;
  destruct (Z.leb_spec U (strlen socket_path)) as [Hlong | Hfits];
  [| cbv zeta; destruct (stale b) eqn:Hstale; [zygote_socket b | zygote_socket b |] ].

(** What a listening daemon has set up. *)
Lemma zygote_listening V B U H w socket_path ap b conns s s' :
  snd (zygote V B U H w socket_path ap b conns s) = Listening s' ->
  snd (zygote V B U H w socket_path ap b [] s) = Listening s' /\
  Forall parent_conn conns /\
  (exists d,
     (conns <> [] -> lowest_free (nofile w) (fdt s') = Some d) /\
     fst (zygote V B U H w socket_path ap b conns s) =
       fst (zygote V B U H w socket_path ap b [] s) ++
       flat_map (parent_events (zygote_socket_fd s') d) conns) /\
  0 <= zygote_socket_fd s' /\
  exists f,
    sock b = Some f /\ (fdt s' : gmap Z file) !! zygote_socket_fd s' = Some f /\
    zygote_socket_path s' = Some socket_path /\
    exit_hooks s' = Hook_cleanup :: exit_hooks s /\
    sig_handlers s' =
      (SIGTERM, Handler_cleanupBeforeExit) :: (SIGQUIT, Handler_cleanupBeforeExit) ::
      (SIGINT, Handler_cleanupBeforeExit) :: (SIGCHLD, Handler_reapChild) :: sig_handlers s /\
    grow_connection_fd s' = grow_connection_fd s /\
    In (EvListen (zygote_socket_fd s') true) (fst (zygote V B U H w socket_path ap b [] s)).
Proof.
  zygote_cases U socket_path b; try discriminate.
  all: match goal with
       | |- context [accept_loop ?v0 ?b0 ?h0 ?w0 ?fd0 ?p0 ?oc ?ov ?cs0 ?s5] =>
         pose proof (fun x => accept_loop_listening v0 b0 h0 w0 fd0 p0 oc ov cs0 s5 x) as Hloop;
         destruct (accept_loop v0 b0 h0 w0 fd0 p0 oc ov cs0 s5) as [es out]
       end;
    cbn [fst snd accept_loop] in *; intros Hout;
    destruct (Hloop _ Hout) as (-> & Hall & d & Hd & ->);
    (split; [reflexivity |]); (split; [exact Hall |]);
    (split; [exists d; split; [exact Hd |];
             cbn [zygote_socket_fd set_sig_handlers set_exit_hooks set_endpoint];
             rewrite app_nil_r; reflexivity |]);
    clear Hd;
    destruct (sock b) as [f' |] eqn:Hsk; [| discriminate];
    destruct (lowest_free _ _) as [d0 |] eqn:Hlf; [| discriminate];
    injection Hsock as <- <-;
    apply lowest_free_range in Hlf;
    (split; [exact Hlf |]);
    exists f';
    cbn [zygote_socket_fd zygote_socket_path exit_hooks sig_handlers grow_connection_fd fdt
         set_sig_handlers set_exit_hooks set_endpoint set_fdt];
    (split; [reflexivity |]); (split; [apply lookup_insert_eq |]);
    (split; [reflexivity |]);
    (split; [repeat case_match; reflexivity |]);
    (split; [repeat case_match; reflexivity |]);
    (split; [repeat case_match; reflexivity |]);
    rewrite app_nil_r; apply in_or_app; right; right; left; reflexivity.
Qed.

(** X7. A process that is still listening after a number of connections
    was the parent at every [fork], and is in the very state in which it
    started to listen: for each connection it has issued an [accept], a
    [fork] and a [close] of the accepted descriptor and nothing else (it
    reads no byte of any request), and the descriptor it used is free
    again. *)
Theorem parent_only_accepts_forks_and_closes V B U H w socket_path ap b conns s s' :
  snd (zygote V B U H w socket_path ap b conns s) = Listening s' ->
  snd (zygote V B U H w socket_path ap b [] s) = Listening s' /\
  Forall parent_conn conns /\
  exists d,
    (conns <> [] -> lowest_free (nofile w) (fdt s') = Some d /\
                    (fdt s' : gmap Z file) !! d = None) /\
    fst (zygote V B U H w socket_path ap b conns s) =
      fst (zygote V B U H w socket_path ap b [] s) ++
      flat_map (parent_events (zygote_socket_fd s') d) conns.
Proof.
  intros Hout.
  destruct (zygote_listening V B U H w socket_path ap b conns s s' Hout)
    as (H0 & Hall & (d & Hd & Hes) & _).
  split; [exact H0 |]. split; [exact Hall |].
  exists d. split; [| exact Hes].
  intros Hne. specialize (Hd Hne). split; [exact Hd |].
  eapply lowest_free_spec. exact Hd.
Qed.

Lemma parent_only_accepts_forks_and_closes_witness :
  snd (zygote 7 8192 108 false demo_world demo_path [] demo_boot two_served demo_init) =
    Listening demo_listening /\
  snd (zygote 7 8192 108 false demo_world demo_path [] demo_boot [] demo_init) =
    Listening demo_listening /\
  Forall parent_conn two_served /\
  exists d,
    (two_served <> [] -> lowest_free (nofile demo_world) (fdt demo_listening) = Some d /\
                         (fdt demo_listening : gmap Z file) !! d = None) /\
    fst (zygote 7 8192 108 false demo_world demo_path [] demo_boot two_served demo_init) =
      fst (zygote 7 8192 108 false demo_world demo_path [] demo_boot [] demo_init) ++
      flat_map (parent_events (zygote_socket_fd demo_listening) d) two_served.
Proof.
  assert (Hout :
    snd (zygote 7 8192 108 false demo_world demo_path [] demo_boot two_served demo_init) =
    Listening demo_listening) by (vm_compute; reflexivity).
  split; [exact Hout |].
  exact (parent_only_accepts_forks_and_closes 7 8192 108 false demo_world demo_path []
           demo_boot two_served demo_init demo_listening Hout).
Defined.

Lemma run_hooks_closed hs st s d :
  (fdt s : gmap Z file) !! d = None ->
  (fdt (snd (run_hooks hs st s)) : gmap Z file) !! d = None.
Proof.
  revert s. induction hs as [| h hs IH]; intros s Hd; [exact Hd |].
  simpl. destruct (run_hook h st s) as [es s1] eqn:E1.
  assert (H1 : (fdt s1 : gmap Z file) !! d = None).
  { destruct h; simpl in E1.
    - unfold cleanup in E1.
      destruct (Z.eqb (zygote_socket_fd s) (-1)); cbn in E1;
        destruct (zygote_socket_path s); injection E1 as _ <-; cbn;
        try exact Hd; apply lookup_delete_None; right; exact Hd.
    - unfold replyWithExitStatus in E1.
      destruct (Z.eqb (grow_connection_fd s) (-1)); [injection E1 as _ <-; exact Hd |].
      destruct (next_ok (wr_ok s)). injection E1 as _ <-. exact Hd. }
  specialize (IH s1 H1). destruct (run_hooks hs st s1). exact IH.
Qed.

(** X8. A daemon that listens has installed [cleanupBeforeExit] for
    SIGINT, SIGQUIT and SIGTERM, whatever handlers the host had: on any of
    the three it closes the listening socket, unlinks the socket path,
    runs the exit handlers (its own [cleanup] first) and exits with the
    signal number as its status, the listening socket being closed. *)
Theorem terminating_signal_removes_endpoint V B U H w socket_path ap b conns s s' sig :
  snd (zygote V B U H w socket_path ap b conns s) = Listening s' ->
  sig = SIGINT \/ sig = SIGQUIT \/ sig = SIGTERM ->
  In (EvListen (zygote_socket_fd s') true) (fst (zygote V B U H w socket_path ap b conns s)) /\
  exists hs s'',
    handle_signal sig s' =
      Some (EvClose (zygote_socket_fd s') :: EvUnlink socket_path :: hs ++ [EvExit sig],
            Exited sig s'') /\
    Forall hook_event hs /\
    (fdt s'' : gmap Z file) !! zygote_socket_fd s' = None.
Proof.
  intros Hout Hsig.
  destruct (zygote_listening V B U H w socket_path ap b conns s s' Hout)
    as (_ & _ & (d & _ & Hes) & Hfd & f & _ & _ & Hpath & Hhooks & Hhand & _ & Hin).
  split; [rewrite Hes; apply in_or_app; left; exact Hin |].
  unfold handle_signal. rewrite Hhand.
  assert (Hfind :
    List.find (fun p : Z * sighandler => Z.eqb (fst p) sig)
      ((SIGTERM, Handler_cleanupBeforeExit) :: (SIGQUIT, Handler_cleanupBeforeExit) ::
       (SIGINT, Handler_cleanupBeforeExit) :: (SIGCHLD, Handler_reapChild) :: sig_handlers s) =
    Some (sig, Handler_cleanupBeforeExit))
    by (destruct Hsig as [-> | [-> | ->]]; reflexivity).
  rewrite Hfind. unfold cleanupBeforeExit.
  assert (Hc : cleanup s' =
               ([EvClose (zygote_socket_fd s'); EvUnlink socket_path],
                set_fdt (delete (zygote_socket_fd s') (fdt s')) s')).
  { unfold cleanup. destruct (Z.eqb_spec (zygote_socket_fd s') (-1)) as [Hm | _]; [lia |].
    cbn [zygote_socket_path set_fdt]. rewrite Hpath. reflexivity. }
  rewrite Hc, exit_eq. cbn [app].
  eexists _, _. split; [reflexivity |].
  split; [apply run_hooks_hook_events |].
  apply run_hooks_closed. cbn [fdt set_fdt]. apply lookup_delete_eq.
Qed.

Lemma terminating_signal_removes_endpoint_witness :
  snd (zygote 7 8192 108 false demo_world demo_path [] demo_boot two_served demo_init) =
    Listening demo_listening /\
  (SIGTERM = SIGINT \/ SIGTERM = SIGQUIT \/ SIGTERM = SIGTERM) /\
  In (EvListen (zygote_socket_fd demo_listening) true)
     (fst (zygote 7 8192 108 false demo_world demo_path [] demo_boot two_served demo_init)) /\
  exists hs s'',
    handle_signal SIGTERM demo_listening =
      Some (EvClose (zygote_socket_fd demo_listening) :: EvUnlink demo_path ::
              hs ++ [EvExit SIGTERM],
            Exited SIGTERM s'') /\
    Forall hook_event hs /\
    (fdt s'' : gmap Z file) !! zygote_socket_fd demo_listening = None.
Proof.
  assert (Hout :
    snd (zygote 7 8192 108 false demo_world demo_path [] demo_boot two_served demo_init) =
    Listening demo_listening) by (vm_compute; reflexivity).
  assert (Hsig : SIGTERM = SIGINT \/ SIGTERM = SIGQUIT \/ SIGTERM = SIGTERM)
    by (right; right; reflexivity).
  split; [exact Hout |]. split; [exact Hsig |].
  exact (terminating_signal_removes_endpoint 7 8192 108 false demo_world demo_path []
           demo_boot two_served demo_init demo_listening SIGTERM Hout Hsig).
Defined.

Lemma insert_free_keeps (t : gmap Z file) d0 g d f :
  t !! d0 = None -> t !! d = Some f -> <[d0 := g]> t !! d = Some f.
Proof.
  intros H0 Hd. rewrite lookup_insert_ne; [exact Hd |]. intros ->. congruence.
Qed.

(** The duplicate of the standard error stream taken for the log keeps
    every descriptor of the host. *)
Lemma dup_keeps w s d f :
  (fdt s : gmap Z file) !! d = Some f ->
  (fdt match
         match fdt s !! 2, lowest_free (nofile w) (fdt s) with
         | Some f, Some d => Some (d, f)
         | _, _ => None
         end
       with
       | Some (d, f) => set_fdt (<[d := f]> (fdt s)) s
       | None => s
       end : gmap Z file) !! d = Some f.
Proof.
  intros Hd. destruct (fdt s !! 2) as [f2 |]; [| exact Hd].
  destruct (lowest_free (nofile w) (fdt s)) as [d2 |] eqn:Hl; [| exact Hd].
  cbn [fdt set_fdt]. apply insert_free_keeps; [eapply lowest_free_spec; exact Hl | exact Hd].
Qed.

Lemma dup_globals w s :
  globals match
            match fdt s !! 2, lowest_free (nofile w) (fdt s) with
            | Some f, Some d => Some (d, f)
            | _, _ => None
            end
          with
          | Some (d, f) => set_fdt (<[d := f]> (fdt s)) s
          | None => s
          end = globals s.
Proof. repeat case_match; reflexivity. Qed.

(** X9. A start that fails (a socket path that does not fit in
    [sun_path], a stale path that cannot be unlinked, no socket, a failed
    [bind] or a failed [listen]) makes [zygote] return -1 whatever
    connections are pending: nothing is accepted or forked, no exit
    handler and no signal handler is registered, the endpoint globals are
    as they were, and every descriptor of the host is still open.  A path
    that does not fit is rejected before any call is made. *)
Theorem failed_start_registers_nothing V B U H w socket_path ap b conns s :
  U <= strlen socket_path \/ stale b = Unlink_failed \/ sock b = None \/
  bind_ok b = false \/ listen_ok b = false ->
  exists s',
    snd (zygote V B U H w socket_path ap b conns s) = Returned (-1) s' /\
    globals s' = globals s /\
    Forall startup_event (fst (zygote V B U H w socket_path ap b conns s)) /\
    (forall d f, (fdt s : gmap Z file) !! d = Some f -> (fdt s' : gmap Z file) !! d = Some f) /\
    (U <= strlen socket_path ->
     fst (zygote V B U H w socket_path ap b conns s) = [] /\ s' = s).
Proof.
  intros Hcause.
  zygote_cases U socket_path b.
  - exists s. repeat split; auto.
  - exfalso. destruct Hcause as [? | [? | [Hs | [? | ?]]]]; try lia; try congruence.
    rewrite Hs in Hsock. discriminate.
  - eexists. split; [reflexivity |]. cbn [fst snd].
    split; [apply dup_globals |]. split; [repeat constructor |].
    split; [| intros; lia].
    intros d g Hd. cbn [fdt set_fdt].
    destruct (sock b) as [f' |]; [| discriminate].
    destruct (lowest_free _ _) as [d0 |] eqn:Hlf; [| discriminate].
    injection Hsock as <- <-.
    apply insert_free_keeps; [eapply lowest_free_spec; exact Hlf | apply dup_keeps; exact Hd].
  - eexists. split; [reflexivity |]. cbn [fst snd].
    split; [apply dup_globals |]. split; [repeat constructor |].
    split; [| intros; lia].
    intros d g Hd. cbn [fdt set_fdt].
    destruct (sock b) as [f' |]; [| discriminate].
    destruct (lowest_free _ _) as [d0 |] eqn:Hlf; [| discriminate].
    injection Hsock as <- <-.
    rewrite delete_insert_id by (eapply lowest_free_spec; exact Hlf).
    apply dup_keeps; exact Hd.
  - eexists. split; [reflexivity |]. cbn [fst snd].
    split; [apply dup_globals |]. split; [repeat constructor |].
    split; [| intros; lia]. intros d g Hd. apply dup_keeps; exact Hd.
  - exfalso. destruct Hcause as [? | [? | [Hs | [? | ?]]]]; try lia; try congruence.
    rewrite Hs in Hsock. discriminate.
  - eexists. split; [reflexivity |]. cbn [fst snd].
    split; [apply dup_globals |]. split; [repeat constructor |].
    split; [| intros; lia].
    intros d g Hd. cbn [fdt set_fdt].
    destruct (sock b) as [f' |]; [| discriminate].
    destruct (lowest_free _ _) as [d0 |] eqn:Hlf; [| discriminate].
    injection Hsock as <- <-.
    apply insert_free_keeps; [eapply lowest_free_spec; exact Hlf | apply dup_keeps; exact Hd].
  - eexists. split; [reflexivity |]. cbn [fst snd].
    split; [apply dup_globals |]. split; [repeat constructor |].
    split; [| intros; lia].
    intros d g Hd. cbn [fdt set_fdt].
    destruct (sock b) as [f' |]; [| discriminate].
    destruct (lowest_free _ _) as [d0 |] eqn:Hlf; [| discriminate].
    injection Hsock as <- <-.
    rewrite delete_insert_id by (eapply lowest_free_spec; exact Hlf).
    apply dup_keeps; exact Hd.
  - eexists. split; [reflexivity |]. cbn [fst snd].
    split; [apply dup_globals |]. split; [repeat constructor |].
    split; [| intros; lia]. intros d g Hd. apply dup_keeps; exact Hd.
  - eexists. split; [reflexivity |]. cbn [fst snd].
    split; [apply dup_globals |]. split; [repeat constructor |].
    split; [| intros; lia]. intros d g Hd. apply dup_keeps; exact Hd.
Qed.

(** ** What the client returns *)

Lemma default_last_cons {A} (x : A) l d : default d (last (x :: l)) = default x (last l).
Proof. rewrite last_cons. destruct (last l); reflexivity. Qed.

Lemma sendStr_num fd x c :
  c_wr_ok c = [] -> Z.of_nat (length x) < INT_MAX ->
  exists es c',
    sendStr fd x c = (es, Done tt c') /\ client_same c c' /\ c_num c' = strlen x.
Proof.
  intros Hw Hl.
  destruct (sendStr_wire fd x c Hw Hl) as (es & c' & Hr & _ & Hs).
  exists es, c'. split; [exact Hr |]. split; [exact Hs |].
  apply (sendStr_Done fd x c es c' Hl Hr).
Qed.

Lemma send_strings_num fd l : forall c x0,
  c_wr_ok c = [] -> Forall str_ok l -> c_num c = strlen x0 ->
  exists es c',
    send_strings fd l c = (es, Done tt c') /\ client_same c c' /\
    c_num c' = strlen (default x0 (last l)).
Proof.
  induction l as [| x l IH]; intros c x0 Hw Hok Hn.
  - exists [], c. split; [reflexivity |]. split; [apply client_same_refl | exact Hn].
  - apply Forall_cons in Hok. destruct Hok as [[_ Hx] Hok].
    destruct (sendStr_num fd x c Hw Hx) as (es1 & c1 & Hr1 & Hs1 & Hn1).
    cbn [send_strings]. rewrite (bind_Done _ _ _ _ _ _ Hr1).
    assert (Hw' : c_wr_ok c1 = []) by (rewrite (proj1 Hs1); exact Hw).
    destruct (IH c1 x Hw' Hok Hn1) as (es2 & c2 & Hr2 & Hs2 & Hn2).
    rewrite Hr2. cbn [fst snd]. eexists _, _. split; [reflexivity |].
    split; [eapply client_same_trans; eassumption |].
    rewrite default_last_cons. exact Hn2.
Qed.

Lemma write_fd_num fd payload k f c :
  c_wr_ok c = [] -> c_fdt c !! k = Some f ->
  exists c',
    write_fd fd payload k c = ([CSendmsg fd payload k (Some f) true], Done 1 c') /\
    client_same c c' /\ c_num c' = c_num c.
Proof.
  intros Hw Hk. unfold write_fd. rewrite Hk, Hw. cbn [next_ok].
  eexists. split; [reflexivity |]. split; [| reflexivity].
  unfold client_same. cbn. rewrite Hw. repeat split.
Qed.

(** The value with which [main] leaves its body: what the final [read]
    makes of [num], which holds the length of the last string sent. *)
Lemma main_body_result V fd argv c :
  (3 <= length argv)%nat ->
  c_wr_ok c = [] ->
  Forall str_ok (c_environ c) -> str_ok (c_cwd c) -> Forall str_ok (drop 2 argv) ->
  Z.of_nat (length (c_environ c)) < 2 ^ 31 -> Z.of_nat (length argv) < 2 ^ 31 ->
  is_Some (c_fdt c !! 0) -> is_Some (c_fdt c !! 1) -> is_Some (c_fdt c !! 2) ->
  match fst (sys_recv 4 (c_reply c)), snd (main_body V fd (Z.of_nat (length argv)) argv c) with
  | RdErr, Goto_error _ => True
  | RdData bs _, Done v _ =>
    v = bytes_int (store_bytes (int_bytes (strlen (default [] (last argv)))) bs)
  | _, _ => False
  end.
Proof.
  intros Hargc Hw Henv Hcwd Hargv Hle Hla [f0 H0] [f1 H1] [f2 H2].
  destruct argv as [| a0 [| a1 [| code args]]]; try (simpl in Hargc; lia).
  cbn [drop lookup list_lookup default] in *.
  apply Forall_cons in Hargv. destruct Hargv as [Hcode Hargs].
  rewrite !default_last_cons.
  unfold main_body. cbv zeta. cbn [lookup list_lookup default drop].
  (* version *)
  destruct (sendNum_wire fd V c Hw) as (e1 & c1 & Hr1 & _ & Hs1 & _).
  rewrite (bind_Done _ _ _ _ _ _ Hr1). cbn [fst snd]. rewrite bind_get.
  destruct Hs1 as (Hwr1 & Hf1 & He1 & Hc1 & Hp1). rewrite He1, Hc1.
  (* environ *)
  assert (Hw1' : c_wr_ok c1 = []) by congruence.
  destruct (sendNum_wire fd (Z.of_nat (length (c_environ c))) c1 Hw1')
    as (e2 & c2 & Hr2 & _ & Hs2 & _).
  rewrite (bind_Done _ _ _ _ _ _ Hr2). cbn [fst snd].
  destruct Hs2 as (Hwr2 & Hf2 & _ & _ & Hp2).
  assert (Hw2' : c_wr_ok c2 = []) by congruence.
  destruct (send_strings_wire fd (c_environ c) c2 Hw2' Henv) as (e3 & c3 & Hr3 & _ & Hs3).
  rewrite (bind_Done _ _ _ _ _ _ Hr3). cbn [fst snd].
  destruct Hs3 as (Hwr3 & Hf3 & _ & _ & Hp3).
  (* cwd *)
  assert (Hw3' : c_wr_ok c3 = []) by congruence.
  destruct (sendStr_wire fd (c_cwd c) c3 Hw3' (proj2 Hcwd)) as (e4 & c4 & Hr4 & _ & Hs4).
  rewrite (bind_Done _ _ _ _ _ _ Hr4). cbn [fst snd].
  destruct Hs4 as (Hwr4 & Hf4 & _ & _ & Hp4).
  (* argc *)
  assert (Hw4' : c_wr_ok c4 = []) by congruence.
  destruct (sendNum_wire fd (Z.of_nat (length (a0 :: a1 :: code :: args)) - 2) c4 Hw4')
    as (e5 & c5 & Hr5 & _ & Hs5 & _).
  rewrite (bind_Done _ _ _ _ _ _ Hr5). cbn [fst snd].
  destruct Hs5 as (Hwr5 & Hf5 & _ & _ & Hp5).
  (* code_path *)
  assert (Hw5' : c_wr_ok c5 = []) by congruence.
  destruct (sendStr_num fd code c5 Hw5' (proj2 Hcode)) as (e6 & c6 & Hr6 & Hs6 & Hn6).
  rewrite (bind_Done _ _ _ _ _ _ Hr6). cbn [fst snd].
  destruct Hs6 as (Hwr6 & Hf6 & _ & _ & Hp6).
  (* argv *)
  assert (Hw6' : c_wr_ok c6 = []) by congruence.
  destruct (send_strings_num fd args c6 code Hw6' Hargs Hn6) as (e7 & c7 & Hr7 & Hs7 & Hn7).
  rewrite (bind_Done _ _ _ _ _ _ Hr7). cbn [fst snd].
  destruct Hs7 as (Hwr7 & Hf7 & _ & _ & Hp7).
  (* descriptors *)
  assert (Hw7' : c_wr_ok c7 = []) by congruence.
  assert (Hf7' : c_fdt c7 = c_fdt c) by congruence.
  destruct (write_fd_num fd (default NUL (head (c_cwd c))) 2 f2 c7 Hw7')
    as (c8 & Hr8 & Hs8 & Hn8); [rewrite Hf7'; exact H2 |].
  rewrite (bind_Done _ _ _ _ _ _ Hr8). cbn [fst snd Z.eqb].
  destruct Hs8 as (Hwr8 & Hf8 & _ & _ & Hp8).
  assert (Hw8' : c_wr_ok c8 = []) by congruence.
  destruct (write_fd_num fd (default NUL (head (c_cwd c))) 1 f1 c8 Hw8')
    as (c9 & Hr9 & Hs9 & Hn9); [rewrite Hf8, Hf7'; exact H1 |].
  rewrite (bind_Done _ _ _ _ _ _ Hr9). cbn [fst snd Z.eqb].
  destruct Hs9 as (Hwr9 & Hf9 & _ & _ & Hp9).
  assert (Hw9' : c_wr_ok c9 = []) by congruence.
  destruct (write_fd_num fd (default NUL (head (c_cwd c))) 0 f0 c9 Hw9')
    as (c10 & Hr10 & Hs10 & Hn10); [rewrite Hf9, Hf8, Hf7'; exact H0 |].
  rewrite (bind_Done _ _ _ _ _ _ Hr10). cbn [fst snd Z.eqb].
  destruct Hs10 as (_ & _ & _ & _ & Hp10).
  (* the reply *)
  assert (Hp : c_reply c10 = c_reply c) by congruence.
  assert (Hn : c_num c10 = strlen (default code (last args))) by congruence.
  unfold bind, c_read_num. rewrite Hp, Hn.
  destruct (sys_recv 4 (c_reply c)) as [[| bs cm] ch]; cbn.
  - exact I.
  - destruct (Z.eqb_spec (Z.of_nat (length bs)) (-1)) as [? | _]; [lia |]. reflexivity.
Qed.

Lemma main_result V U argv c :
  client_ok U argv c ->
  snd (main V U argv c) =
  match fst (sys_recv 4 (c_reply c)) with
  | RdErr => Some (-1)
  | RdData bs _ => Some (bytes_int (store_bytes (int_bytes (strlen (default [] (last argv)))) bs))
  end.
Proof.
  intros (Hargc & Hpath & [f Hsock] & [sfd Hfree] & Hconn & Hw & Henv & Hcwd & Hargv
          & Hle & Hla & H0 & H1 & H2).
  unfold main. destruct (Z.ltb_spec (Z.of_nat (length argv)) 3) as [? | _]; [lia |].
  unfold open_unix_fd.
  destruct (Z.leb_spec (U - 1) (strlen (default [] (argv !! 1%nat))))
    as [? | _]; [lia |].
  rewrite Hsock, Hfree, Hconn. cbn [option_map].
  pose proof (lowest_free_range _ _ _ Hfree) as Hpos.
  pose proof (lowest_free_spec _ _ _ Hfree) as Hnone.
  destruct (Z.eqb_spec sfd (-1)) as [? | _]; [lia |].
  set (c1 := set_c_fdt _ c).
  assert (Hkeep : forall k, is_Some (c_fdt c !! k) -> is_Some (c_fdt c1 !! k)).
  { intros k [g Hk]. exists g. subst c1. cbn [c_fdt set_c_fdt].
    rewrite lookup_insert_ne; [exact Hk |]. intros ->. congruence. }
  pose proof (main_body_result V sfd argv c1 Hargc Hw Henv Hcwd Hargv Hle Hla
                (Hkeep _ H0) (Hkeep _ H1) (Hkeep _ H2)) as Hres.
  change (c_reply c1) with (c_reply c) in Hres.
  destruct (fst (sys_recv 4 (c_reply c))) as [| bs cm];
    destruct (main_body V sfd (Z.of_nat (length argv)) argv c1) as [es' [v c2 | c2 | c2]];
    cbn [fst snd] in *; try contradiction; congruence.
Qed.

Lemma client_ok_reply U argv c x : client_ok U argv c -> client_ok U argv (set_c_reply x c).
Proof. intros Hok. exact Hok. Qed.

Lemma main_reads_reply V U argv c v rest :
  client_ok U argv c -> c_reply c = CData (int_bytes v) NoCmsg :: rest ->
  snd (main V U argv c) = Some (wrap_int v).
Proof.
  intros Hok Hr. rewrite (main_result V U argv c Hok), Hr.
  change (fst (sys_recv 4 (CData (int_bytes v) NoCmsg :: rest)))
    with (RdData (int_bytes v) NoCmsg).
  cbv iota. rewrite store_int_bytes, bytes_int_int_bytes. reflexivity.
Qed.

(** The version a child finds in the stream of a well-behaved client. *)
Lemma version_received_main V U w argv c s :
  client_ok U argv c ->
  version_received w (set_chan (wire (fst (main V U argv c))) s) = Some (wrap_int V).
Proof.
  intros Hok. destruct (main_wire V U argv c Hok) as (f0 & f1 & f2 & _ & _ & _ & Hwire).
  unfold version_received. cbn [chan set_chan]. rewrite Hwire.
  unfold request_wire, enc_num. cbn [app].
  change (sys_recv 4 (CData (int_bytes (wrap_int V)) NoCmsg :: ?r))
    with (RdData (int_bytes (wrap_int V)) NoCmsg, r).
  cbv iota. rewrite store_int_bytes, bytes_int_int_bytes, wrap_int_idem. reflexivity.
Qed.

Lemma pid_reply_first V B H w fd objc objv s :
  version_received w s = Some V ->
  exists r rest,
    fst (grow_this_zygote V B H w fd objc objv s) =
    EvRead fd 4 r :: EvWrite Pid_write fd (pid w) (fst (next_ok (wr_ok s))) :: rest.
Proof.
  intros Hv.
  destruct (grow_this_zygote_prefix V B H w fd objc objv s) as [rest ->].
  unfold recv_request.
  pose proof (recvNum_first w B fd s) as Hn. unfold version_received in Hv.
  destruct (sys_recv 4 (chan s)) as [[| bs c] ch]; [discriminate |].
  injection Hv as Hv. simpl in Hn.
  rewrite (bind_Done _ _ _ _ _ _ Hn), bind_get.
  change (num (set_num ?x _)) with x. rewrite Hv, Z.eqb_refl.
  change (negb true) with false. cbv iota.
  rewrite bind_modify.
  match goal with
  | |- context [bind (sys_write_num Pid_write fd (pid w)) ?k ?s0] =>
    destruct (bind_prefix (sys_write_num Pid_write fd (pid w)) k s0) as [rest' ->]
  end.
  rewrite sys_write_num_eq. cbn [fst app wr_ok set_num set_chan enter set_buf set_fds].
  exists (RdData bs c), (rest' ++ rest). reflexivity.
Qed.

Lemma version_mismatch_events V B H w fd objc objv s v :
  version_received w s = Some v -> v <> V ->
  exists r hs s',
    grow_this_zygote V B H w fd objc objv s =
    (EvRead fd 4 r :: EvWrite Error_write fd EXIT_FAILURE (fst (next_ok (wr_ok s))) ::
       EvClose fd :: hs ++ [EvExit EXIT_FAILURE],
     Exited EXIT_FAILURE s') /\
    Forall hook_event hs.
Proof.
  intros Hv Hne.
  unfold grow_this_zygote, grow_this_zygote_body. rewrite bind_modify.
  pose proof (recvNum_first w B fd s) as Hn. unfold version_received in Hv.
  destruct (sys_recv 4 (chan s)) as [[| bs c] ch] eqn:Hrecv; [discriminate |].
  injection Hv as Hv. simpl in Hn.
  assert (Hreq :
    recv_request V w fd (enter B w s) =
    ([EvRead fd 4 (RdData bs c)],
     Goto_error (set_num (bytes_int (store_bytes (int_bytes (uninit w 3)) bs))
                   (set_chan ch (enter B w s))))).
  { unfold recv_request. rewrite (bind_Done _ _ _ _ _ _ Hn), bind_get.
    change (num (set_num ?x _)) with x. rewrite Hv.
    destruct (Z.eqb_spec v V) as [? | _]; [contradiction |]. reflexivity. }
  rewrite (bind_Goto_error _ _ _ _ _ Hreq).
  rewrite error_path_eq. cbv zeta.
  eexists _, _, _. split; [reflexivity |]. apply run_hooks_hook_events.
Qed.

Lemma host_exits_prefix host r : exists rest, fst (host_exits host r) = fst r ++ rest.
Proof.
  destruct r as [es [v s | st s | s | s]]; simpl;
    try (exists []; rewrite app_nil_r; reflexivity).
  destruct (exit (host v) s) as [es' out]. exists es'. reflexivity.
Qed.

(** X10. A well-behaved client and a daemon of the same protocol version
    whose pid reply goes through: whatever the unit does afterwards and
    whatever status the child writes, the value [main] returns is the pid
    of the child, because the one [read] of the client takes the first
    integer on the connection. *)
Theorem session_returns_child_pid V B U H w host fd objc objv s argv c :
  client_ok U argv c -> - 2 ^ 31 <= V < 2 ^ 31 ->
  fst (next_ok (wr_ok s)) = true ->
  snd (session V B U H w host fd objc objv s argv c) = Some (wrap_int (pid w)).
Proof.
  intros Hok HV Hwr. unfold session. cbn [fst snd].
  pose proof (version_received_main V U w argv c s Hok) as Hv.
  rewrite (wrap_int_small V HV) in Hv.
  destruct (pid_reply_first V B H w fd objc objv _ Hv) as (r & rest & Hes).
  cbn [wr_ok set_chan] in Hes. rewrite Hwr in Hes.
  destruct (host_exits_prefix host
              (grow_this_zygote V B H w fd objc objv
                 (set_chan (wire (fst (main V U argv c))) s))) as (rest' & Hh).
  apply (main_reads_reply V U argv _ (pid w) (replies fd (rest ++ rest'))).
  - apply client_ok_reply. exact Hok.
  - cbn [c_reply set_c_reply]. rewrite Hh, Hes. unfold replies.
    cbn [app flat_map reply_of]. rewrite Z.eqb_refl. reflexivity.
Qed.

Lemma session_returns_child_pid_witness :
  client_ok 108 demo_argv demo_client /\ - 2 ^ 31 <= 7 < 2 ^ 31 /\
  fst (next_ok (wr_ok demo_child_state)) = true /\
  snd (session 7 8192 108 true demo_world (fun v => v + 3) 5 0 [] demo_child_state
         demo_argv demo_client) = Some (wrap_int (pid demo_world)).
Proof.
  assert (HV : - 2 ^ 31 <= 7 < 2 ^ 31) by lia.
  split; [exact demo_client_ok |]. split; [exact HV |]. split; [reflexivity |].
  exact (session_returns_child_pid 7 8192 108 true demo_world (fun v => v + 3) 5 0 []
           demo_child_state demo_argv demo_client demo_client_ok HV eq_refl).
Defined.

(** X11. A well-behaved client of one protocol version and a daemon of
    another: the child reads the version and nothing more, sends no pid,
    does not enter the unit and exits with the failure status; the failure
    status it wrote is the first integer on the connection, and the client
    returns it. *)
Theorem version_mismatch_reaches_client Vc Vd B U H w fd objc objv s argv c :
  client_ok U argv c -> wrap_int Vc <> Vd ->
  fst (next_ok (wr_ok s)) = true ->
  exists r hs s',
    grow_this_zygote Vd B H w fd objc objv (set_chan (wire (fst (main Vc U argv c))) s) =
      (EvRead fd 4 r :: EvWrite Error_write fd EXIT_FAILURE true :: EvClose fd ::
         hs ++ [EvExit EXIT_FAILURE],
       Exited EXIT_FAILURE s') /\
    Forall hook_event hs /\
    snd (main Vc U argv
           (set_c_reply
              (replies fd
                 (fst (grow_this_zygote Vd B H w fd objc objv
                         (set_chan (wire (fst (main Vc U argv c))) s))))
              c)) = Some EXIT_FAILURE.
Proof.
  intros Hok Hne Hwr.
  pose proof (version_received_main Vc U w argv c s Hok) as Hv.
  destruct (version_mismatch_events Vd B H w fd objc objv _ _ Hv Hne)
    as (r & hs & s' & Hrun & Hhs).
  cbn [wr_ok set_chan] in Hrun. rewrite Hwr in Hrun.
  exists r, hs, s'. split; [exact Hrun |]. split; [exact Hhs |].
  rewrite Hrun. cbn [fst].
  rewrite (main_reads_reply Vc U argv _ EXIT_FAILURE
             (replies fd (EvClose fd :: hs ++ [EvExit EXIT_FAILURE]))).
  - reflexivity.
  - apply client_ok_reply. exact Hok.
  - cbn [c_reply set_c_reply]. unfold replies.
    cbn [app flat_map reply_of]. rewrite Z.eqb_refl. reflexivity.
Qed.

Lemma version_mismatch_reaches_client_witness :
  client_ok 108 demo_argv demo_client /\ wrap_int 7 <> 8 /\
  fst (next_ok (wr_ok demo_child_state)) = true /\
  exists r hs s',
    grow_this_zygote 8 8192 true demo_world 5 0 []
      (set_chan (wire (fst (main 7 108 demo_argv demo_client))) demo_child_state) =
      (EvRead 5 4 r :: EvWrite Error_write 5 EXIT_FAILURE true :: EvClose 5 ::
         hs ++ [EvExit EXIT_FAILURE],
       Exited EXIT_FAILURE s') /\
    Forall hook_event hs /\
    snd (main 7 108 demo_argv
           (set_c_reply
              (replies 5
                 (fst (grow_this_zygote 8 8192 true demo_world 5 0 []
                         (set_chan (wire (fst (main 7 108 demo_argv demo_client)))
                            demo_child_state))))
              demo_client)) = Some EXIT_FAILURE.
Proof.
  assert (Hne : wrap_int 7 <> 8) by (vm_compute; discriminate).
  split; [exact demo_client_ok |]. split; [exact Hne |]. split; [reflexivity |].
  exact (version_mismatch_reaches_client 7 8 8192 108 true demo_world 5 0 []
           demo_child_state demo_argv demo_client demo_client_ok Hne eq_refl).
Defined.

Lemma default_last_in {A} (d : A) l : default d (last l) = d \/ default d (last l) ∈ l.
Proof.
  destruct (last l) as [x |] eqn:Hx; [right | left; reflexivity].
  apply last_Some_elem_of in Hx. exact Hx.
Qed.

Lemma last_argument_ok argv :
  (3 <= length argv)%nat -> Forall str_ok (drop 2 argv) -> str_ok (default [] (last argv)).
Proof.
  intros Hl Hok.
  destruct argv as [| a0 [| a1 [| code args]]]; try (simpl in Hl; lia).
  cbn [drop] in Hok. rewrite !default_last_cons.
  rewrite Forall_forall in Hok. apply Hok.
  unfold cstring in *.
  destruct (default_last_in code args) as [Heq | Hin].
  - rewrite Heq. left.
  - right. exact Hin.
Qed.

(** X12. A well-behaved client whose daemon closes the connection
    without a reply (as the parent does when [fork] fails) does not fail:
    the end of the stream is not an error of [read], [num] keeps the
    length of the last string sent, and that length, the length of the
    last command-line argument, is what [main] returns.  An error of the
    [read] makes it return -1. *)
Theorem client_without_reply V U argv c :
  client_ok U argv c ->
  (c_reply c = [] -> snd (main V U argv c) = Some (strlen (default [] (last argv)))) /\
  (forall rest, c_reply c = CErr :: rest -> snd (main V U argv c) = Some (-1)).
Proof.
  intros Hok. pose proof (main_result V U argv c Hok) as Hres.
  split.
  - intros Hr. rewrite Hres, Hr. cbn [sys_recv fst].
    change (store_bytes ?m []) with m. rewrite bytes_int_int_bytes.
    f_equal. apply wrap_int_small.
    destruct Hok as (Hl & _ & _ & _ & _ & _ & _ & _ & Hargv & _).
    destruct (last_argument_ok argv Hl Hargv) as [_ Hlt].
    unfold strlen, INT_MAX in *. lia.
  - intros rest Hr. rewrite Hres, Hr. reflexivity.
Qed.

Lemma client_without_reply_witness :
  client_ok 108 demo_argv demo_client /\
  (c_reply demo_client = [] ->
   snd (main 7 108 demo_argv demo_client) = Some (strlen (default [] (last demo_argv)))) /\
  (forall rest, c_reply demo_client = CErr :: rest ->
                snd (main 7 108 demo_argv demo_client) = Some (-1)).
Proof.
  split; [exact demo_client_ok |].
  exact (client_without_reply 7 108 demo_argv demo_client demo_client_ok).
Defined.

(** ** Failures of the client's calls *)

Lemma stops_ret {A} (a : A) : stops_at_failure (ret a).
Proof. intros c. reflexivity. Qed.

Lemma stops_bind {A B} (m : C A) (k : A -> C B) :
  stops_at_failure m -> (forall a, stops_at_failure (k a)) -> stops_at_failure (bind m k).
Proof.
  intros Hm Hk c. specialize (Hm c). unfold bind.
  destruct (m c) as [es [a c1 | c1 | c1]]; cbn [fst snd] in *; try exact Hm.
  specialize (Hk a c1). destruct (k a c1) as [es' r]. cbn [fst snd] in *.
  destruct r as [b c2 | c2 | c2].
  - rewrite existsb_app, Hm, Hk. reflexivity.
  - destruct Hk as (pre & e & -> & Hpre & He). exists (es ++ pre), e.
    split; [apply app_assoc |]. split; [rewrite existsb_app, Hm, Hpre; reflexivity | exact He].
  - rewrite existsb_app, Hm, Hk. reflexivity.
Qed.

(** A call whose result is tested against -1 at once. *)
Lemma stops_checked {A} (m : C Z) (k : C A) :
  (forall c, exists e n c', m c = ([e], Done n c') /\ (n = -1 <-> failed e = true)) ->
  stops_at_failure k ->
  stops_at_failure (n <- m ;; if Z.eqb n (-1) then goto_error else k).
Proof.
  intros Hm Hk c. destruct (Hm c) as (e & n & c' & Hr & Hn).
  rewrite (bind_Done _ _ _ _ _ _ Hr).
  destruct (Z.eqb_spec n (-1)) as [Hf | Hf]; cbn [fst snd goto_error].
  - exists [], e. split; [reflexivity |]. split; [reflexivity | apply Hn, Hf].
  - assert (He : failed e = false)
      by (destruct (failed e); [exfalso; apply Hf, Hn; reflexivity | reflexivity]).
    specialize (Hk c'). destruct (k c') as [es' [a c2 | c2 | c2]]; cbn [fst snd app] in *.
    + cbn [existsb]. rewrite He, Hk. reflexivity.
    + destruct Hk as (pre & e' & -> & Hpre & He'). exists (e :: pre), e'.
      split; [reflexivity |]. split; [cbn [existsb]; rewrite He, Hpre; reflexivity | exact He'].
    + cbn [existsb]. rewrite He, Hk. reflexivity.
Qed.

Lemma c_write_checked fd bs c :
  exists e n c', c_write fd bs c = ([e], Done n c') /\ (n = -1 <-> failed e = true).
Proof.
  unfold c_write. destruct (next_ok (c_wr_ok c)) as [[] o];
    eexists _, _, _; (split; [reflexivity |]); cbn; split; intros; try lia; try discriminate;
    reflexivity.
Qed.

Lemma write_fd_checked fd payload k c :
  exists e n c', write_fd fd payload k c = ([e], Done n c') /\ (n = -1 <-> failed e = true).
Proof.
  unfold write_fd. destruct (c_fdt c !! k) as [f |];
    [destruct (next_ok (c_wr_ok c)) as [[] o] |];
    eexists _, _, _; (split; [reflexivity |]); cbn; split; intros; try lia; try discriminate;
    reflexivity.
Qed.

Lemma c_read_num_checked fd c :
  exists e n c', c_read_num fd c = ([e], Done n c') /\ (n = -1 <-> failed e = true).
Proof.
  unfold c_read_num. destruct (sys_recv 4 (c_reply c)) as [[| bs cm] ch];
    eexists _, _, _; (split; [reflexivity |]); cbn; split; intros; try lia; try discriminate;
    reflexivity.
Qed.

Lemma stops_sendNum fd v : stops_at_failure (sendNum fd v).
Proof.
  unfold sendNum. apply stops_bind; [intros c; reflexivity | intros _].
  apply stops_checked; [apply c_write_checked | apply stops_ret].
Qed.

Lemma stops_sendStr fd x : stops_at_failure (sendStr fd x).
Proof.
  unfold sendStr. apply stops_bind; [apply stops_sendNum | intros _].
  apply stops_bind; [intros c; reflexivity | intros c0].
  destruct (Z.ltb (c_num c0) 0); [intros c; reflexivity |].
  apply stops_checked; [apply c_write_checked | apply stops_ret].
Qed.

Lemma stops_send_strings fd l : stops_at_failure (send_strings fd l).
Proof.
  induction l as [| x l IH]; [apply stops_ret |].
  cbn [send_strings]. apply stops_bind; [apply stops_sendStr | intros _; exact IH].
Qed.

Lemma stops_main_body V fd argc argv : stops_at_failure (main_body V fd argc argv).
Proof.
  unfold main_body. cbv zeta.
  apply stops_bind; [apply stops_sendNum | intros _].
  apply stops_bind; [intros c; reflexivity | intros c0].
  apply stops_bind; [apply stops_sendNum | intros _].
  apply stops_bind; [apply stops_send_strings | intros _].
  apply stops_bind; [apply stops_sendStr | intros _].
  apply stops_bind; [apply stops_sendNum | intros _].
  apply stops_bind; [apply stops_sendStr | intros _].
  apply stops_bind; [apply stops_send_strings | intros _].
  apply stops_checked; [apply write_fd_checked |].
  apply stops_checked; [apply write_fd_checked |].
  apply stops_checked; [apply write_fd_checked |].
  apply stops_checked; [apply c_read_num_checked |].
  apply stops_bind; [intros c; reflexivity | intros _].
  apply stops_bind; [intros c; reflexivity | intros c1]. apply stops_ret.
Qed.

(** X13. Whenever one of the calls of [main] fails ([socket], [connect],
    a [write], a [sendmsg], which also fails when the standard descriptor
    to pass is closed, or the final [read]), it is the only call that
    fails and the last one but for the [close] of the socket, if there is
    one, and [main] returns -1. *)
Theorem failed_call_returns_minus_one V U argv c :
  existsb failed (fst (main V U argv c)) = true ->
  snd (main V U argv c) = Some (-1) /\
  exists pre e post,
    fst (main V U argv c) = pre ++ e :: post /\
    existsb failed pre = false /\ failed e = true /\
    (e = CSocket (-1) /\ pre = [] /\ post = [] \/
     exists sfd rest, sfd <> -1 /\ pre = CSocket sfd :: rest /\ post = [CClose sfd]).
Proof.
  unfold main. destruct (Z.ltb (Z.of_nat (length argv)) 3); [discriminate |].
  unfold open_unix_fd.
  destruct (Z.leb (U - 1) (strlen (default [] (argv !! 1%nat)))); [discriminate |].
  destruct (match c_socket c with Some _ => _ | None => _ end) as [[sfd f] |] eqn:Hs.
  2: { intros _. split; [reflexivity |]. exists [], (CSocket (-1)), [].
       repeat split. left. repeat split. }
  assert (Hsfd : sfd <> -1).
  { destruct (c_socket c); [| discriminate].
    destruct (lowest_free _ _) as [d |] eqn:Hl; [| discriminate].
    injection Hs as <- _. apply lowest_free_range in Hl. lia. }
  destruct (c_connect_ok c).
  2: { intros _. split; [reflexivity |].
       exists [CSocket sfd], (CConnect sfd (default [] (argv !! 1%nat)) false), [CClose sfd].
       split; [reflexivity |]. split.
       - cbn. destruct (Z.eqb_spec sfd (-1)); [contradiction | reflexivity].
       - split; [reflexivity |]. right. exists sfd, []. repeat split. exact Hsfd. }
  destruct (Z.eqb_spec sfd (-1)) as [? | _]; [contradiction |].
  pose proof (stops_main_body V sfd (Z.of_nat (length argv)) argv
                (set_c_fdt (<[sfd := f]> (c_fdt c)) c)) as Hstop.
  destruct (main_body V sfd (Z.of_nat (length argv)) argv _) as [es' [v c2 | c2 | c2]];
    cbn [fst snd] in *.
  - cbn [app existsb failed negb]. destruct (Z.eqb_spec sfd (-1)); [contradiction |].
    cbn [orb]. rewrite Hstop. discriminate.
  - intros _. split; [reflexivity |].
    destruct Hstop as (pre & e & -> & Hpre & He).
    exists (CSocket sfd :: CConnect sfd (default [] (argv !! 1%nat)) true :: pre), e,
           [CClose sfd].
    split; [cbn [app]; rewrite <- app_assoc; reflexivity |].
    split.
    + cbn [existsb failed negb]. destruct (Z.eqb_spec sfd (-1)); [contradiction |].
      cbn [orb]. exact Hpre.
    + split; [exact He |]. right. exists sfd, (CConnect sfd (default [] (argv !! 1%nat)) true :: pre).
      repeat split. exact Hsfd.
  - cbn [app existsb failed negb]. destruct (Z.eqb_spec sfd (-1)); [contradiction |].
    cbn [orb]. rewrite Hstop. discriminate.
Qed.

Lemma failed_call_returns_minus_one_witness :
  existsb failed (fst (main 7 108 demo_argv failing_client)) = true /\
  snd (main 7 108 demo_argv failing_client) = Some (-1) /\
  exists pre e post,
    fst (main 7 108 demo_argv failing_client) = pre ++ e :: post /\
    existsb failed pre = false /\ failed e = true /\
    (e = CSocket (-1) /\ pre = [] /\ post = [] \/
     exists sfd rest, sfd <> -1 /\ pre = CSocket sfd :: rest /\ post = [CClose sfd]).
Proof.
  assert (Hf : existsb failed (fst (main 7 108 demo_argv failing_client)) = true)
    by (vm_compute; reflexivity).
  split; [exact Hf |].
  exact (failed_call_returns_minus_one 7 108 demo_argv failing_client Hf).
Defined.

(** ** The bound on the socket path *)

(** X14. The two programs do not accept the same socket paths: a path
    of exactly one byte less than the size of [sun_path] is taken by
    [zygote], which goes on to set up its endpoint under it, and refused
    by the client, which returns -1 without making any call.  A daemon
    listening under such a path cannot be reached with [grow]. *)
Theorem socket_path_bounds_differ V B U H w socket_path ap b conns s V' argv c :
  strlen socket_path = U - 1 ->
  (3 <= length argv)%nat -> argv !! 1%nat = Some socket_path ->
  main V' U argv c = ([], Some (-1)) /\
  exists d rest,
    fst (zygote V B U H w socket_path ap b conns s) =
      EvDup 2 d :: EvUnlink socket_path :: rest.
Proof.
  intros Hlen Hargc Harg. split.
  - unfold main. destruct (Z.ltb_spec (Z.of_nat (length argv)) 3) as [? | _]; [lia |].
    unfold open_unix_fd. unfold cstring in *. rewrite Harg. cbn [default]. unfold id.
    destruct (Z.leb_spec (U - 1) (strlen socket_path)) as [_ | ?]; [reflexivity | lia].
  - zygote_cases U socket_path b; try lia;
      try (eexists _, _; reflexivity).
    all: match goal with
         | |- context [accept_loop ?v0 ?b0 ?h0 ?w0 ?fd0 ?p0 ?oc ?ov ?cs0 ?s5] =>
           destruct (accept_loop v0 b0 h0 w0 fd0 p0 oc ov cs0 s5) as [es out]
         end; eexists _, _; reflexivity.
Qed.

Lemma socket_path_bounds_differ_witness :
  strlen long_path = 108 - 1 /\ (3 <= length long_argv)%nat /\
  long_argv !! 1%nat = Some long_path /\
  main 7 108 long_argv demo_client = ([], Some (-1)) /\
  exists d rest,
    fst (zygote 7 8192 108 false demo_world long_path [] demo_boot [] demo_init) =
      EvDup 2 d :: EvUnlink long_path :: rest.
Proof.
  assert (H1 : strlen long_path = 108 - 1) by reflexivity.
  assert (H2 : (3 <= length long_argv)%nat) by (simpl; lia).
  split; [exact H1 |]. split; [exact H2 |]. split; [reflexivity |].
  exact (socket_path_bounds_differ 7 8192 108 false demo_world long_path [] demo_boot []
           demo_init 7 long_argv demo_client H1 H2 eq_refl).
Defined.

(** ** A request that is served *)

(** The request phase runs to its end on the stream of a well-behaved
    peer of the same version whose pid reply goes through. *)
Lemma recv_request_Done V B w fd s env dir code_path args tail :
  Forall str_ok env -> str_ok dir -> str_ok code_path -> Forall str_ok args ->
  Z.of_nat (length env) < 2 ^ 31 -> Z.of_nat (length args) + 1 < 2 ^ 31 ->
  - 2 ^ 31 <= V < 2 ^ 31 -> fst (next_ok (wr_ok s)) = true ->
  chan s = request_wire V env dir (Z.of_nat (length args) + 1) code_path args tail ->
  exists es s1,
    recv_request V w fd (enter B w s) =
      (es, Done (Z.of_nat (length args) + 1, code_path :: args) s1) /\
    chan s1 = tail /\ kept s1 = kept (enter B w s) /\
    wr_ok s1 = snd (next_ok (wr_ok s)).
Proof.
  intros Henv Hdir Hcode Hargs Hle Hla HV Hwr Hc.
  unfold request_wire, enc_num in Hc. cbn [app] in Hc.
  unfold recv_request.
  (* version *)
  rewrite (bind_Done _ _ _ _ _ _ (recvNum_chunk fd _ _ (enter B w s) Hc)), bind_get.
  cbn [num set_num]. rewrite (wrap_int_small V HV), Z.eqb_refl.
  change (negb true) with false. cbv iota.
  rewrite bind_modify, (bind_Done _ _ _ _ _ _ (sys_write_num_eq _ _ _ _)).
  cbn [wr_ok set_num set_chan enter set_buf set_fds]. rewrite Hwr. cbn [Z.eqb].
  (* environ *)
  match goal with
  | |- context [bind (recvNum fd) _ ?s0] =>
    rewrite (bind_Done _ _ _ _ _ _
               (recvNum_chunk fd (Z.of_nat (length env))
                  (enc_strs env ++ enc_str dir ++
                   CData (int_bytes (Z.of_nat (length args) + 1)) NoCmsg ::
                   enc_str code_path ++ enc_strs args ++ tail) s0 eq_refl))
  end.
  rewrite bind_get. cbn [num set_num].
  rewrite (wrap_int_small (Z.of_nat (length env))) by lia.
  destruct (Z.ltb_spec (Z.of_nat (length env)) 0) as [? | _]; [lia |].
  rewrite bind_modify, Nat2Z.id.
  match goal with
  | |- context [bind (recv_environ w fd (length env)) _ ?s0] =>
    destruct (recv_environ_chunks w fd env
                (enc_str dir ++ CData (int_bytes (Z.of_nat (length args) + 1)) NoCmsg ::
                 enc_str code_path ++ enc_strs args ++ tail) s0 Henv eq_refl)
      as (es2 & s2 & Hr2 & Hd2 & He2)
  end.
  rewrite (bind_Done _ _ _ _ _ _ Hr2).
  (* cwd *)
  destruct (recvStr_chunk w fd dir _ s2 Hdir (proj1 Hd2)) as (es3 & s3 & Hr3 & Hd3 & He3 & _).
  rewrite (bind_Done _ _ _ _ _ _ Hr3), bind_get, bind_emit, bind_modify.
  cbn [fst snd].
  set (s3' := if is_dir w (strdup (buf s3)) then set_cwd (strdup (buf s3)) s3 else s3).
  assert (Hs3' : chan s3' = chan s3 /\ kept s3' = kept s3 /\ wr_ok s3' = wr_ok s3)
    by (subst s3'; destruct (is_dir w _); repeat split).
  destruct Hs3' as (Hc3' & Hk3' & Hw3').
  (* argc *)
  assert (Hc3 : chan s3' = CData (int_bytes (Z.of_nat (length args) + 1)) NoCmsg ::
                           enc_str code_path ++ enc_strs args ++ tail)
    by (rewrite Hc3'; apply Hd3).
  rewrite (bind_Done _ _ _ _ _ _ (recvNum_chunk fd _ _ s3' Hc3)), bind_get.
  cbn [num set_num fst snd].
  rewrite (wrap_int_small (Z.of_nat (length args) + 1)) by lia.
  (* code_path *)
  match goal with
  | |- context [bind (recvStr w fd) _ ?s0] =>
    destruct (recvStr_chunk w fd code_path (enc_strs args ++ tail) s0 Hcode eq_refl)
      as (es4 & s4 & Hr4 & Hd4 & He4 & Hs4)
  end.
  rewrite (bind_Done _ _ _ _ _ _ Hr4), bind_get. cbn [fst snd].
  destruct (Z.leb_spec (Z.of_nat (length args) + 1) 0) as [? | _]; [lia |].
  (* argv *)
  replace (Z.to_nat (Z.of_nat (length args) + 1 - 1)) with (length args) by lia.
  destruct (recv_argv_chunks w fd args [strdup (buf s4)] tail s4 Hargs (proj1 Hd4))
    as (es5 & s5 & Hr5 & Hd5 & He5).
  rewrite (bind_Done _ _ _ _ _ _ Hr5). cbn [fst snd ret]. rewrite Hs4.
  eexists _, s5. split; [reflexivity |].
  destruct Hd5 as (Hc5 & Hw5 & Hk5 & _), Hd4 as (_ & Hw4 & Hk4 & _),
           Hd3 as (_ & Hw3 & Hk3 & _), Hd2 as (_ & Hw2 & Hk2 & _).
  split; [exact Hc5 |]. split.
  - rewrite Hk5, Hk4. cbn [kept globals fdt fds set_num set_chan].
    change (kept s3' = kept (enter B w s)). rewrite Hk3', Hk3, Hk2. reflexivity.
  - rewrite Hw5, Hw4. cbn [wr_ok set_num set_chan]. rewrite Hw3', Hw3, Hw2. reflexivity.
Qed.

Lemma lowest_free_exists lim (t : gmap Z file) d :
  0 <= d < lim -> t !! d = None -> is_Some (lowest_free lim t).
Proof.
  intros Hd Ht. unfold lowest_free.
  destruct (find _ _) as [x |] eqn:Hf; [eexists; reflexivity |].
  exfalso. eapply find_none in Hf.
  - rewrite bool_decide_eq_false in Hf. exact (Hf Ht).
  - apply list_elem_of_In, elem_of_seqZ. lia.
Qed.

(** A descriptor message received while a descriptor is free. *)
Lemma read_fd_installs w fd k p f rest s d0 :
  chan s = CData [p] (Rights f) :: rest ->
  0 <= d0 < nofile w -> (fdt s : gmap Z file) !! d0 = None ->
  exists d s',
    read_fd w fd k s = ([EvRecvmsg fd (RdData [p] (Rights f)) (Some d)], Done 1 s') /\
    chan s' = rest /\ fds s' = <[k := d]> (fds s) /\
    (fdt s : gmap Z file) !! d = None /\ fdt s' = <[d := f]> (fdt s) /\
    wr_ok s' = wr_ok s /\ globals s' = globals s.
Proof.
  intros Hc Hd0 Hfree.
  destruct (lowest_free_exists (nofile w) (fdt s) d0 Hd0 Hfree) as [d Hl].
  unfold read_fd. rewrite Hc. cbn [sys_recv take drop].
  cbn [fdt set_buf set_chan]. rewrite Hl.
  eexists d, _. split; [reflexivity |].
  cbn [chan fds fdt wr_ok set_fds set_fdt set_buf set_chan].
  repeat split. eapply lowest_free_spec. exact Hl.
Qed.

(** The three [dup2] succeed when the slots name open descriptors. *)
Lemma dup_fds_open n : forall i s,
  (forall j, (i <= j < i + n)%nat ->
             is_Some ((fdt s : gmap Z file) !! default (-1) (fds s !! j))) ->
  exists es s',
    dup_fds i n s = (es, Done tt s') /\ Forall decode_event es /\
    wr_ok s' = wr_ok s /\ globals s' = globals s.
Proof.
  induction n as [| n IH]; intros i s Hopen.
  - exists [], s. repeat split. constructor.
  - rewrite dup_fds_S. cbv zeta. unfold sys_dup2.
    destruct (Hopen i ltac:(lia)) as [g Hg]. rewrite Hg.
    destruct (IH (S i) (set_fdt (<[Z.of_nat i := g]> (fdt s)) s)) as (es & s' & Hr & He & Hw & Hgl).
    { intros j Hj. cbn [fdt fds set_fdt]. apply insert_mono. apply Hopen. lia. }
    rewrite Hr. cbn [fst snd]. eexists _, s'. split; [reflexivity |].
    split; [constructor; [exact I | exact He] |]. split; assumption.
Qed.

Lemma recv_stdio_serves w fd p f2 f1 f0 s a :
  chan s = [CData [p] (Rights f2); CData [p] (Rights f1); CData [p] (Rights f0)] ->
  length (fds s) = 3%nat ->
  0 <= a -> a + 3 <= nofile w ->
  (forall d, a <= d < a + 3 -> (fdt s : gmap Z file) !! d = None) ->
  exists es s',
    recv_stdio w fd s = (es, Done tt s') /\ Forall decode_event es /\
    wr_ok s' = wr_ok s /\ globals s' = globals s.
Proof.
  intros Hc Hlen Ha Hlim Hfree. unfold recv_stdio.
  destruct (read_fd_installs w fd 2 p f2 _ s a Hc ltac:(lia) (Hfree a ltac:(lia)))
    as (d2 & s1 & Hr1 & Hc1 & Hs1 & Hn1 & Ht1 & Hw1 & Hg1).
  rewrite (bind_Done _ _ _ _ _ _ Hr1). cbn [Z.eqb].
  assert (Hx1 : exists x, a <= x < a + 3 /\ (fdt s1 : gmap Z file) !! x = None).
  { destruct (decide (d2 = a)) as [-> | Hne].
    - exists (a + 1). split; [lia |]. rewrite Ht1, lookup_insert_ne by lia. apply Hfree. lia.
    - exists a. split; [lia |]. rewrite Ht1, lookup_insert_ne by lia. apply Hfree. lia. }
  destruct Hx1 as (x1 & Hx1 & Hfx1).
  destruct (read_fd_installs w fd 1 p f1 _ s1 x1 Hc1 ltac:(lia) Hfx1)
    as (d1 & s2 & Hr2 & Hc2 & Hs2 & Hn2 & Ht2 & Hw2 & Hg2).
  rewrite (bind_Done _ _ _ _ _ _ Hr2). cbn [Z.eqb].
  assert (Hx2 : exists x, a <= x < a + 3 /\ (fdt s2 : gmap Z file) !! x = None).
  { assert (Hsel : exists x, a <= x < a + 3 /\ x <> d2 /\ x <> d1).
    { destruct (decide (d2 = a)), (decide (d1 = a)), (decide (d2 = a + 1)),
               (decide (d1 = a + 1));
        first [exists a; lia | exists (a + 1); lia | exists (a + 2); lia]. }
    destruct Hsel as (x & Hx & Hxd2 & Hxd1). exists x. split; [exact Hx |].
    rewrite Ht2, lookup_insert_ne, Ht1, lookup_insert_ne by congruence. apply Hfree, Hx. }
  destruct Hx2 as (x2 & Hx2 & Hfx2).
  destruct (read_fd_installs w fd 0 p f0 _ s2 x2 Hc2 ltac:(lia) Hfx2)
    as (d0 & s3 & Hr3 & Hc3 & Hs3 & Hn3 & Ht3 & Hw3 & Hg3).
  rewrite (bind_Done _ _ _ _ _ _ Hr3). cbn [Z.eqb].
  destruct (fds s) as [| u0 [| u1 [| u2 [| u3 us]]]] eqn:Hfds; try discriminate.
  rewrite Hs1 in Hs2. rewrite Hs2 in Hs3. cbn in Hs3.
  destruct (dup_fds_open 3 0 s3) as (es & s' & Hr & He & Hw & Hg).
  { intros j Hj. rewrite Hs3.
    assert (Hopen2 : is_Some ((fdt s3 : gmap Z file) !! d2)).
    { rewrite Ht3, Ht2, Ht1. do 2 apply insert_mono. rewrite lookup_insert_eq. eauto. }
    assert (Hopen1 : is_Some ((fdt s3 : gmap Z file) !! d1)).
    { rewrite Ht3, Ht2. apply insert_mono. rewrite lookup_insert_eq. eauto. }
    assert (Hopen0 : is_Some ((fdt s3 : gmap Z file) !! d0)).
    { rewrite Ht3. rewrite lookup_insert_eq. eauto. }
    destruct j as [| [| [| j]]]; cbn; try assumption. lia. }
  rewrite Hr. cbn [fst snd]. eexists _, s'. split; [reflexivity |].
  split; [repeat (constructor; [exact I |]); exact He |].
  split; congruence.
Qed.

Lemma load_code_Done w path s h run :
  dlopen w (Some path) = Some h -> dlsym w h = Some run ->
  load_code w path s = ([EvDlopen (Some path) (Some h); EvDlsym h true], Done (h, run) s).
Proof.
  intros Ho Hs. unfold load_code. rewrite bind_emit, Ho, bind_emit, Hs. cbn.
  reflexivity.
Qed.

(** X15. A well-behaved client of the daemon's protocol version is
    served: when the loader finds the unit and its entry point, the writes
    on the connection go through and three descriptors are free in the
    child, [grow_this_zygote] decodes the request, installs the
    descriptors, enters the unit once, with the daemon's capability
    objects and the client's arguments from the locator on, and returns
    the unit's return value to the host.  Without the exit hook that
    value is the one status written on the connection; with it nothing is
    written yet, the hook is registered and the connection recorded for
    it. *)
Theorem well_behaved_request_is_served V B U H w fd objc objv s argv c h run a :
  client_ok U argv c -> - 2 ^ 31 <= V < 2 ^ 31 -> wr_ok s = [] ->
  dlopen w (Some (default [] (argv !! 2%nat))) = Some h -> dlsym w h = Some run ->
  0 <= a -> a + 3 <= nofile w ->
  (forall d, a <= d < a + 3 -> (fdt s : gmap Z file) !! d = None) ->
  let args := drop 2 argv in
  let r := run objc objv (Z.of_nat (length args)) args in
  exists es s' t,
    grow_this_zygote V B H w fd objc objv (set_chan (wire (fst (main V U argv c))) s) =
      (es, Returned r s') /\
    In (EvRun objc objv (Z.of_nat (length args)) args t r) es /\
    status_writes es = (if H then [] else [(r, true)]) /\
    exit_hooks s' =
      (if H then Hook_replyWithExitStatus :: exit_hooks s else exit_hooks s) /\
    (H = true -> grow_connection_fd s' = fd).
Proof.
  intros Hok HV Hwr Hopen Hsym Ha Hlim Hfree args r.
  destruct (main_wire V U argv c Hok) as (f0 & f1 & f2 & _ & _ & _ & Hwire).
  destruct Hok as (Hlen & _ & _ & _ & _ & _ & Henv & Hdir & Hargv & Hle & Hla & _).
  set (s0 := set_chan (wire (fst (main V U argv c))) s) in *.
  assert (Hdrop : drop 2 argv = default [] (argv !! 2%nat) :: drop 3 argv).
  { destruct argv as [| a0 [| a1 [| a2 argv]]]; simpl in Hlen; try lia. reflexivity. }
  assert (Hargv' := Hargv). rewrite Hdrop in Hargv'.
  apply Forall_cons in Hargv'. destruct Hargv' as [Hcode Hargs].
  assert (Hla' : Z.of_nat (length (drop 3 argv)) + 1 < 2 ^ 31).
  { rewrite length_drop. lia. }
  subst r args. unfold cstring in *. rewrite Hdrop. cbn [length].
  replace (Z.of_nat (S (length (drop 3 argv)))) with (Z.of_nat (length (drop 3 argv)) + 1)
    by lia.
  rewrite (wrap_int_small V HV) in Hwire.
  assert (Hwr0 : fst (next_ok (wr_ok s0)) = true) by (subst s0; cbn; rewrite Hwr; reflexivity).
  destruct (recv_request_Done V B w fd s0 _ _ _ _ _ Henv Hdir Hcode Hargs Hle Hla' HV Hwr0 Hwire)
    as (es1 & s1 & H1 & Hc1 & Hk1 & Hw1).
  destruct (recv_request_kept V w fd (enter B w s0)) as [He1 _]. rewrite H1 in He1.
  cbn [fst] in He1.
  apply kept_inv in Hk1. destruct Hk1 as (Hg1 & Hf1 & Hd1).
  cbn [fdt fds enter set_buf set_num set_fds set_chan] in Hf1, Hd1. subst s0.
  cbn [fdt set_chan] in Hf1.
  pose proof (load_code_Done w (default [] (argv !! 2%nat)) s1 h run Hopen Hsym) as H2.
  destruct (recv_stdio_serves w fd _ f2 f1 f0 s1 a Hc1) as (es3 & s3 & H3 & He3 & Hw3 & Hg3);
    [rewrite Hd1; reflexivity | exact Ha | exact Hlim | rewrite Hf1; exact Hfree |].
  assert (Hw3' : wr_ok s3 = []).
  { rewrite Hw3, Hw1. cbn [wr_ok set_chan]. rewrite Hwr. reflexivity. }
  unfold grow_this_zygote, grow_this_zygote_body.
  rewrite bind_modify, (bind_Done _ _ _ _ _ _ H1). cbn [fst snd head default].
  rewrite (bind_Done _ _ _ _ _ _ H2). cbn [fst snd].
  rewrite (bind_Done _ _ _ _ _ _ H3), run_and_reply_eq. cbv zeta.
  rewrite Hw3'. cbn [next_ok fst snd].
  assert (Hst1 : status_writes es1 = []).
  { apply status_writes_decode.
    eapply Forall_impl; [exact He1 | exact request_decode_event]. }
  assert (Hst3 : status_writes es3 = []) by (apply status_writes_decode; exact He3).
  assert (Hhooks : exit_hooks s3 = exit_hooks s /\ True).
  { split; [| exact I]. unfold globals in Hg3, Hg1.
    cbn [exit_hooks enter set_buf set_num set_fds set_chan] in Hg1. congruence. }
  destruct Hhooks as [Hhooks _].
  destruct H; cbn [fst snd].
  - eexists _, _, (fdt s3). split; [reflexivity |].
    split; [rewrite ?in_app_iff; cbn [In]; right; right; right; left; left; reflexivity |].
    split.
    + status_norm. rewrite Hst1, Hst3. reflexivity.
    + cbn [exit_hooks grow_connection_fd set_exit_hooks set_grow_connection_fd set_num].
      rewrite Hhooks. split; [reflexivity | intros _; reflexivity].
  - eexists _, _, (fdt s3). split; [reflexivity |].
    split; [rewrite ?in_app_iff; cbn [In]; right; right; right; left; left; reflexivity |].
    split.
    + status_norm. rewrite Hst1, Hst3. reflexivity.
    + cbn [exit_hooks set_wr_ok set_num]. split; [exact Hhooks | discriminate].
Qed.

Lemma well_behaved_request_is_served_witness :
  client_ok 108 demo_argv demo_client /\ - 2 ^ 31 <= 7 < 2 ^ 31 /\
  wr_ok demo_child_state = [] /\
  dlopen demo_world (Some (default [] (demo_argv !! 2%nat))) = Some 1%nat /\
  dlsym demo_world 1%nat = Some (fun _ _ _ _ => 0) /\
  0 <= 6 /\ 6 + 3 <= nofile demo_world /\
  (forall d, 6 <= d < 6 + 3 -> (fdt demo_child_state : gmap Z file) !! d = None) /\
  exists es s' t,
    grow_this_zygote 7 8192 true demo_world 5 0 []
      (set_chan (wire (fst (main 7 108 demo_argv demo_client))) demo_child_state) =
      (es, Returned 0 s') /\
    In (EvRun 0 [] (Z.of_nat (length (drop 2 demo_argv))) (drop 2 demo_argv) t 0) es /\
    status_writes es = [] /\
    exit_hooks s' = Hook_replyWithExitStatus :: exit_hooks demo_child_state /\
    (true = true -> grow_connection_fd s' = 5).
Proof.
  assert (HV : - 2 ^ 31 <= 7 < 2 ^ 31) by lia.
  assert (Ha : 0 <= 6) by lia.
  assert (Hlim : 6 + 3 <= nofile demo_world) by (simpl; lia).
  assert (Hfree : forall d, 6 <= d < 6 + 3 ->
                            (fdt demo_child_state : gmap Z file) !! d = None).
  { intros d Hd. assert (Hc : d = 6 \/ d = 7 \/ d = 8) by lia.
    destruct Hc as [-> | [-> | ->]]; reflexivity. }
  split; [exact demo_client_ok |]. split; [exact HV |]. split; [reflexivity |].
  split; [reflexivity |]. split; [reflexivity |]. split; [exact Ha |].
  split; [exact Hlim |]. split; [exact Hfree |].
  exact (well_behaved_request_is_served 7 8192 108 true demo_world 5 0 [] demo_child_state
           demo_argv demo_client 1%nat (fun _ _ _ _ => 0) 6
           demo_client_ok HV eq_refl eq_refl eq_refl Ha Hlim Hfree).
Defined.

(** ** A request without its descriptors *)

Lemma read_fd_eof w fd k s :
  chan s = [] ->
  read_fd w fd k s = ([EvRecvmsg fd (RdData [] NoCmsg) None], Done 0 s).
Proof.
  intros Hc. unfold read_fd. rewrite Hc. cbn [sys_recv].
  replace (set_chan [] s) with s by (destruct s; cbn in Hc; subst; reflexivity).
  reflexivity.
Qed.

Lemma recv_stdio_eof w fd s :
  chan s = [] ->
  exists rest,
    fst (recv_stdio w fd s) =
      [EvRecvmsg fd (RdData [] NoCmsg) None; EvRecvmsg fd (RdData [] NoCmsg) None;
       EvRecvmsg fd (RdData [] NoCmsg) None;
       EvDup2 (default (-1) (fds s !! 0%nat)) 0
         (bool_decide (is_Some ((fdt s : gmap Z file) !! default (-1) (fds s !! 0%nat))))]
      ++ rest.
Proof.
  intros Hc. unfold recv_stdio.
  rewrite (bind_Done _ _ _ _ _ _ (read_fd_eof w fd 2 s Hc)). cbn [Z.eqb].
  rewrite (bind_Done _ _ _ _ _ _ (read_fd_eof w fd 1 s Hc)). cbn [Z.eqb].
  rewrite (bind_Done _ _ _ _ _ _ (read_fd_eof w fd 0 s Hc)). cbn [Z.eqb].
  rewrite dup_fds_S. cbv zeta. unfold sys_dup2.
  destruct ((fdt s : gmap Z file) !! default (-1) (fds s !! 0%nat)) as [g |] eqn:Hg.
  - rewrite bool_decide_eq_true_2 by eauto. cbn [fst app]. eexists. reflexivity.
  - rewrite bool_decide_eq_false_2 by (intros [? ?]; discriminate).
    cbn [fst app]. exists []. reflexivity.
Qed.

(** X16. A request that is complete but for the three descriptor
    messages (the peer closes the connection after the last argument) is
    not detected as faulty where the descriptors are read: each
    [read_fd] returns 0, which is not -1, the slots of [fds] keep what the
    stack held, and the child goes on to call [dup2] on the first of
    them.  Whether the child then fails depends on that value alone. *)
Theorem missing_descriptors_are_not_detected V B H w fd objc objv s env dir code_path args
    h run :
  Forall str_ok env -> str_ok dir -> str_ok code_path -> Forall str_ok args ->
  Z.of_nat (length env) < 2 ^ 31 -> Z.of_nat (length args) + 1 < 2 ^ 31 ->
  - 2 ^ 31 <= V < 2 ^ 31 -> fst (next_ok (wr_ok s)) = true ->
  chan s = request_wire V env dir (Z.of_nat (length args) + 1) code_path args [] ->
  dlopen w (Some code_path) = Some h -> dlsym w h = Some run ->
  exists pre post,
    fst (grow_this_zygote V B H w fd objc objv s) =
      pre ++
      [EvRecvmsg fd (RdData [] NoCmsg) None; EvRecvmsg fd (RdData [] NoCmsg) None;
       EvRecvmsg fd (RdData [] NoCmsg) None;
       EvDup2 (uninit w 0) 0 (bool_decide (is_Some ((fdt s : gmap Z file) !! uninit w 0)))]
      ++ post /\
    Forall request_event pre.
Proof.
  intros Henv Hdir Hcode Hargs Hle Hla HV Hwr Hc Hopen Hsym.
  destruct (recv_request_Done V B w fd s _ _ _ _ _ Henv Hdir Hcode Hargs Hle Hla HV Hwr Hc)
    as (es1 & s1 & H1 & Hc1 & Hk1 & _).
  destruct (recv_request_kept V w fd (enter B w s)) as [He1 _]. rewrite H1 in He1.
  cbn [fst] in He1.
  apply kept_inv in Hk1. destruct Hk1 as (_ & Hf1 & Hd1).
  cbn [fdt fds enter set_buf set_num set_fds] in Hf1, Hd1.
  pose proof (load_code_Done w code_path s1 h run Hopen Hsym) as H2.
  destruct (recv_stdio_eof w fd s1 Hc1) as (rest & H3).
  rewrite Hd1, Hf1 in H3. cbn [lookup list_lookup default] in H3. unfold id in H3.
  unfold grow_this_zygote, grow_this_zygote_body.
  rewrite bind_modify, (bind_Done _ _ _ _ _ _ H1). cbn [fst snd head default]. unfold id.
  rewrite (bind_Done _ _ _ _ _ _ H2). cbn [fst snd].
  match goal with
  | |- context [bind (recv_stdio w fd) ?k s1] =>
    destruct (bind_prefix (recv_stdio w fd) k s1) as [rest' Hp];
    destruct (bind (recv_stdio w fd) k s1) as [es r]
  end.
  cbn [fst snd] in *. rewrite H3 in Hp. subst es.
  exists (es1 ++ [EvDlopen (Some code_path) (Some h); EvDlsym h true]).
  assert (Hpre : Forall request_event
                   (es1 ++ [EvDlopen (Some code_path) (Some h); EvDlsym h true]))
    by (apply Forall_app; split; [exact He1 | repeat constructor]).
  destruct r as [v s2 | s2 | s2]; cbn [fst snd].
  - exists (rest ++ rest'). split; [| exact Hpre].
    rewrite <- !app_assoc. reflexivity.
  - destruct (error_path fd s2) as [es' out]. cbn [fst].
    exists (rest ++ rest' ++ es'). split; [| exact Hpre].
    rewrite <- !app_assoc. reflexivity.
  - exists (rest ++ rest'). split; [| exact Hpre].
    rewrite <- !app_assoc. reflexivity.
Qed.

Lemma missing_descriptors_are_not_detected_witness :
  Forall str_ok [cs "A=1"] /\ str_ok (cs "/tmp") /\ str_ok (cs "unit.so") /\
  Forall str_ok [cs "a"; cs "b"] /\
  Z.of_nat (length [cs "A=1"]) < 2 ^ 31 /\ Z.of_nat (length [cs "a"; cs "b"]) + 1 < 2 ^ 31 /\
  - 2 ^ 31 <= 7 < 2 ^ 31 /\
  fst (next_ok (wr_ok (set_chan bare_request demo_child_state))) = true /\
  chan (set_chan bare_request demo_child_state) =
    request_wire 7 [cs "A=1"] (cs "/tmp") (Z.of_nat (length [cs "a"; cs "b"]) + 1)
      (cs "unit.so") [cs "a"; cs "b"] [] /\
  dlopen demo_world (Some (cs "unit.so")) = Some 1%nat /\
  dlsym demo_world 1%nat = Some (fun _ _ _ _ => 0) /\
  exists pre post,
    fst (grow_this_zygote 7 8192 false demo_world 5 0 []
           (set_chan bare_request demo_child_state)) =
      pre ++
      [EvRecvmsg 5 (RdData [] NoCmsg) None; EvRecvmsg 5 (RdData [] NoCmsg) None;
       EvRecvmsg 5 (RdData [] NoCmsg) None;
       EvDup2 (uninit demo_world 0) 0
         (bool_decide
            (is_Some ((fdt (set_chan bare_request demo_child_state) : gmap Z file)
                        !! uninit demo_world 0)))]
      ++ post /\
    Forall request_event pre.
Proof.
  assert (H1 : Forall str_ok [cs "A=1"])
    by (apply List.Forall_cons; [solve_str_ok | apply List.Forall_nil]).
  assert (H2 : str_ok (cs "/tmp")) by solve_str_ok.
  assert (H3 : str_ok (cs "unit.so")) by solve_str_ok.
  assert (H4 : Forall str_ok [cs "a"; cs "b"])
    by (apply List.Forall_cons; [solve_str_ok |];
        apply List.Forall_cons; [solve_str_ok | apply List.Forall_nil]).
  assert (H5 : Z.of_nat (length [cs "A=1"]) < 2 ^ 31) by (simpl; lia).
  assert (H6 : Z.of_nat (length [cs "a"; cs "b"]) + 1 < 2 ^ 31) by (simpl; lia).
  assert (H7 : - 2 ^ 31 <= 7 < 2 ^ 31) by lia.
  split; [exact H1 |]. split; [exact H2 |]. split; [exact H3 |]. split; [exact H4 |].
  split; [exact H5 |]. split; [exact H6 |]. split; [exact H7 |].
  split; [reflexivity |]. split; [reflexivity |]. split; [reflexivity |].
  split; [reflexivity |].
  exact (missing_descriptors_are_not_detected 7 8192 false demo_world 5 0 []
           (set_chan bare_request demo_child_state)
           [cs "A=1"] (cs "/tmp") (cs "unit.so") [cs "a"; cs "b"] 1%nat (fun _ _ _ _ => 0)
           H1 H2 H3 H4 H5 H6 H7 eq_refl eq_refl eq_refl eq_refl).
Defined.

(** ** The child reads and writes on its connection only *)

Section OnConnection.

Variable fd : Z.

Lemma sys_read_num_io : frame (io_on fd) (fun _ : state => tt) (sys_read_num fd).
Proof.
  intros s. unfold sys_read_num. destruct (sys_recv 4 (chan s)) as [r ch].
  destruct r; (split; [repeat constructor | reflexivity]).
Qed.

Lemma sys_read_buf_io : frame (io_on fd) (fun _ : state => tt) (sys_read_buf fd).
Proof.
  intros s. unfold sys_read_buf. destruct (sys_recv _ (chan s)) as [r ch].
  destruct r; (split; [repeat constructor | reflexivity]).
Qed.

Lemma sys_write_num_io site v :
  frame (io_on fd) (fun _ : state => tt) (sys_write_num site fd v).
Proof.
  intros s. unfold sys_write_num. destruct (next_ok (wr_ok s)) as [ok o].
  split; [repeat constructor | reflexivity].
Qed.

Lemma read_fd_io w k : frame (io_on fd) (fun _ : state => tt) (read_fd w fd k).
Proof.
  intros s. unfold read_fd. destruct (sys_recv 1 (chan s)) as [r ch].
  destruct r as [| [| b bs] c]; [| | destruct c; [| destruct (lowest_free _ _) |]];
    (split; [repeat constructor | reflexivity]).
Qed.

#[local] Hint Resolve sys_read_num_io sys_read_buf_io sys_write_num_io read_fd_io : frame.

Lemma recvNum_io : frame (io_on fd) (fun _ : state => tt) (recvNum fd).
Proof. unfold recvNum. frame_block. Qed.

#[local] Hint Resolve recvNum_io : frame.

Lemma recvStr_io w : frame (io_on fd) (fun _ : state => tt) (recvStr w fd).
Proof. unfold recvStr. frame_block. Qed.

#[local] Hint Resolve recvStr_io : frame.

Lemma recv_environ_io w i : frame (io_on fd) (fun _ : state => tt) (recv_environ w fd i).
Proof. induction i as [| i IH]; simpl; frame_block. Qed.

Lemma recv_argv_io w n argv : frame (io_on fd) (fun _ : state => tt) (recv_argv w fd n argv).
Proof. revert argv. induction n as [| n IH]; intros argv; simpl; frame_block. Qed.

Lemma dup_fds_io i n : frame (io_on fd) (fun _ : state => tt) (dup_fds i n).
Proof. revert i. induction n as [| n IH]; intros i; simpl; frame_block. Qed.

#[local] Hint Resolve recv_environ_io recv_argv_io dup_fds_io : frame.

Lemma recv_request_io V w : frame (io_on fd) (fun _ : state => tt) (recv_request V w fd).
Proof. unfold recv_request. frame_block. Qed.

Lemma load_code_io w path : frame (io_on fd) (fun _ : state => tt) (load_code w path).
Proof. unfold load_code. frame_block. Qed.

Lemma recv_stdio_io w : frame (io_on fd) (fun _ : state => tt) (recv_stdio w fd).
Proof. unfold recv_stdio. frame_block. Qed.

Lemma run_and_reply_io H objc objv argc argv h run :
  frame (io_on fd) (fun _ : state => tt) (run_and_reply H fd objc objv argc argv h run).
Proof. unfold run_and_reply. frame_block. Qed.

#[local] Hint Resolve recv_request_io load_code_io recv_stdio_io run_and_reply_io : frame.



End OnConnection.



(** ** The end of the accept loop *)

Lemma accept_loop_break V B H w sfd spath objc objv rest d : forall parents s,
  Forall parent_conn parents ->
  (parents <> [] -> lowest_free (nofile w) (fdt s) = Some d) ->
  accept_loop V B H w sfd spath objc objv (parents ++ None :: rest) s =
  (flat_map (parent_events sfd d) parents ++
     [EvAccept sfd (-1); EvClose sfd; EvUnlink spath],
   Returned 0 (set_fdt (delete sfd (fdt s)) s)).
Proof.
  induction parents as [| c parents IH]; intros s Hall Hd; [reflexivity |].
  apply Forall_cons in Hall. destruct Hall as [Hc Hall].
  destruct c as [c |]; [| contradiction]. cbn [parent_conn] in Hc.
  specialize (Hd ltac:(discriminate)).
  cbn [app accept_loop]. rewrite Hd. cbn [option_map].
  destruct (Z.eqb_spec (fork_ret c) 0) as [? | _]; [contradiction |].
  cbn [fdt set_fdt].
  rewrite (delete_insert_id (fdt s) d (conn_file c) (lowest_free_spec _ _ _ Hd)).
  replace (set_fdt (fdt s) (set_fdt (<[d := conn_file c]> (fdt s)) s)) with s
    by (destruct s; reflexivity).
  rewrite (IH s Hall (fun _ => Hd)). reflexivity.
Qed.

(** X18. When [accept] fails in a listening daemon that has been the
    parent of every [fork] so far, [zygote] leaves the loop, closes the
    listening socket, unlinks the socket path and returns 0; the endpoint
    globals still name the socket and the path, so that the exit handler
    registered at the start will close and unlink them once more. *)
Theorem accept_failure_ends_daemon V B U H w socket_path ap b parents rest s s0 :
  snd (zygote V B U H w socket_path ap b [] s) = Listening s0 ->
  Forall parent_conn parents ->
  (parents <> [] -> is_Some (lowest_free (nofile w) (fdt s0))) ->
  exists d s',
    zygote V B U H w socket_path ap b (parents ++ None :: rest) s =
      (fst (zygote V B U H w socket_path ap b [] s) ++
         flat_map (parent_events (zygote_socket_fd s0) d) parents ++
         [EvAccept (zygote_socket_fd s0) (-1); EvClose (zygote_socket_fd s0);
          EvUnlink socket_path],
       Returned 0 s') /\
    s' = set_fdt (delete (zygote_socket_fd s0) (fdt s0)) s0 /\
    (fdt s' : gmap Z file) !! zygote_socket_fd s0 = None /\
    zygote_socket_fd s' = zygote_socket_fd s0 /\
    zygote_socket_path s' = Some socket_path /\
    In Hook_cleanup (exit_hooks s').
Proof.
  intros Hl Hall Hfree.
  destruct (zygote_listening V B U H w socket_path ap b [] s s0 Hl)
    as (_ & _ & _ & _ & f0 & _ & _ & Hpath & Hhooks & _).
  assert (Hd : exists d, parents <> [] -> lowest_free (nofile w) (fdt s0) = Some d).
  { destruct parents as [| c ps]; [exists 0; congruence |].
    destruct (Hfree ltac:(discriminate)) as [d Hd]. exists d. intros _. exact Hd. }
  destruct Hd as [d Hd]. exists d, (set_fdt (delete (zygote_socket_fd s0) (fdt s0)) s0).
  split.
  - revert Hl. zygote_cases U socket_path b; try discriminate.
    all: cbn [accept_loop fst snd]; intros [= <-];
      rewrite (accept_loop_break _ _ _ _ _ _ _ _ rest d parents _ Hall Hd);
      cbn [fst snd zygote_socket_fd set_sig_handlers set_exit_hooks set_endpoint];
      rewrite app_nil_r, <- !app_assoc; reflexivity.
  - split; [reflexivity |]. cbn [fdt set_fdt zygote_socket_fd zygote_socket_path exit_hooks].
    split; [apply lookup_delete_eq |]. split; [reflexivity |]. split; [exact Hpath |].
    rewrite Hhooks. left. reflexivity.
Qed.

Lemma accept_failure_ends_daemon_witness :
  snd (zygote 7 8192 108 false demo_world demo_path [] demo_boot [] demo_init) =
    Listening demo_listening /\
  Forall parent_conn two_served /\
  (two_served <> [] -> is_Some (lowest_free (nofile demo_world) (fdt demo_listening))) /\
  exists d s',
    zygote 7 8192 108 false demo_world demo_path [] demo_boot (two_served ++ None :: [])
      demo_init =
      (fst (zygote 7 8192 108 false demo_world demo_path [] demo_boot [] demo_init) ++
         flat_map (parent_events (zygote_socket_fd demo_listening) d) two_served ++
         [EvAccept (zygote_socket_fd demo_listening) (-1);
          EvClose (zygote_socket_fd demo_listening); EvUnlink demo_path],
       Returned 0 s') /\
    s' = set_fdt (delete (zygote_socket_fd demo_listening) (fdt demo_listening))
           demo_listening /\
    (fdt s' : gmap Z file) !! zygote_socket_fd demo_listening = None /\
    zygote_socket_fd s' = zygote_socket_fd demo_listening /\
    zygote_socket_path s' = Some demo_path /\
    In Hook_cleanup (exit_hooks s').
Proof.
  assert (Hall : Forall parent_conn two_served).
  { apply List.Forall_cons; [simpl; lia |].
    apply List.Forall_cons; [simpl; lia | apply List.Forall_nil]. }
  assert (Hfree : two_served <> [] ->
                  is_Some (lowest_free (nofile demo_world) (fdt demo_listening)))
    by (intros _; exists 5; vm_compute; reflexivity).
  split; [reflexivity |]. split; [exact Hall |]. split; [exact Hfree |].
  exact (accept_failure_ends_daemon 7 8192 108 false demo_world demo_path [] demo_boot
           two_served [] demo_init demo_listening eq_refl Hall Hfree).
Defined.

Lemma failed_start_registers_nothing_witness :
  (108 <= strlen demo_path \/ stale bind_fails = Unlink_failed \/ sock bind_fails = None \/
   bind_ok bind_fails = false \/ listen_ok bind_fails = false) /\
  exists s',
    snd (zygote 7 8192 108 false demo_world demo_path [] bind_fails two_served demo_init) =
      Returned (-1) s' /\
    globals s' = globals demo_init /\
    Forall startup_event
      (fst (zygote 7 8192 108 false demo_world demo_path [] bind_fails two_served demo_init)) /\
    (forall d f, (fdt demo_init : gmap Z file) !! d = Some f ->
                 (fdt s' : gmap Z file) !! d = Some f) /\
    (108 <= strlen demo_path ->
     fst (zygote 7 8192 108 false demo_world demo_path [] bind_fails two_served demo_init) = []
     /\ s' = demo_init).
Proof.
  assert (Hc : 108 <= strlen demo_path \/ stale bind_fails = Unlink_failed \/
               sock bind_fails = None \/ bind_ok bind_fails = false \/
               listen_ok bind_fails = false)
    by (right; right; right; left; reflexivity).
  split; [exact Hc |].
  exact (failed_start_registers_nothing 7 8192 108 false demo_world demo_path [] bind_fails
           two_served demo_init Hc).
Defined.
